(** * LangsmithMigrator: a shallow embedding of [migration.py]

    The migrator is a sequence of HTTP calls against two instances of the
    platform (the "old" one, read with [old_headers], and the "new" one,
    written with [new_headers]).  The embedding keeps the program as it is
    written:

    - a JSON body decoded by [response.json()] is a Python [value];
    - the Python operations the code applies to such values (subscript,
      [.get], [len], [in], truthiness, iteration) are total functions into
      [outcome], which records the exception Python raises;
    - the two remote instances are an abstract state [W] answering each
      request through [http]; a computation threads that state together
      with the log of the calls it has made, so that "creates nothing" is a
      statement about the requests issued;
    - the three [while] loops take fuel and report [OutOfFuel] when it is
      exhausted. *)

From Stdlib Require Import ZArith String Floats.
From stdpp Require Import base list strings pretty.

Local Open Scope Z_scope.

(** ** Python values *)

(** What [json.loads] builds: [None], [bool], [int], [float], [str], [list]
    and [dict] with [str] keys kept in insertion order. *)
#[warnings="-register-all"]
Inductive value : Type :=
| VNone
| VBool (b : bool)
| VInt (z : Z)
| VFloat (f : float)
| VStr (s : string)
| VList (l : list value)
| VDict (d : list (string * value)).

Inductive exn : Type :=
| KeyError
| TypeError
| IndexError
| AttributeError
| ValueError (msg : string)
| JSONDecodeError
| RequestException.

(** The result of evaluating a piece of Python: a value, a raised exception,
    or a loop that was cut short by the fuel of the model. *)
Inductive outcome (A : Type) : Type :=
| Ok (a : A)
| Raise (e : exn)
| OutOfFuel.
Arguments Ok {A} a.
Arguments Raise {A} e.
Arguments OutOfFuel {A}.

Definition obind {A B} (o : outcome A) (k : A -> outcome B) : outcome B :=
  match o with
  | Ok a => k a
  | Raise e => Raise e
  | OutOfFuel => OutOfFuel
  end.

Declare Scope py_scope.
Delimit Scope py_scope with py.
Notation "x <~ c ; k" := (obind c (fun x => k))
  (at level 100, c at next level, right associativity) : py_scope.

Fixpoint omap {A B} (f : A -> outcome B) (l : list A) : outcome (list B) :=
  match l with
  | [] => Ok []
  | x :: l' => (y <~ f x; ys <~ omap f l'; Ok (y :: ys))%py
  end.

Module Py.

(** [bool(v)] *)
Definition truthy (v : value) : bool :=
  match v with
  | VNone => false
  | VBool b => b
  | VInt z => negb (z =? 0)
  | VFloat f => negb (PrimFloat.eqb f 0%float)
  | VStr s => negb (String.eqb s "")
  | VList l => negb (Nat.eqb (length l) 0)
  | VDict d => negb (Nat.eqb (length d) 0)
  end.

Definition is_none (v : value) : bool :=
  match v with VNone => true | _ => false end.

(** Looking a key up in the entries of a [dict]. *)
Fixpoint lookup_key (k : string) (d : list (string * value)) : option value :=
  match d with
  | [] => None
  | (k', v) :: d' => if String.eqb k k' then Some v else lookup_key k d'
  end.

(** [v[k]] for a [str] key [k]. *)
Definition getitem (v : value) (k : string) : outcome value :=
  match v with
  | VDict d => match lookup_key k d with Some x => Ok x | None => Raise KeyError end
  | _ => Raise TypeError
  end.

(** A [str] is held as its UTF-8 encoding, while [len], indexing and
    iteration go by code point, as in Python.  A byte [10xxxxxx] continues
    the code point begun before it. *)
Definition continues (c : Ascii.ascii) : bool :=
  match c with
  | Ascii.Ascii _ _ _ _ _ _ false true => true
  | _ => false
  end.

Definition continued (s : string) : bool :=
  match s with
  | String c _ => continues c
  | EmptyString => false
  end.

Fixpoint code_points (s : string) : list string :=
  match s with
  | EmptyString => []
  | String c s' =>
      match code_points s' with
      | p :: ps =>
          if continued p then String c p :: ps
          else String c EmptyString :: p :: ps
      | [] => [String c EmptyString]
      end
  end.

(** [v[i]] for a non-negative [int] index [i]. *)
Definition getitem_int (v : value) (i : nat) : outcome value :=
  match v with
  | VList l => match l !! i with Some x => Ok x | None => Raise IndexError end
  | VStr s => match code_points s !! i with
              | Some c => Ok (VStr c)
              | None => Raise IndexError
              end
  | VDict _ => Raise KeyError
  | _ => Raise TypeError
  end.

(** [v.get(k, default)] *)
Definition get (v : value) (k : string) (default : value) : outcome value :=
  match v with
  | VDict d => Ok (match lookup_key k d with Some x => x | None => default end)
  | _ => Raise AttributeError
  end.

(** [len(v)] *)
Definition len (v : value) : outcome nat :=
  match v with
  | VList l => Ok (length l)
  | VDict d => Ok (length d)
  | VStr s => Ok (length (code_points s))
  | _ => Raise TypeError
  end.

Fixpoint substring_of (needle hay : string) : bool :=
  if String.prefix needle hay then true
  else match hay with
       | EmptyString => false
       | String _ hay' => substring_of needle hay'
       end.

Definition is_str (k : string) (v : value) : bool :=
  match v with VStr s => String.eqb k s | _ => false end.

(** [k in v] for a [str] [k]: a key of a dict, an element of a list, a
    substring of a string. *)
Definition contains (k : string) (v : value) : outcome bool :=
  match v with
  | VDict d => Ok (match lookup_key k d with Some _ => true | None => false end)
  | VList l => Ok (existsb (is_str k) l)
  | VStr s => Ok (substring_of k s)
  | _ => Raise TypeError
  end.

Definition chars (s : string) : list value := map VStr (code_points s).

(** The elements [for x in v] visits. *)
Definition iter (v : value) : outcome (list value) :=
  match v with
  | VList l => Ok l
  | VDict d => Ok (map (fun kv => VStr (fst kv)) d)
  | VStr s => Ok (chars s)
  | _ => Raise TypeError
  end.

(** [acc += v] on a list [acc]. *)
Definition iadd (acc : list value) (v : value) : outcome (list value) :=
  (xs <~ iter v; Ok (acc ++ xs))%py.

(** A dict display [{k1: e1, ..., kn: en}]: the entries are evaluated from
    left to right, and the first exception wins. *)
Fixpoint display (entries : list (string * outcome value))
  : outcome (list (string * value)) :=
  match entries with
  | [] => Ok []
  | (k, e) :: rest => (v <~ e; d <~ display rest; Ok ((k, v) :: d))%py
  end.

Definition dict (entries : list (string * outcome value)) : outcome value :=
  (d <~ display entries; Ok (VDict d))%py.

(** [d[k] = v] on the entries of a dict with [str] keys. *)
Fixpoint setitem (k : string) (v : value) (d : list (string * value))
  : list (string * value) :=
  match d with
  | [] => [(k, v)]
  | (k', v') :: d' =>
      if String.eqb k k' then (k', v) :: d' else (k', v') :: setitem k v d'
  end.

(** *** Dictionaries keyed by arbitrary values

    The two ID tables of the migrator are dicts whose keys are whatever the
    remote instance sent as ["id"].  A key must be hashable, and keys are
    compared with [==], under which [True == 1 == 1.0]. *)

Definition hashable (v : value) : bool :=
  match v with
  | VList _ | VDict _ => false
  | _ => true
  end.

Definition int_eq_float (z : Z) (f : float) : bool :=
  match Prim2SF f with
  | S754_zero _ => z =? 0
  | S754_finite s m e =>
      let mz := if s then Z.neg m else Z.pos m in
      if 0 <=? e then z =? mz * 2 ^ e else z * 2 ^ (- e) =? mz
  | _ => false
  end.

Definition int_of_bool (b : bool) : Z := if b then 1 else 0.

(** [a == b] on hashable values. *)
Definition eq (a b : value) : bool :=
  match a, b with
  | VNone, VNone => true
  | VStr s, VStr t => String.eqb s t
  | VBool x, VBool y => int_of_bool x =? int_of_bool y
  | VBool x, VInt z | VInt z, VBool x => int_of_bool x =? z
  | VBool x, VFloat f | VFloat f, VBool x => int_eq_float (int_of_bool x) f
  | VInt x, VInt y => x =? y
  | VInt z, VFloat f | VFloat f, VInt z => int_eq_float z f
  | VFloat f, VFloat g => PrimFloat.eqb f g
  | _, _ => false
  end.

Definition table := list (value * value).

Fixpoint table_find (k : value) (t : table) : option value :=
  match t with
  | [] => None
  | (k', v) :: t' => if eq k' k then Some v else table_find k t'
  end.

Fixpoint table_put (k v : value) (t : table) : table :=
  match t with
  | [] => [(k, v)]
  | (k', v') :: t' =>
      if eq k' k then (k', v) :: t' else (k', v') :: table_put k v t'
  end.

(** [t[k] = v] *)
Definition table_setitem (k v : value) (t : table) : outcome table :=
  if hashable k then Ok (table_put k v t) else Raise TypeError.

(** [t[k]] *)
Definition table_getitem (t : table) (k : value) : outcome value :=
  if hashable k then
    match table_find k t with Some v => Ok v | None => Raise KeyError end
  else Raise TypeError.

(** [t.get(k)] *)
Definition table_get (t : table) (k : value) : outcome value :=
  if hashable k then
    Ok (match table_find k t with Some v => v | None => VNone end)
  else Raise TypeError.

End Py.

(** ** Requests *)

Inductive Method : Type := GET | POST.

(** The arguments of one [requests.get] or [requests.post] call. *)
Record Request : Type := mkRequest {
  method : Method;
  url : string;
  headers : list (string * string);
  params : option value;
  json : option value
}.

(** What comes back: a body that [response.json()] decodes, or one it
    cannot decode. *)
Inductive Response : Type :=
| Json (v : value)
| NotJson.

Record LangsmithMigrator : Type := mkMigrator {
  old_headers : list (string * string);
  new_headers : list (string * string);
  base_url : string
}.

(** [LangsmithMigrator.__init__] (the two SDK clients it also builds are
    used by [migrate_prompt] only). *)
Definition init (old_api_key new_api_key : string) : LangsmithMigrator :=
  {| old_headers := [("X-API-Key", old_api_key)];
     new_headers := [("X-API-Key", new_api_key)];
     base_url := "https://api.smith.langchain.com/api/v1" |}.

Declare Scope migrator_scope.
Delimit Scope migrator_scope with M.

Section Migrator.

(** The state of the two remote instances, and how they answer a request:
    [None] when [requests] itself raises (no response at all). *)
Context {W : Type}.
Variable http : Request -> W -> option Response * W.

(** [str(v)] as an f-string interpolates it: part of the Python runtime. *)
Variable py_str : value -> string.

Variable self : LangsmithMigrator.

(** *** Computations: state and exceptions *)

(** One call of [requests.get] or [requests.post] and what it returned. *)
Definition Call : Type := Request * option Response.

Record State : Type := mkState {
  world : W;
  calls : list Call
}.

Definition M (A : Type) : Type := State -> outcome A * State.

Definition ret {A} (a : A) : M A := fun s => (Ok a, s).

Definition bind {A B} (c : M A) (k : A -> M B) : M B :=
  fun s =>
    match c s with
    | (Ok a, s') => k a s'
    | (Raise e, s') => (Raise e, s')
    | (OutOfFuel, s') => (OutOfFuel, s')
    end.

Definition lift {A} (o : outcome A) : M A := fun s => (o, s).

Definition raise {A} (e : exn) : M A := lift (Raise e).

Definition out_of_fuel {A} : M A := lift OutOfFuel.

Local Notation "x <- c ;; k" := (bind c (fun x => k))
  (at level 100, c at next level, right associativity) : migrator_scope.
Local Open Scope migrator_scope.

Definition send (r : Request) : M Response :=
  fun s =>
    let '(reply, w') := http r (world s) in
    let s' := {| world := w'; calls := calls s ++ [(r, reply)] |} in
    match reply with
    | Some response => (Ok response, s')
    | None => (Raise RequestException, s')
    end.

(** [requests.get(url, params=params, headers=headers)] *)
Definition requests_get (u : string) (p : option value)
    (h : list (string * string)) : M Response :=
  send {| method := GET; url := u; headers := h; params := p; json := None |}.

(** [requests.post(url, headers=headers, json=payload)] *)
Definition requests_post (u : string) (h : list (string * string))
    (payload : value) : M Response :=
  send {| method := POST; url := u; headers := h; params := None;
          json := Some payload |}.

(** [response.json()] *)
Definition response_json (r : Response) : outcome value :=
  match r with
  | Json v => Ok v
  | NotJson => Raise JSONDecodeError
  end.

(** [for x in xs: body], threading the variables the body assigns. *)
Fixpoint for_each {A B} (body : A -> B -> M B) (xs : list A) (acc : B) : M B :=
  match xs with
  | [] => ret acc
  | x :: xs' => acc' <- body x acc;; for_each body xs' acc'
  end.

(** *** [migrate_dataset_examples] *)

(** Lines 83-92: the [while last_request_size == 100] loop. *)
Fixpoint fetch_examples (fuel : nat) (original_dataset_id : value)
    (offset last_request_size : nat) (original_examples : list value)
  : M (list value) :=
  if Nat.eqb last_request_size 100 then
    match fuel with
    | O => out_of_fuel
    | S fuel' =>
        response <- requests_get (base_url self +:+ "/examples")
                      (Some (VDict [("dataset", original_dataset_id);
                                    ("offset", VInt (Z.of_nat offset))]))
                      (old_headers self);;
        examples <- lift (response_json response);;
        last_request_size <- lift (Py.len examples);;
        original_examples <- lift (Py.iadd original_examples examples);;
        fetch_examples fuel' original_dataset_id
          (length original_examples) last_request_size original_examples
    end
  else ret original_examples.

(** Line 102. *)
Definition split_of (example : value) : outcome value :=
  (metadata <~ Py.getitem example "metadata";
   if Py.truthy metadata
   then Py.get metadata "dataset_split" (VStr "base")
   else Ok (VStr "base"))%py.

(** Lines 96-103: the payload of one example. *)
Definition example_payload (new_dataset_id example : value) : outcome value :=
  Py.dict
    [("dataset_id", Ok new_dataset_id);
     ("inputs", Py.getitem example "inputs");
     ("outputs", Py.getitem example "outputs");
     ("metadata", Py.getitem example "metadata");
     ("created_at", Py.getitem example "created_at");
     ("split", split_of example)].

(** [xs[i]] on a list the function built itself. *)
Definition list_getitem (xs : list value) (i : nat) : outcome value :=
  match xs !! i with
  | Some x => Ok x
  | None => Raise IndexError
  end.

(** Lines 114-117: the dict comprehension over [range(len(new_examples))]. *)
Fixpoint id_mapping (original_examples : list value) (new_examples : value)
    (indices : list nat) (acc : Py.table) : outcome Py.table :=
  match indices with
  | [] => Ok acc
  | i :: rest =>
      (original <~ list_getitem original_examples i;
       k <~ Py.getitem original "id";
       created <~ Py.getitem_int new_examples i;
       v <~ Py.getitem created "id";
       acc' <~ Py.table_setitem k v acc;
       id_mapping original_examples new_examples rest acc')%py
  end.

Definition migrate_dataset_examples (fuel : nat)
    (original_dataset_id new_dataset_id : value) : M Py.table :=
  original_examples <- fetch_examples fuel original_dataset_id 0 100 [];;
  new_examples_payload <-
    lift (omap (example_payload new_dataset_id) original_examples);;
  response <- requests_post (base_url self +:+ "/examples/bulk")
                (new_headers self) (VList new_examples_payload);;
  new_examples <- lift (response_json response);;
  n <- lift (Py.len new_examples);;
  lift (id_mapping original_examples new_examples (seq 0 n) []).

(** *** [migrate_dataset_experiments] *)

(** Lines 127-135. *)
Fixpoint fetch_experiments (fuel : nat) (original_dataset_id : value)
    (offset last_request_size : nat) (experiments : list value)
  : M (list value) :=
  if Nat.eqb last_request_size 100 then
    match fuel with
    | O => out_of_fuel
    | S fuel' =>
        response <- requests_get
                      (base_url self +:+ "/sessions?reference_dataset="
                         +:+ py_str original_dataset_id
                         +:+ "&offset=" +:+ py_str (VInt (Z.of_nat offset)))
                      None (old_headers self);;
        experiment_batch <- lift (response_json response);;
        last_request_size <- lift (Py.len experiment_batch);;
        experiments <- lift (Py.iadd experiments experiment_batch);;
        fetch_experiments fuel' original_dataset_id
          (length experiments) last_request_size experiments
    end
  else ret experiments.

(** Lines 140-156: the body of [for experiment in experiments]. *)
Definition create_experiment (new_dataset_id experiment : value)
    (original_to_new_experiment_ids : Py.table) : M Py.table :=
  create_tracer_payload <- lift (Py.dict
    [("name", Py.getitem experiment "name");
     ("description", Py.getitem experiment "description");
     ("reference_dataset_id", Ok new_dataset_id);
     ("default_dataset_id", Py.getitem experiment "default_dataset_id");
     ("start_time", Py.getitem experiment "start_time");
     ("end_time", Py.getitem experiment "end_time");
     ("extra", Py.getitem experiment "extra");
     ("trace_tier", Py.get experiment "trace_tier" VNone)]);;
  response <- requests_post (base_url self +:+ "/sessions")
                (new_headers self) create_tracer_payload;;
  body <- lift (response_json response);;
  new_experiment_id <- lift (Py.getitem body "id");;
  k <- lift (Py.getitem experiment "id");;
  lift (Py.table_setitem k new_experiment_id original_to_new_experiment_ids).

(** Lines 172-193: the payload of one run. *)
Definition run_payload
    (original_to_new_experiment_ids original_to_new_example_ids : Py.table)
    (run : value) : outcome value :=
  Py.dict
    [("name", Py.getitem run "name");
     ("inputs", Py.getitem run "inputs");
     ("run_type", Py.getitem run "run_type");
     ("start_time", Py.getitem run "start_time");
     ("end_time", Py.getitem run "end_time");
     ("extra", Py.getitem run "extra");
     ("error", Py.get run "error" VNone);
     ("serialized", Py.get run "serialized" (VDict []));
     ("outputs", Py.getitem run "outputs");
     ("parent_run_id", Py.get run "parent_run_id" VNone);
     ("events", Py.get run "events" (VList []));
     ("tags", Py.get run "tags" (VList []));
     ("trace_id", Py.getitem run "trace_id");
     ("id", Py.getitem run "id");
     ("dotted_order", Py.getitem run "dotted_order");
     ("session_id",
       (old <~ Py.getitem run "session_id";
        Py.table_getitem original_to_new_experiment_ids old)%py);
     ("session_name", Py.get run "session_name" VNone);
     ("reference_example_id",
       (old <~ Py.get run "reference_example_id" VNone;
        Py.table_get original_to_new_example_ids old)%py);
     ("input_attachments", Py.get run "input_attachments" (VDict []));
     ("output_attachments", Py.get run "output_attachments" (VDict []))].

(** Lines 163-206: the [while True] loop over the pages of runs. *)
Fixpoint push_runs (fuel : nat)
    (original_to_new_experiment_ids original_to_new_example_ids : Py.table)
    (get_runs_payload : list (string * value)) : M unit :=
  match fuel with
  | O => out_of_fuel
  | S fuel' =>
      get_runs_response <- requests_post (base_url self +:+ "/runs/query")
                             (old_headers self) (VDict get_runs_payload);;
      body <- lift (response_json get_runs_response);;
      original_runs <- lift (Py.getitem body "runs");;
      runs <- lift (Py.iter original_runs);;
      post <- lift (omap (run_payload original_to_new_experiment_ids
                            original_to_new_example_ids) runs);;
      _ <- requests_post (base_url self +:+ "/runs/batch")
             (new_headers self) (VDict [("post", VList post)]);;
      cursors <- lift (Py.getitem body "cursors");;
      next <- lift (Py.getitem cursors "next");;
      if Py.is_none next then ret tt
      else push_runs fuel' original_to_new_experiment_ids
             original_to_new_example_ids
             (Py.setitem "cursor" next get_runs_payload)
  end.

Definition migrate_dataset_experiments (fuel : nat)
    (original_dataset_id new_dataset_id : value)
    (original_to_new_example_ids : Py.table) : M unit :=
  experiments <- fetch_experiments fuel original_dataset_id 0 100 [];;
  original_to_new_experiment_ids <-
    for_each (create_experiment new_dataset_id) experiments [];;
  session <- lift (omap (fun experiment => Py.getitem experiment "id")
                     experiments);;
  push_runs fuel original_to_new_experiment_ids original_to_new_example_ids
    [("session", VList session); ("skip_pagination", VBool false)].

(** *** [migrate_dataset] *)

(** Lines 33-43.  [Some id] is the early [return]; [None] falls through
    to the creation of the dataset. *)
Definition existing_dataset (check_if_already_exists : bool)
    (original_dataset : value) : M (option value) :=
  if check_if_already_exists then
    name <- lift (Py.getitem original_dataset "name");;
    response <- requests_get
                  (base_url self +:+ "/datasets?name=" +:+ py_str name)
                  None (new_headers self);;
    body <- lift (response_json response);;
    detail <- lift (Py.contains "detail" body);;
    if negb detail then
      let maybe_existing_datasets := body in
      n <- lift (Py.len maybe_existing_datasets);;
      if Nat.ltb 1 n then
        raise (ValueError ("Found multiple datasets with name "
                             +:+ py_str name +:+ " in new instance"))
      else if Nat.eqb n 1 then
        first <- lift (Py.getitem_int maybe_existing_datasets 0);;
        id <- lift (Py.getitem first "id");;
        ret (Some id)
      else ret None
    else ret None
  else ret None.

(** Lines 46-55. *)
Definition create_dataset_payload (original_dataset : value) : outcome value :=
  Py.dict
    [("name", Py.getitem original_dataset "name");
     ("description", Py.getitem original_dataset "description");
     ("created_at", Py.getitem original_dataset "created_at");
     ("inputs_schema_definition",
       Py.getitem original_dataset "inputs_schema_definition");
     ("outputs_schema_definition",
       Py.getitem original_dataset "outputs_schema_definition");
     ("externally_managed", Py.getitem original_dataset "externally_managed");
     ("transformations",
       (t <~ Py.getitem original_dataset "transformations";
        if Py.truthy t then Py.getitem original_dataset "transformations"
        else Ok (VList []))%py);
     ("data_type", Py.getitem original_dataset "data_type")].

(** Lines 46-72: what follows the existence check. *)
Definition create_dataset (fuel : nat) (original_dataset_id : value)
    (migration_mode : string) (original_dataset : value) : M value :=
  payload <- lift (create_dataset_payload original_dataset);;
  create_response <- requests_post (base_url self +:+ "/datasets")
                       (new_headers self) payload;;
  body <- lift (response_json create_response);;
  new_dataset_id <- lift (Py.getitem body "id");;
  _ <- (if String.eqb migration_mode "EXAMPLES" then
          _ <- migrate_dataset_examples fuel original_dataset_id new_dataset_id;;
          ret tt
        else if String.eqb migration_mode "EXAMPLES_AND_EXPERIMENTS" then
          original_to_new_example_ids <-
            migrate_dataset_examples fuel original_dataset_id new_dataset_id;;
          migrate_dataset_experiments fuel original_dataset_id new_dataset_id
            original_to_new_example_ids
        else ret tt);;
  ret new_dataset_id.

Definition migrate_dataset (fuel : nat) (original_dataset_id : value)
    (check_if_already_exists : bool) (migration_mode : string) : M value :=
  response <- requests_get
                (base_url self +:+ "/datasets/" +:+ py_str original_dataset_id)
                None (old_headers self);;
  original_dataset <- lift (response_json response);;
  existing <- existing_dataset check_if_already_exists original_dataset;;
  match existing with
  | Some id => ret id
  | None => create_dataset fuel original_dataset_id migration_mode
              original_dataset
  end.

(** *** [migrate_annotation_queue] *)

(** Lines 224-234. *)
Definition existing_annotation_queue (check_if_already_exists : bool)
    (original_annotation_queue : value) : M (option value) :=
  if check_if_already_exists then
    name <- lift (Py.getitem original_annotation_queue "name");;
    response <- requests_get
                  (base_url self +:+ "/annotation_queues?name=" +:+ py_str name)
                  None (new_headers self);;
    body <- lift (response_json response);;
    detail <- lift (Py.contains "detail" body);;
    if negb detail then
      let maybe_existing_annotation_queues := body in
      n <- lift (Py.len maybe_existing_annotation_queues);;
      if Nat.ltb 1 n then
        raise (ValueError ("Found multiple annotation queues with name "
                             +:+ py_str name +:+ " in new instance"))
      else if Nat.eqb n 1 then
        first <- lift (Py.getitem_int maybe_existing_annotation_queues 0);;
        id <- lift (Py.getitem first "id");;
        ret (Some id)
      else ret None
    else ret None
  else ret None.

(** Lines 237-245. *)
Definition queue_default_dataset (fuel : nat) (migration_mode : string)
    (original_annotation_queue : value) : M value :=
  if String.eqb migration_mode "QUEUE_AND_DATASET" then
    d <- lift (Py.getitem original_annotation_queue "default_dataset");;
    if negb (Py.is_none d) then migrate_dataset fuel d true "EXAMPLES"
    else ret VNone
  else ret VNone.

(** Lines 248-260. *)
Definition create_annotation_queue_payload
    (original_annotation_queue default_dataset : value) : outcome value :=
  Py.dict
    [("name", Py.getitem original_annotation_queue "name");
     ("description", Py.getitem original_annotation_queue "description");
     ("created_at", Py.getitem original_annotation_queue "created_at");
     ("updated_at", Py.getitem original_annotation_queue "updated_at");
     ("default_dataset", Ok default_dataset);
     ("num_reviewers_per_item",
       Py.getitem original_annotation_queue "num_reviewers_per_item");
     ("enable_reservations",
       Py.getitem original_annotation_queue "enable_reservations");
     ("reservation_minutes",
       Py.getitem original_annotation_queue "reservation_minutes");
     ("rubric_items", Py.getitem original_annotation_queue "rubric_items");
     ("rubric_instructions",
       Py.getitem original_annotation_queue "rubric_instructions");
     ("session_ids", Ok (VList []))].

(** Lines 236-267: what follows the existence check. *)
Definition create_annotation_queue (fuel : nat) (migration_mode : string)
    (original_annotation_queue : value) : M value :=
  default_dataset <-
    queue_default_dataset fuel migration_mode original_annotation_queue;;
  payload <- lift (create_annotation_queue_payload
                     original_annotation_queue default_dataset);;
  response <- requests_post (base_url self +:+ "/annotation-queues")
                (new_headers self) payload;;
  body <- lift (response_json response);;
  new_annotation_queue_id <- lift (Py.getitem body "id");;
  ret new_annotation_queue_id.

Definition migrate_annotation_queue (fuel : nat)
    (old_annotation_queue_id : value) (check_if_already_exists : bool)
    (migration_mode : string) : M value :=
  response <- requests_get
                (base_url self +:+ "/annotation-queues/"
                   +:+ py_str old_annotation_queue_id)
                None (old_headers self);;
  original_annotation_queue <- lift (response_json response);;
  existing <- existing_annotation_queue check_if_already_exists
                original_annotation_queue;;
  match existing with
  | Some id => ret id
  | None => create_annotation_queue fuel migration_mode
              original_annotation_queue
  end.

(** *** [migrate_project_rules] *)

(** Lines 306-327. *)
Definition create_rule_payload
    (new_project_id old_rule add_to_annotation_queue_id add_to_dataset_id : value)
  : outcome value :=
  Py.dict
    [("display_name", Py.getitem old_rule "display_name");
     ("session_id", Ok new_project_id);
     ("is_enabled", Py.getitem old_rule "is_enabled");
     ("dataset_id", Ok VNone);
     ("sampling_rate", Py.getitem old_rule "sampling_rate");
     ("filter", Py.getitem old_rule "filter");
     ("trace_filter", Py.getitem old_rule "trace_filter");
     ("tree_filter", Py.getitem old_rule "tree_filter");
     ("add_to_annotation_queue_id", Ok add_to_annotation_queue_id);
     ("add_to_dataset_id", Ok add_to_dataset_id);
     ("add_to_dataset_prefer_correction",
       Py.getitem old_rule "add_to_dataset_prefer_correction");
     ("use_corrections_dataset", Py.getitem old_rule "use_corrections_dataset");
     ("num_few_shot_examples", Py.getitem old_rule "num_few_shot_examples");
     ("extend_only", Py.getitem old_rule "extend_only");
     ("transient", Py.getitem old_rule "transient");
     ("backfill_from", Py.getitem old_rule "backfill_from");
     ("evaluators", Py.getitem old_rule "evaluators");
     ("code_evaluators", Py.getitem old_rule "code_evaluators");
     ("alerts", Py.getitem old_rule "alerts");
     ("webhooks", Py.getitem old_rule "webhooks")].

(** Lines 283-332: the body of [for old_rule in old_rules]. *)
Definition migrate_rule (fuel : nat) (new_project_id old_rule : value)
    (_ : unit) : M unit :=
  dataset_id <- lift (Py.getitem old_rule "dataset_id");;
  if negb (Py.is_none dataset_id) then ret tt
  else
    target <- lift (Py.getitem old_rule "add_to_dataset_id");;
    add_to_dataset_id <-
      (if negb (Py.is_none target)
       then migrate_dataset fuel target true "EXAMPLES"
       else ret VNone);;
    queue <- lift (Py.getitem old_rule "add_to_annotation_queue_id");;
    add_to_annotation_queue_id <-
      (if negb (Py.is_none queue)
       then migrate_annotation_queue fuel queue true "QUEUE_AND_DATASET"
       else ret VNone);;
    payload <- lift (create_rule_payload new_project_id old_rule
                       add_to_annotation_queue_id add_to_dataset_id);;
    _ <- requests_post (base_url self +:+ "/runs/rules")
           (new_headers self) payload;;
    ret tt.

Definition migrate_project_rules (fuel : nat)
    (old_project_id new_project_id : value) : M unit :=
  response <- requests_get
                (base_url self +:+ "/runs/rules?session_id="
                   +:+ py_str old_project_id)
                None (old_headers self);;
  body <- lift (response_json response);;
  old_rules <- lift (Py.iter body);;
  for_each (migrate_rule fuel new_project_id) old_rules tt.

(** *** Vocabulary of the properties *)

(** The calls a computation made on top of those already in the log. *)
Definition new_calls (s s' : State) : list Call :=
  drop (length (calls s)) (calls s').

(** The [GET /examples] request for the page at [offset]. *)
Definition examples_request (original_dataset_id : value) (offset : nat)
  : Request :=
  {| method := GET;
     url := base_url self +:+ "/examples";
     headers := old_headers self;
     params := Some (VDict [("dataset", original_dataset_id);
                            ("offset", VInt (Z.of_nat offset))]);
     json := None |}.

(** The [POST /examples/bulk] request carrying [payload]. *)
Definition bulk_request (payload : list value) : Request :=
  {| method := POST;
     url := base_url self +:+ "/examples/bulk";
     headers := new_headers self;
     params := None;
     json := Some (VList payload) |}.

(** A source that serves the examples [exs] of a dataset by offset, a
    hundred to a page, and is not changed by being read. *)
Definition serves_examples (original_dataset_id : value) (exs : list value)
  : Prop :=
  forall (w : W) (offset : nat),
    http (examples_request original_dataset_id offset) w
    = (Some (Json (VList (take 100 (drop offset exs)))), w).

(** The call that fetches page [k] of [exs]. *)
Definition page_call (original_dataset_id : value) (exs : list value)
    (k : nat) : Call :=
  (examples_request original_dataset_id (100 * k),
   Some (Json (VList (take 100 (drop (100 * k) exs))))).

(** The records of [l] carry the string identifiers [ids], in order. *)
Definition has_ids (l : list value) (ids : list string) : Prop :=
  Forall2 (fun x id => Py.getitem x "id" = Ok (VStr id)) l ids.

(** The table pairing the i-th old identifier with the i-th new one. *)
Definition id_table (old_ids new_ids : list string) : Py.table :=
  zip (map VStr old_ids) (map VStr new_ids).

(** The split of an example as the specification words it: the
    ["dataset_split"] entry of its metadata when the metadata is an object
    that has one, and ["base"] otherwise. *)
Definition expected_split (example : value) : value :=
  match example with
  | VDict fields =>
      match Py.lookup_key "metadata" fields with
      | Some (VDict metadata) =>
          match Py.lookup_key "dataset_split" metadata with
          | Some v => v
          | None => VStr "base"
          end
      | _ => VStr "base"
      end
  | _ => VStr "base"
  end.

(** A computation only adds calls to the log, and the calls it adds
    satisfy [T]. *)
Definition traces {A} (T : list Call -> Prop) (c : M A) : Prop :=
  forall s, exists cs, calls (c s).2 = calls s ++ cs /\ T cs.

(** Every call a computation makes satisfies [P]. *)
Definition emits {A} (P : Call -> Prop) (c : M A) : Prop :=
  traces (Forall P) c.

(** The requests of [migrate_dataset]: fetching the source dataset,
    looking its name up on the destination, creating it there. *)
Definition dataset_request (original_dataset_id : value) : Request :=
  {| method := GET;
     url := base_url self +:+ "/datasets/" +:+ py_str original_dataset_id;
     headers := old_headers self;
     params := None;
     json := None |}.

Definition dataset_lookup (name : value) : Request :=
  {| method := GET;
     url := base_url self +:+ "/datasets?name=" +:+ py_str name;
     headers := new_headers self;
     params := None;
     json := None |}.

Definition dataset_create (payload : value) : Request :=
  {| method := POST;
     url := base_url self +:+ "/datasets";
     headers := new_headers self;
     params := None;
     json := Some payload |}.

(** A call that creates a dataset, and how many of them a log has. *)
Definition is_dataset_create (c : Call) : bool :=
  match method c.1 with
  | POST => String.eqb (url c.1) (base_url self +:+ "/datasets")
  | GET => false
  end.

Definition creations (cs : list Call) : nat :=
  length (filter (fun c => is_dataset_create c = true) cs).

(** A call that writes: the migrator reads with [GET] and, on the source,
    with the run query. *)
Definition is_post (c : Call) : bool :=
  match method c.1 with POST => true | GET => false end.

(** The requests of [migrate_annotation_queue]. *)
Definition queue_request (old_annotation_queue_id : value) : Request :=
  {| method := GET;
     url := base_url self +:+ "/annotation-queues/"
              +:+ py_str old_annotation_queue_id;
     headers := old_headers self;
     params := None;
     json := None |}.

Definition queue_lookup (name : value) : Request :=
  {| method := GET;
     url := base_url self +:+ "/annotation_queues?name=" +:+ py_str name;
     headers := new_headers self;
     params := None;
     json := None |}.

Definition queue_create (payload : value) : Request :=
  {| method := POST;
     url := base_url self +:+ "/annotation-queues";
     headers := new_headers self;
     params := None;
     json := Some payload |}.

(** The requests of [migrate_project_rules]. *)
Definition rules_request (old_project_id : value) : Request :=
  {| method := GET;
     url := base_url self +:+ "/runs/rules?session_id="
              +:+ py_str old_project_id;
     headers := old_headers self;
     params := None;
     json := None |}.

Definition rule_create (payload : value) : Request :=
  {| method := POST;
     url := base_url self +:+ "/runs/rules";
     headers := new_headers self;
     params := None;
     json := Some payload |}.

(** [response.json()["id"]] on what a call returned. *)
Definition created_id (reply : option Response) : outcome value :=
  match reply with
  | Some response =>
      (body <~ response_json response; Py.getitem body "id")%py
  | None => Raise RequestException
  end.

(** The state after one more call. *)
Definition after (s : State) (r : Request) : State :=
  {| world := (http r (world s)).2;
     calls := calls s ++ [(r, (http r (world s)).1)] |}.

(** The requests of the run loop of [migrate_dataset_experiments]. *)
Definition query_request (get_runs_payload : list (string * value))
  : Request :=
  {| method := POST;
     url := base_url self +:+ "/runs/query";
     headers := old_headers self;
     params := None;
     json := Some (VDict get_runs_payload) |}.

Definition batch_request (post : list value) : Request :=
  {| method := POST;
     url := base_url self +:+ "/runs/batch";
     headers := new_headers self;
     params := None;
     json := Some (VDict [("post", VList post)]) |}.

(** A table typed [Dict[str, str]]: every key is a string. *)
Definition str_keys (t : Py.table) : Prop :=
  Forall (fun kv => exists k, kv.1 = VStr k) t.

(** What the payload [p] submitted for the source run [run] must be:
    re-pointed to the new experiment and the new example, with the
    identity of the run unchanged. *)
Definition repointed
    (original_to_new_experiment_ids original_to_new_example_ids : Py.table)
    (run p : value) : Prop :=
  (exists old new,
      Py.getitem run "session_id" = Ok old
      /\ Py.table_find old original_to_new_experiment_ids = Some new
      /\ Py.getitem p "session_id" = Ok new)
  /\ match Py.getitem run "reference_example_id" with
     | Ok old =>
         Py.getitem p "reference_example_id"
         = Ok (match Py.table_find old original_to_new_example_ids with
               | Some new => new
               | None => VNone
               end)
     | _ => Py.getitem p "reference_example_id" = Ok VNone
     end
  /\ Py.getitem p "id" = Py.getitem run "id"
  /\ Py.getitem p "trace_id" = Py.getitem run "trace_id"
  /\ Py.getitem p "dotted_order" = Py.getitem run "dotted_order"
  /\ Py.getitem p "parent_run_id" = Py.get run "parent_run_id" VNone.

(** The shape of the calls of the run loop: each batch submitted follows
    the query whose answer holds the runs it rewrites. *)
Inductive run_pages (exp_ids ex_ids : Py.table) : list Call -> Prop :=
| run_pages_nil : run_pages exp_ids ex_ids []
| run_pages_query get_runs_payload reply :
    run_pages exp_ids ex_ids [(query_request get_runs_payload, reply)]
| run_pages_batch get_runs_payload body original_runs runs post reply rest :
    Py.getitem body "runs" = Ok original_runs ->
    Py.iter original_runs = Ok runs ->
    omap (run_payload exp_ids ex_ids) runs = Ok post ->
    run_pages exp_ids ex_ids rest ->
    run_pages exp_ids ex_ids
      ((query_request get_runs_payload, Some (Json body))
         :: (batch_request post, reply) :: rest).

(** The [POST /sessions] request creating an experiment. *)
Definition experiment_create (create_tracer_payload : value) : Request :=
  {| method := POST;
     url := base_url self +:+ "/sessions";
     headers := new_headers self;
     params := None;
     json := Some create_tracer_payload |}.

(** A call that leaves the source as it is: a read, the query of the runs,
    or a request made with the credentials of the destination. *)
Definition source_safe (c : Call) : Prop :=
  method c.1 = GET
  \/ url c.1 = base_url self +:+ "/runs/query"
  \/ headers c.1 = new_headers self.

(** The [GET /sessions] request for the experiments at [offset]. *)
Definition experiments_request (original_dataset_id : value) (offset : nat)
  : Request :=
  {| method := GET;
     url := base_url self +:+ "/sessions?reference_dataset="
              +:+ py_str original_dataset_id
              +:+ "&offset=" +:+ py_str (VInt (Z.of_nat offset));
     headers := old_headers self;
     params := None;
     json := None |}.

(** A source that serves the experiments [exps] of a dataset by offset, a
    hundred to a page, and is not changed by being read. *)
Definition serves_experiments (original_dataset_id : value)
    (exps : list value) : Prop :=
  forall (w : W) (offset : nat),
    http (experiments_request original_dataset_id offset) w
    = (Some (Json (VList (take 100 (drop offset exps)))), w).

(** The new identifier recorded for the old identifier [o] when the pairs
    are entered one after the other: that of the last pair that has [o]. *)
Fixpoint latest (o : string) (pairs : list (string * string))
  : option string :=
  match pairs with
  | [] => None
  | (a, b) :: rest =>
      match latest o rest with
      | Some n => Some n
      | None => if String.eqb a o then Some b else None
      end
  end.

(** [body["cursors"]["next"]], null when it cannot be read. *)
Definition next_cursor (body : value) : value :=
  match (cursors <~ Py.getitem body "cursors"; Py.getitem cursors "next")%py
  with
  | Ok next => next
  | _ => VNone
  end.

(** The pages of runs a source serves from the query [get_runs_payload] on:
    each query is answered, whatever the state, by the body of the page,
    whose runs are rewritten into [post]; the cursor of every page but the
    last is not null and is the cursor of the next query. *)
Fixpoint serves_runs (exp_ids ex_ids : Py.table)
    (get_runs_payload : list (string * value))
    (pages : list (value * list value)) : Prop :=
  match pages with
  | [] => False
  | (body, post) :: rest =>
      (forall w, http (query_request get_runs_payload) w
                 = (Some (Json body), w))
      /\ (exists original_runs runs,
             Py.getitem body "runs" = Ok original_runs
             /\ Py.iter original_runs = Ok runs
             /\ omap (run_payload exp_ids ex_ids) runs = Ok post)
      /\ (exists cursors next,
             Py.getitem body "cursors" = Ok cursors
             /\ Py.getitem cursors "next" = Ok next)
      /\ match rest with
         | [] => next_cursor body = VNone
         | _ :: _ =>
             next_cursor body <> VNone
             /\ serves_runs exp_ids ex_ids
                  (Py.setitem "cursor" (next_cursor body) get_runs_payload)
                  rest
         end
  end.

(** The requests the run loop makes for those pages. *)
Fixpoint run_requests (get_runs_payload : list (string * value))
    (pages : list (value * list value)) : list Request :=
  match pages with
  | [] => []
  | (body, post) :: rest =>
      query_request get_runs_payload
        :: batch_request post
        :: run_requests
             (Py.setitem "cursor" (next_cursor body) get_runs_payload) rest
  end.

(** The identifier [new] is the one the destination answered to the
    creation, for the dataset [new_dataset_id], of the source experiment
    whose identifier is the string [o], the last of them if several have
    it; [cs] are the calls that created the [experiments], one each, in
    order. *)
Definition issued_for (new_dataset_id : value) (experiments : list value)
    (cs : list Call) (o : string) (new : value) : Prop :=
  exists k experiment payload reply,
    experiments !! k = Some experiment
    /\ Py.getitem experiment "id" = Ok (VStr o)
    /\ (forall k' experiment',
          (k < k')%nat -> experiments !! k' = Some experiment' ->
          Py.getitem experiment' "id" <> Ok (VStr o))
    /\ cs !! k = Some (experiment_create payload, Some (Json reply))
    /\ Py.getitem payload "reference_dataset_id" = Ok new_dataset_id
    /\ Py.getitem reply "id" = Ok new.

(** A run the loop can rewrite: it has the fields that are subscripted,
    its session is a key of the table of experiments, and its reference
    example, when it has one, is hashable.  It need not have a
    ["reference_example_id"], nor one the table of examples knows. *)
Definition rewritable (original_to_new_experiment_ids : Py.table)
    (run : value) : Prop :=
  (forall k,
      k ∈ ["name"; "inputs"; "run_type"; "start_time"; "end_time"; "extra";
           "outputs"; "trace_id"; "id"; "dotted_order"] ->
      exists v, Py.getitem run k = Ok v)
  /\ (exists old new,
         Py.getitem run "session_id" = Ok old
         /\ Py.hashable old = true
         /\ Py.table_find old original_to_new_experiment_ids = Some new)
  /\ (forall ref,
         Py.getitem run "reference_example_id" = Ok ref ->
         Py.hashable ref = true).

(** In the calls [cs], every query answered with runs that can all be
    rewritten is followed at once by the batch of those runs, re-pointed:
    nothing is raised in between. *)
Definition batches_follow (exp_ids ex_ids : Py.table) (cs : list Call)
  : Prop :=
  forall i get_runs_payload body original_runs runs,
    cs !! i = Some (query_request get_runs_payload, Some (Json body)) ->
    Py.getitem body "runs" = Ok original_runs ->
    Py.iter original_runs = Ok runs ->
    Forall (rewritable exp_ids) runs ->
    exists post reply,
      cs !! S i = Some (batch_request post, reply)
      /\ Forall2 (repointed exp_ids ex_ids) runs post.

End Migrator.

Arguments State : clear implicits.
Arguments M : clear implicits.

(** ** An in-memory platform

    A stand-in for the remote service, used to run the migrator on concrete
    data: the source instance is fixed data that is only read, the
    destination instance is the state, and every record the destination
    creates gets the next identifier ["new-<n>"].  Unknown paths are answered
    with [{"detail": "Not Found"}], as is the search by dataset name while it
    is down. *)
Module Fake.

Record instance : Type := mkInstance {
  datasets : list value;
  examples : list value;
  sessions : list value;
  runs : list value;
  queues : list value;
  rules : list value
}.

Definition empty : instance :=
  {| datasets := []; examples := []; sessions := []; runs := [];
     queues := []; rules := [] |}.

(** The destination: what it stores, how many identifiers it has issued,
    and whether its search by dataset name is down (it then answers with
    an error body). *)
Record platform : Type := mkPlatform {
  destination : instance;
  issued : nat;
  search_down : bool
}.

Definition old_api_key : string := "old-key".
Definition new_api_key : string := "new-key".

(** [str()] on the values the scenarios interpolate. *)
Definition str (v : value) : string :=
  match v with
  | VStr s => s
  | VInt z => pretty z
  | VBool true => "True"
  | VBool false => "False"
  | VNone => "None"
  | _ => "<object>"
  end.

Fixpoint strip_prefix (p s : string) : option string :=
  match p, s with
  | EmptyString, _ => Some s
  | String a p', String b s' =>
      if Ascii.eqb a b then strip_prefix p' s' else None
  | _, _ => None
  end.

Fixpoint split_on (sep s : string) : option (string * string) :=
  match strip_prefix sep s with
  | Some rest => Some (EmptyString, rest)
  | None =>
      match s with
      | EmptyString => None
      | String c s' =>
          match split_on sep s' with
          | Some (a, b) => Some (String c a, b)
          | None => None
          end
      end
  end.

Definition digit (c : Ascii.ascii) : option nat :=
  let n := Ascii.nat_of_ascii c in
  if (48 <=? n)%nat && (n <=? 57)%nat then Some (n - 48)%nat else None.

Fixpoint parse_nat_from (acc : nat) (s : string) : option nat :=
  match s with
  | EmptyString => Some acc
  | String c s' =>
      match digit c with
      | Some d => parse_nat_from (10 * acc + d) s'
      | None => None
      end
  end.

Definition parse_nat (s : string) : option nat :=
  match s with
  | EmptyString => None
  | _ => parse_nat_from 0 s
  end.

Definition field (k : string) (v : value) : value :=
  match v with
  | VDict d => match Py.lookup_key k d with Some x => x | None => VNone end
  | _ => VNone
  end.

Definition has (k : string) (x : value) (v : value) : bool :=
  Py.eq (field k v) x.

Fixpoint keep (p : value -> bool) (l : list value) : list value :=
  match l with
  | [] => []
  | x :: l' => if p x then x :: keep p l' else keep p l'
  end.

Definition not_found : Response :=
  Json (VDict [("detail", VStr "Not Found")]).

Definition find_by_id (id : string) (l : list value) : Response :=
  match keep (has "id" (VStr id)) l with
  | x :: _ => Json x
  | [] => not_found
  end.

Definition with_id (n : nat) (v : value) : value :=
  match v with
  | VDict d => VDict (("id", VStr ("new-" +:+ pretty n)) :: d)
  | _ => v
  end.

Fixpoint with_ids (n : nat) (l : list value) : list value :=
  match l with
  | [] => []
  | x :: l' => with_id n x :: with_ids (S n) l'
  end.

Definition nat_of (v : value) : nat :=
  match v with
  | VInt z => Z.to_nat z
  | VStr s => match parse_nat s with Some n => n | None => 0%nat end
  | _ => 0%nat
  end.

Definition in_sessions (ids : value) (run : value) : bool :=
  match ids with
  | VList l => existsb (Py.eq (field "session_id" run)) l
  | _ => false
  end.

(** Runs come two to a page; the cursor is the offset of the next page. *)
Definition runs_page (all : list value) (cursor : value) : value :=
  let start := nat_of cursor in
  let next := (start + 2)%nat in
  VDict [("runs", VList (take 2 (drop start all)));
         ("cursors",
           VDict [("next",
                    if (next <? length all)%nat
                    then VStr (pretty next) else VNone)])].

Definition serve (i : instance) (n : nat) (base : string) (r : Request)
  : Response * instance * nat :=
  match strip_prefix base (url r) with
  | None => (not_found, i, n)
  | Some path =>
      match method r with
      | GET =>
          if String.eqb path "/examples" then
            match params r with
            | Some p =>
                (Json (VList (take 100 (drop (nat_of (field "offset" p))
                   (keep (has "dataset_id" (field "dataset" p))
                      (examples i))))), i, n)
            | None => (not_found, i, n)
            end
          else
          match strip_prefix "/datasets/" path with
          | Some id => (find_by_id id (datasets i), i, n)
          | None =>
          match strip_prefix "/datasets?name=" path with
          | Some name =>
              (Json (VList (keep (has "name" (VStr name)) (datasets i))), i, n)
          | None =>
          match strip_prefix "/annotation-queues/" path with
          | Some id => (find_by_id id (queues i), i, n)
          | None =>
          match strip_prefix "/annotation-queues?name=" path with
          | Some name =>
              (Json (VList (keep (has "name" (VStr name)) (queues i))), i, n)
          | None =>
          match strip_prefix "/runs/rules?session_id=" path with
          | Some id =>
              (Json (VList (keep (has "session_id" (VStr id)) (rules i))), i, n)
          | None =>
          match strip_prefix "/sessions?reference_dataset=" path with
          | Some rest =>
              match split_on "&offset=" rest with
              | Some (id, offset) =>
                  (Json (VList (take 100 (drop (nat_of (VStr offset))
                     (keep (has "reference_dataset_id" (VStr id))
                        (sessions i))))), i, n)
              | None => (not_found, i, n)
              end
          | None => (not_found, i, n)
          end end end end end end
      | POST =>
          match json r with
          | None => (not_found, i, n)
          | Some body =>
              if String.eqb path "/datasets" then
                let d := with_id n body in
                (Json d,
                 {| datasets := datasets i ++ [d]; examples := examples i;
                    sessions := sessions i; runs := runs i;
                    queues := queues i; rules := rules i |}, S n)
              else if String.eqb path "/examples/bulk" then
                match body with
                | VList l =>
                    let created := with_ids n l in
                    (Json (VList created),
                     {| datasets := datasets i;
                        examples := examples i ++ created;
                        sessions := sessions i; runs := runs i;
                        queues := queues i; rules := rules i |},
                     (n + length l)%nat)
                | _ => (not_found, i, n)
                end
              else if String.eqb path "/sessions" then
                let d := with_id n body in
                (Json d,
                 {| datasets := datasets i; examples := examples i;
                    sessions := sessions i ++ [d]; runs := runs i;
                    queues := queues i; rules := rules i |}, S n)
              else if String.eqb path "/runs/query" then
                (Json (runs_page
                         (keep (in_sessions (field "session" body)) (runs i))
                         (field "cursor" body)), i, n)
              else if String.eqb path "/runs/batch" then
                match field "post" body with
                | VList l =>
                    (Json (VDict [("message", VStr "Runs batch ingested")]),
                     {| datasets := datasets i; examples := examples i;
                        sessions := sessions i; runs := runs i ++ l;
                        queues := queues i; rules := rules i |}, n)
                | _ => (not_found, i, n)
                end
              else if String.eqb path "/annotation-queues" then
                let d := with_id n body in
                (Json d,
                 {| datasets := datasets i; examples := examples i;
                    sessions := sessions i; runs := runs i;
                    queues := queues i ++ [d]; rules := rules i |}, S n)
              else if String.eqb path "/runs/rules" then
                let d := with_id n body in
                (Json d,
                 {| datasets := datasets i; examples := examples i;
                    sessions := sessions i; runs := runs i;
                    queues := queues i; rules := rules i ++ [d] |}, S n)
              else (not_found, i, n)
          end
      end
  end.

Definition migrator : LangsmithMigrator := init old_api_key new_api_key.

(** The source answers from [source] and never changes; the destination
    answers from, and updates, the platform state. *)
Definition is_dataset_search (r : Request) : bool :=
  match method r, strip_prefix (base_url migrator +:+ "/datasets?name=") (url r) with
  | GET, Some _ => true
  | _, _ => false
  end.

Definition unavailable : Response :=
  Json (VDict [("detail", VStr "Service Unavailable")]).

Definition http (source : instance) (r : Request) (w : platform)
  : option Response * platform :=
  if decide (headers r = old_headers migrator) then
    (Some (serve source 0 (base_url migrator) r).1.1, w)
  else if decide (headers r = new_headers migrator) then
    if search_down w && is_dataset_search r then (Some unavailable, w)
    else
      let '(response, i, n) :=
        serve (destination w) (issued w) (base_url migrator) r in
      (Some response,
       {| destination := i; issued := n; search_down := search_down w |})
  else (None, w).

Definition start (i : instance) : State platform :=
  {| world := {| destination := i; issued := 0; search_down := false |};
     calls := [] |}.

Definition start_search_down (i : instance) : State platform :=
  {| world := {| destination := i; issued := 0; search_down := true |};
     calls := [] |}.

End Fake.

(** ** A source instance to migrate

    One dataset of 250 examples, one of three with two experiments and
    three runs, an annotation queue whose default dataset is the small
    one, and two rules of a project, the first of which carries a
    [dataset_id]. *)
Module Scenario.

Definition dataset (id name : string) : value :=
  VDict [("id", VStr id); ("name", VStr name);
         ("description", VStr "questions and answers");
         ("created_at", VStr "2024-01-01T00:00:00");
         ("inputs_schema_definition", VNone);
         ("outputs_schema_definition", VNone);
         ("externally_managed", VBool false);
         ("transformations", VNone);
         ("data_type", VStr "kv")].

Definition metadata_of (n : nat) : value :=
  match (n mod 3)%nat with
  | 0%nat => VNone
  | 1%nat => VDict [("dataset_split", VStr "holdout")]
  | _ => VDict [("note", VStr "no split")]
  end.

Definition example (dataset_id prefix : string) (n : nat) : value :=
  VDict [("id", VStr (prefix +:+ pretty n));
         ("dataset_id", VStr dataset_id);
         ("inputs", VDict [("question", VInt (Z.of_nat n))]);
         ("outputs", VDict [("answer", VInt (Z.of_nat (2 * n)))]);
         ("metadata", metadata_of n);
         ("created_at", VStr "2024-01-02T00:00:00")].

Definition large_examples : list value := map (example "ds1" "a-") (seq 0 250).
Definition small_examples : list value := map (example "ds2" "b-") (seq 0 3).

Definition experiment (id name : string) : value :=
  VDict [("id", VStr id); ("name", VStr name); ("description", VNone);
         ("reference_dataset_id", VStr "ds2");
         ("default_dataset_id", VNone);
         ("start_time", VStr "2024-02-01T00:00:00");
         ("end_time", VStr "2024-02-01T01:00:00");
         ("extra", VDict [])].

Definition run (id session_id dotted_order : string)
    (more : list (string * value)) : value :=
  VDict ([("id", VStr id); ("name", VStr "chain"); ("inputs", VDict []);
          ("run_type", VStr "chain");
          ("start_time", VStr "2024-02-01T00:10:00");
          ("end_time", VStr "2024-02-01T00:11:00");
          ("extra", VDict []); ("outputs", VDict []);
          ("trace_id", VStr "t1"); ("dotted_order", VStr dotted_order);
          ("session_id", VStr session_id)] ++ more).

Definition runs : list value :=
  [run "r1" "e1" "1" [("reference_example_id", VStr "b-1")];
   run "r2" "e2" "1.2" [("parent_run_id", VStr "r1")];
   run "r3" "e1" "1.3" [("parent_run_id", VStr "r1");
                        ("reference_example_id", VNone)]].

Definition queue : value :=
  VDict [("id", VStr "q1"); ("name", VStr "review");
         ("description", VNone);
         ("created_at", VStr "2024-03-01T00:00:00");
         ("updated_at", VStr "2024-03-02T00:00:00");
         ("default_dataset", VStr "ds2");
         ("num_reviewers_per_item", VInt 1);
         ("enable_reservations", VBool true);
         ("reservation_minutes", VInt 5);
         ("rubric_items", VList []);
         ("rubric_instructions", VNone)].

Definition rule (name : string) (dataset_id add_to_dataset_id : value)
  : value :=
  VDict [("display_name", VStr name); ("session_id", VStr "p1");
         ("is_enabled", VBool true); ("dataset_id", dataset_id);
         ("sampling_rate", VFloat 0.5%float); ("filter", VNone);
         ("trace_filter", VNone); ("tree_filter", VNone);
         ("add_to_annotation_queue_id", VNone);
         ("add_to_dataset_id", add_to_dataset_id);
         ("add_to_dataset_prefer_correction", VBool false);
         ("use_corrections_dataset", VBool false);
         ("num_few_shot_examples", VNone); ("extend_only", VBool false);
         ("transient", VBool false); ("backfill_from", VNone);
         ("evaluators", VNone); ("code_evaluators", VNone);
         ("alerts", VNone); ("webhooks", VNone)].

Definition guarded_rule : value := rule "guarded" (VStr "ds9") (VStr "ds2").
Definition collecting_rule : value := rule "collect" VNone (VStr "ds2").

Definition source : Fake.instance :=
  {| Fake.datasets := [dataset "ds1" "foo"; dataset "ds2" "bar"];
     Fake.examples := large_examples ++ small_examples;
     Fake.sessions := [experiment "e1" "first"; experiment "e2" "second"];
     Fake.runs := runs;
     Fake.queues := [queue];
     Fake.rules := [guarded_rule; collecting_rule] |}.

(** A destination that already has two datasets named ["bar"]. *)
Definition two_bars : Fake.instance :=
  {| Fake.datasets := [dataset "x1" "bar"; dataset "x2" "bar"];
     Fake.examples := []; Fake.sessions := []; Fake.runs := [];
     Fake.queues := []; Fake.rules := [] |}.

(** A destination that already has the dataset ["bar"] and the queue
    ["review"]. *)
Definition migrated : Fake.instance :=
  {| Fake.datasets := [dataset "x1" "bar"];
     Fake.examples := []; Fake.sessions := []; Fake.runs := [];
     Fake.queues := [queue]; Fake.rules := [] |}.

Definition http := Fake.http source.

(** The payloads the migrator builds for the examples [exs]. *)
Definition payloads (new_dataset_id : value) (exs : list value)
  : list value :=
  match omap (example_payload new_dataset_id) exs with
  | Ok payload => payload
  | _ => []
  end.

End Scenario.

(** ** Servers that answer by rote

    [Stub.http answer] answers each request by a function of the request
    alone and has no state; [Stub.scripted] answers the calls in turn from a
    list of replies, whatever is asked. *)
Module Stub.

Definition http (answer : Request -> option Response) (r : Request) (w : unit)
  : option Response * unit :=
  (answer r, w).

Definition scripted (r : Request) (replies : list (option Response))
  : option Response * list (option Response) :=
  match replies with
  | [] => (None, [])
  | reply :: rest => (reply, rest)
  end.

Definition start : State unit := {| world := tt; calls := [] |}.

Definition script (replies : list (option Response))
  : State (list (option Response)) :=
  {| world := replies; calls := [] |}.

Definition migrator : LangsmithMigrator := init "old-key" "new-key".

(** The offset a [GET /examples] request asks for. *)
Definition offset_of (r : Request) : nat :=
  match params r with
  | Some p => Fake.nat_of (Fake.field "offset" p)
  | None => 0%nat
  end.

Definition item (n : nat) : value :=
  VDict [("id", VStr ("i-" +:+ pretty n)); ("inputs", VDict []);
         ("outputs", VDict []); ("metadata", VNone);
         ("created_at", VStr "2024-01-02T00:00:00")].

Definition items (n : nat) : list value := map item (seq 0 n).

(** A source that ignores the offset and always answers its first hundred
    examples. *)
Definition same_page (r : Request) : option Response :=
  Some (Json (VList (items 100))).

(** A source of 120 examples whose pages hold 50. *)
Definition pages_of_50 (r : Request) : option Response :=
  Some (Json (VList (take 50 (drop (offset_of r) (items 120))))).

(** A source that answers every request with an error body. *)
Definition forbidden (r : Request) : option Response :=
  Some (Json (VDict [("detail", VStr "Forbidden")])).

End Stub.

(** ** More data to run the migrator on *)
Module Cases.

Definition with_field (k : string) (v : value) (x : value) : value :=
  match x with
  | VDict d => VDict (Py.setitem k v d)
  | _ => x
  end.

Fixpoint drop_key (k : string) (d : list (string * value))
  : list (string * value) :=
  match d with
  | [] => []
  | (k', v) :: d' =>
      if String.eqb k k' then drop_key k d' else (k', v) :: drop_key k d'
  end.

Definition without_field (k : string) (x : value) : value :=
  match x with
  | VDict d => VDict (drop_key k d)
  | _ => x
  end.

(** An example that lacks its inputs. *)
Definition broken_example : value :=
  without_field "inputs" (Scenario.example "ds3" "c-" 0).

Definition plain_queue : value :=
  with_field "default_dataset" VNone Scenario.queue.

Definition keyless_queue : value :=
  without_field "default_dataset" Scenario.queue.

(** A queue whose default dataset the source does not have. *)
Definition orphan_queue : value :=
  with_field "id" (VStr "q3")
    (with_field "default_dataset" (VStr "gone") Scenario.queue).

Definition plain_rule : value := Scenario.rule "plain" VNone VNone.

Definition routing_rule : value :=
  with_field "add_to_annotation_queue_id" (VStr "q1")
    (Scenario.rule "route" VNone VNone).

Definition lost_rule : value := Scenario.rule "lost" VNone (VStr "gone").

(** A source with a dataset whose only example is broken, and a queue and
    rules that point to datasets it does not have. *)
Definition faulty_source : Fake.instance :=
  {| Fake.datasets := [Scenario.dataset "ds3" "broken"];
     Fake.examples := [broken_example];
     Fake.sessions := [];
     Fake.runs := [];
     Fake.queues := [orphan_queue];
     Fake.rules := [plain_rule; lost_rule; Scenario.collecting_rule] |}.

Definition faulty_http := Fake.http faulty_source.

(** Records as a destination answers them, with identifiers only. *)
Definition created (n : nat) : list value :=
  map (fun k => VDict [("id", VStr ("n-" +:+ pretty k))]) (seq 0 n).

(** A source that serves [exs] by offset and a destination that answers
    every [POST] with [bulk]. *)
Definition paged (exs : list value) (bulk : Response) (r : Request)
  : option Response :=
  match method r with
  | GET => Some (Json (VList (take 100 (drop (Stub.offset_of r) exs))))
  | POST => Some bulk
  end.

Definition twin_items : list value :=
  [Stub.item 0; Stub.item 1; Stub.item 0].

Definition experiments_url (offset : nat) : string :=
  url (experiments_request Fake.str Stub.migrator (VStr "ds2") offset).

Definition experiments : list value :=
  [Scenario.experiment "e1" "first"; Scenario.experiment "e2" "second"].

(** A source of two experiments, which reads the offset off the URL. *)
Definition two_experiments (r : Request) : option Response :=
  if String.eqb (url r) (experiments_url 0) then
    Some (Json (VList experiments))
  else if String.eqb (url r) (experiments_url 1) then
    Some (Json (VList (drop 1 experiments)))
  else Some (Json (VList [])).

(** The first query of the runs of the two experiments, what the source of
    the scenario answers a query, and the batch a page is rewritten into. *)
Definition first_query : list (string * value) :=
  [("session", VList [VStr "e1"; VStr "e2"]);
   ("skip_pagination", VBool false)].

Definition second_query : list (string * value) :=
  Py.setitem "cursor" (VStr "2") first_query.

Definition page_of (get_runs_payload : list (string * value)) : value :=
  match (Scenario.http (query_request Fake.migrator get_runs_payload)
           (world (Fake.start Fake.empty))).1 with
  | Some (Json body) => body
  | _ => VNone
  end.

Definition exp_ids : Py.table := id_table ["e1"; "e2"] ["new-0"; "new-1"].
Definition ex_ids : Py.table :=
  id_table ["b-0"; "b-1"; "b-2"] ["new-1"; "new-2"; "new-3"].

Definition batch_of (body : value) : list value :=
  match (original_runs <~ Py.getitem body "runs";
         runs <~ Py.iter original_runs;
         omap (run_payload exp_ids ex_ids) runs)%py with
  | Ok post => post
  | _ => []
  end.

Definition pages : list (value * list value) :=
  [(page_of first_query, batch_of (page_of first_query));
   (page_of second_query, batch_of (page_of second_query))].

Definition error_body : value := VDict [("detail", VStr "Forbidden")].

End Cases.

(** ** Properties *)

Section Properties.

Context {W : Type}.
Variable http : Request -> W -> option Response * W.
Variable py_str : value -> string.
Variable self : LangsmithMigrator.

Local Open Scope nat_scope.

(** *** Running a computation *)

Lemma send_answer (r : Request) (s : State W) reply w' :
  http r (world s) = (Some reply, w') ->
  send http r s = (Ok reply, mkState w' (calls s ++ [(r, Some reply)])).
Proof. intros H. unfold send. rewrite H. reflexivity. Qed.

Lemma bind_ok {A B} (c : M W A) (k : A -> M W B) s a s' :
  c s = (Ok a, s') -> bind c k s = k a s'.
Proof. intros H. unfold bind. rewrite H. reflexivity. Qed.

Lemma bind_raise {A B} (c : M W A) (k : A -> M W B) s e s' :
  c s = (Raise e, s') -> bind c k s = (Raise e, s').
Proof. intros H. unfold bind. rewrite H. reflexivity. Qed.

Lemma bind_lift {A B} (o : outcome A) (k : A -> M W B) s :
  bind (lift o) k s
  = match o with
    | Ok a => k a s
    | Raise e => (Raise e, s)
    | OutOfFuel => (OutOfFuel, s)
    end.
Proof. unfold bind, lift. destruct o; reflexivity. Qed.

Lemma new_calls_app (s : State W) w cs :
  new_calls s (mkState w (calls s ++ cs)) = cs.
Proof. unfold new_calls. simpl. apply drop_app_length. Qed.

Lemma omap_Forall2 {A B} (f : A -> outcome B) l l' :
  omap f l = Ok l' -> Forall2 (fun x y => f x = Ok y) l l'.
Proof.
  revert l'. induction l as [|x l IH]; intros l' H; cbn in H.
  - injection H as <-. constructor.
  - destruct (f x) as [y| |] eqn:Hx; cbn in H; try discriminate.
    destruct (omap f l) as [ys| |]; cbn in H; try discriminate.
    injection H as <-. constructor; auto.
Qed.

Lemma Forall2_omap {A B} (f : A -> outcome B) l l' :
  Forall2 (fun x y => f x = Ok y) l l' -> omap f l = Ok l'.
Proof.
  induction 1 as [|x y l l' Hx _ IH]; cbn; [done|].
  rewrite Hx, IH. reflexivity.
Qed.

Lemma snd_bind_lift {A B} (o : outcome A) (k : A -> M W B) (s : State W) :
  (forall a, (k a s).2 = s) -> (bind (lift o) k s).2 = s.
Proof. intros H. rewrite bind_lift. destruct o; auto. Qed.

(** *** The calls a computation makes *)

Lemma traces_lift {A} (T : list Call -> Prop) (o : outcome A) :
  T [] -> traces (W:=W) T (lift o).
Proof. intros HT s. exists []. rewrite app_nil_r. done. Qed.

Lemma traces_bind {A B} (T1 T2 T : list Call -> Prop)
    (c : M W A) (k : A -> M W B) :
  traces T1 c -> (forall a, traces T2 (k a)) ->
  (forall cs, T1 cs -> T cs) ->
  (forall cs cs', T1 cs -> T2 cs' -> T (cs ++ cs')) ->
  traces T (bind c k).
Proof.
  intros Hc Hk H1 H12 s. destruct (Hc s) as (cs & Hcs & HT).
  unfold bind. destruct (c s) as [[a|e|] s1]; cbn [snd] in *.
  - destruct (Hk a s1) as (cs' & Hcs' & HT').
    exists (cs ++ cs'). rewrite Hcs', Hcs, app_assoc. auto.
  - exists cs. auto.
  - exists cs. auto.
Qed.

Lemma traces_weaken {A} (T T' : list Call -> Prop) (c : M W A) :
  (forall cs, T cs -> T' cs) -> traces T c -> traces T' c.
Proof.
  intros HT Hc s. destruct (Hc s) as (cs & Hcs & Hcs'). exists cs. auto.
Qed.

Lemma traces_new_calls {A} T (c : M W A) s :
  traces T c -> T (new_calls s (c s).2).
Proof.
  intros Hc. destruct (Hc s) as (cs & Hcs & HT).
  unfold new_calls. rewrite Hcs, drop_app_length. exact HT.
Qed.

Lemma emits_lift {A} P (o : outcome A) : emits (W:=W) P (lift o).
Proof. apply traces_lift. constructor. Qed.

Lemma emits_ret {A} P (a : A) : emits (W:=W) P (ret a).
Proof. apply (emits_lift P (Ok a)). Qed.

Lemma emits_bind {A B} P (c : M W A) (k : A -> M W B) :
  emits P c -> (forall a, emits P (k a)) -> emits P (bind c k).
Proof.
  intros Hc Hk. eapply traces_bind; eauto.
  intros cs cs' H H'. apply Forall_app; done.
Qed.

Lemma emits_send P (r : Request) :
  (forall reply, P (r, reply)) -> emits P (send http r).
Proof.
  intros HP s. unfold send.
  destruct (http r (world s)) as [[response|] w']; cbn [snd calls];
    eexists; (split; [reflexivity|]); repeat constructor; apply HP.
Qed.

Lemma emits_for_each {A B} P (body : A -> B -> M W B) xs :
  (forall x acc, emits P (body x acc)) ->
  forall acc, emits P (for_each body xs acc).
Proof.
  intros Hbody. induction xs as [|x xs IH]; intros acc; cbn [for_each].
  - apply emits_ret.
  - apply emits_bind; [apply Hbody|]. intros acc'. apply IH.
Qed.

Lemma emits_weaken {A} (P Q : Call -> Prop) (c : M W A) :
  (forall x, P x -> Q x) -> emits P c -> emits Q c.
Proof.
  intros HPQ Hc s. destruct (Hc s) as (cs & Hcs & HP).
  exists cs. split; [done|]. eapply Forall_impl; eauto.
Qed.

Lemma emits_new_calls {A} P (c : M W A) s :
  emits P c -> Forall P (new_calls s (c s).2).
Proof.
  intros Hc. destruct (Hc s) as (cs & Hcs & HP).
  unfold new_calls. rewrite Hcs, drop_app_length. exact HP.
Qed.

Ltac emits_step :=
  lazymatch goal with
  | |- emits _ (lift _) => apply emits_lift
  | |- emits _ (raise _) => apply emits_lift
  | |- emits _ out_of_fuel => apply emits_lift
  | |- emits _ (ret _) => apply emits_ret
  | |- emits _ (send _ _) => apply emits_send; intros; cbn; try done
  | |- emits _ (bind _ _) => apply emits_bind; [|intros]
  end.

Lemma fetch_examples_gets fuel : forall ds offset last acc,
  emits (fun c => method c.1 = GET)
    (fetch_examples http self fuel ds offset last acc).
Proof.
  induction fuel as [|fuel IH]; intros ds offset last acc;
    cbn [fetch_examples]; destruct (Nat.eqb last 100);
    try apply emits_ret; try apply (emits_lift _ OutOfFuel).
  unfold requests_get. repeat emits_step. apply IH.
Qed.

(** *** The page loop of [migrate_dataset_examples] *)

Lemma fetch_examples_stop fuel ds offset last acc (s : State W) :
  last <> 100 ->
  fetch_examples http self fuel ds offset last acc s = (Ok acc, s).
Proof.
  intros Hlast. apply Nat.eqb_neq in Hlast.
  destruct fuel; simpl; rewrite Hlast; reflexivity.
Qed.

Section Pages.

Variable ds : value.
Variable exs : list value.
Variables q r : nat.
Hypothesis Hsize : length exs = 100 * q + r.
Hypothesis Hr : r < 100.
Hypothesis Hsrc : serves_examples http self ds exs.

Lemma page_full k : k < q -> length (take 100 (drop (100 * k) exs)) = 100.
Proof. intros. rewrite length_take, length_drop. lia. Qed.

Lemma page_last : length (take 100 (drop (100 * q) exs)) = r.
Proof. rewrite length_take, length_drop. lia. Qed.

(** From page [k] on, the loop asks for the pages [k .. q] and returns
    every example. *)
Lemma fetch_examples_pages fuel : forall k (s : State W),
  k <= q -> q - k < fuel ->
  fetch_examples http self fuel ds (100 * k) 100 (take (100 * k) exs) s
  = (Ok exs,
     mkState (world s)
       (calls s ++ map (page_call self ds exs) (seq k (q + 1 - k)))).
Proof.
  induction fuel as [|fuel IH]; intros k s Hk Hfuel; [lia|].
  cbn [fetch_examples]. change (Nat.eqb 100 100) with true. cbv iota.
  unfold requests_get.
  rewrite (bind_ok _ _ _ _ _
             (send_answer _ _ _ _ (Hsrc (world s) (100 * k)))).
  rewrite bind_lift. cbn [response_json].
  rewrite bind_lift. cbn [Py.len].
  rewrite bind_lift. unfold Py.iadd. cbn [Py.iter obind].
  rewrite take_take_drop.
  replace (q + 1 - k) with (S (q - k)) by lia. cbn [seq map].
  destruct (decide (k = q)) as [->|Hne].
  - rewrite page_last.
    rewrite fetch_examples_stop by lia.
    f_equal.
    + f_equal. rewrite take_ge; [done|lia].
    + cbn [world calls]. replace (q - q) with 0 by lia. reflexivity.
  - rewrite page_full by lia.
    rewrite length_take.
    replace ((100 * k + 100) `min` length exs) with (100 * S k) by lia.
    replace (100 * k + 100) with (100 * S k) by lia.
    rewrite IH by lia. cbn [world calls].
    rewrite <- app_assoc.
    replace (q + 1 - S k) with (q - k) by lia. reflexivity.
Qed.

Lemma fetch_examples_all fuel (s : State W) :
  q < fuel ->
  fetch_examples http self fuel ds 0 100 [] s
  = (Ok exs,
     mkState (world s)
       (calls s ++ map (page_call self ds exs) (seq 0 (q + 1)))).
Proof.
  intros Hfuel.
  pose proof (fetch_examples_pages fuel 0 s) as H.
  rewrite Nat.mul_0_r, !Nat.sub_0_r in H.
  replace (q + 1 - 0) with (q + 1) in H by lia. apply H; lia.
Qed.

End Pages.

(** *** The table of identifiers *)

Lemma table_put_fresh k v (t : Py.table) :
  Forall (fun kv => Py.eq kv.1 k = false) t ->
  Py.table_put k v t = t ++ [(k, v)].
Proof.
  induction 1 as [|[k' v'] t Hk _ IH]; cbn; [done|].
  cbn in Hk. rewrite Hk, IH. reflexivity.
Qed.

Lemma eq_str_false a b : a <> b -> Py.eq (VStr a) (VStr b) = false.
Proof. intros H. cbn. apply String.eqb_neq, H. Qed.

Lemma id_table_fresh old_ids new_ids o :
  o ∉ old_ids ->
  Forall (fun kv => Py.eq kv.1 (VStr o) = false) (id_table old_ids new_ids).
Proof.
  unfold id_table. revert new_ids.
  induction old_ids as [|a old_ids IH]; intros [|b new_ids] Ho; cbn;
    try constructor.
  - cbn. apply eq_str_false. intros ->. apply Ho. left.
  - apply IH. intros Hin. apply Ho. right. exact Hin.
Qed.

Lemma id_table_snoc old_ids new_ids o n :
  length old_ids = length new_ids ->
  id_table (old_ids ++ [o]) (new_ids ++ [n])
  = id_table old_ids new_ids ++ [(VStr o, VStr n)].
Proof.
  intros Hlen. unfold id_table. rewrite !map_app. cbn [map].
  rewrite zip_with_app by (rewrite !length_map; exact Hlen). reflexivity.
Qed.

Lemma id_mapping_zip exs created old_ids new_ids :
  has_ids exs old_ids -> has_ids created new_ids ->
  length created = length exs -> NoDup old_ids ->
  forall n k, k + n = length exs ->
    id_mapping exs (VList created) (seq k n)
      (id_table (take k old_ids) (take k new_ids))
    = Ok (id_table old_ids new_ids).
Proof.
  intros Hold Hnew Hlen Hdup.
  pose proof (Forall2_length _ _ _ Hold) as Hlo.
  pose proof (Forall2_length _ _ _ Hnew) as Hln.
  induction n as [|n IH]; intros k Hk; cbn [seq id_mapping].
  - rewrite !take_ge by lia. reflexivity.
  - destruct (lookup_lt_is_Some_2 exs k) as [e He]; [lia|].
    destruct (lookup_lt_is_Some_2 created k) as [c Hc]; [lia|].
    destruct (Forall2_lookup_l _ _ _ _ _ Hold He) as (o & Ho & Hoid).
    destruct (Forall2_lookup_l _ _ _ _ _ Hnew Hc) as (m & Hm & Hmid).
    unfold list_getitem. rewrite He. cbn [obind]. rewrite Hoid. cbn [obind].
    cbn [Py.getitem_int]. rewrite Hc. cbn [obind]. rewrite Hmid. cbn [obind].
    unfold Py.table_setitem. cbn [Py.hashable obind].
    rewrite table_put_fresh.
    + rewrite <- id_table_snoc by (rewrite !length_take; lia).
      rewrite <- (take_S_r _ _ _ Ho), <- (take_S_r _ _ _ Hm).
      apply IH. lia.
    + apply id_table_fresh. intros Hin.
      apply list_elem_of_lookup in Hin as [j Hj].
      apply lookup_take_Some in Hj as [Hj Hjk].
      pose proof (NoDup_lookup _ _ _ _ Hdup Hj Ho). lia.
Qed.

Lemma table_find_id_table old_ids new_ids i o n :
  NoDup old_ids ->
  old_ids !! i = Some o -> new_ids !! i = Some n ->
  Py.table_find (VStr o) (id_table old_ids new_ids) = Some (VStr n).
Proof.
  unfold id_table. intros Hdup. revert new_ids i.
  induction Hdup as [|a old_ids Ha Hdup IH]; intros [|b new_ids] [|i] Ho Hn;
    try discriminate; cbn in *.
  - injection Ho as ->. injection Hn as ->. rewrite String.eqb_refl. reflexivity.
  - destruct (String.eqb_spec a o) as [->|_].
    + exfalso. apply Ha. eapply list_elem_of_lookup_2, Ho.
    + eapply IH; eauto.
Qed.

(** *** [migrate_dataset_examples] *)

(** C5.  Against a source that serves the examples of a dataset by
    offset, a hundred to a page, [migrate_dataset_examples] asks for the
    pages at offsets 0, 100, ..., 100 * q, where [q] is the number of full
    pages: it goes on after each page of exactly 100 and stops at the
    first shorter one (page [q], of [r < 100] examples, which is empty
    when the total is a multiple of 100).  The pages are accumulated in
    order into the complete list, and the batch submitted to
    [/examples/bulk] has one payload per example: 250 examples are read
    as pages of 100, 100 and 50 and submitted as 250 payloads. *)
Theorem pagination_complete ds nid exs payload q r fuel (s : State W) :
  serves_examples http self ds exs ->
  length exs = 100 * q + r -> r < 100 -> q < fuel ->
  omap (example_payload nid) exs = Ok payload ->
  fetch_examples http self fuel ds 0 100 [] s
  = (Ok exs,
     mkState (world s)
       (calls s ++ map (page_call self ds exs) (seq 0 (q + 1))))
  /\ new_calls s (migrate_dataset_examples http self fuel ds nid s).2
     = map (page_call self ds exs) (seq 0 (q + 1))
         ++ [(bulk_request self payload,
              (http (bulk_request self payload) (world s)).1)]
  /\ length payload = length exs.
Proof.
  intros Hsrc Hsize Hr Hfuel Hpayload.
  pose proof (fetch_examples_all ds exs q r Hsize Hr Hsrc fuel s Hfuel)
    as Hfetch.
  split; [exact Hfetch|]. split.
  - unfold migrate_dataset_examples.
    rewrite (bind_ok _ _ _ _ _ Hfetch).
    rewrite bind_lift, Hpayload.
    unfold requests_post, send, bind at 1. cbn [world calls].
    fold (bulk_request self payload).
    destruct (http (bulk_request self payload) (world s)) as [[response|] w'];
      cbn [fst].
    + rewrite snd_bind_lift.
      * rewrite <- app_assoc. apply new_calls_app.
      * intros. apply snd_bind_lift. intros; reflexivity.
    + cbn [snd]. rewrite <- app_assoc. apply new_calls_app.
  - symmetry. eapply Forall2_length, omap_Forall2, Hpayload.
Qed.

(** C1.  For a source dataset of N examples with distinct identifiers,
    and a destination whose bulk create answers with as many records as
    were submitted, in the order submitted, each with an identifier of its
    own, [migrate_dataset_examples] returns a table of exactly N entries
    whose i-th entry pairs the identifier of the i-th source example with
    the identifier of the i-th created record; looking an old identifier
    up in it gives the new one, and both columns are duplicate-free. *)
Theorem example_mapping_positional
    ds nid exs payload created old_ids new_ids q r fuel (s : State W) w' :
  serves_examples http self ds exs ->
  length exs = 100 * q + r -> r < 100 -> q < fuel ->
  omap (example_payload nid) exs = Ok payload ->
  has_ids exs old_ids -> NoDup old_ids ->
  http (bulk_request self payload) (world s)
  = (Some (Json (VList created)), w') ->
  length created = length payload ->
  has_ids created new_ids -> NoDup new_ids ->
  exists mapping : Py.table,
    (migrate_dataset_examples http self fuel ds nid s).1 = Ok mapping
    /\ length mapping = length exs
    /\ (forall i o n,
          old_ids !! i = Some o -> new_ids !! i = Some n ->
          mapping !! i = Some (VStr o, VStr n)
          /\ Py.table_get mapping (VStr o) = Ok (VStr n))
    /\ NoDup mapping.*1 /\ NoDup mapping.*2.
Proof.
  intros Hsrc Hsize Hr Hfuel Hpayload Hold Hdup Hbulk Hlen Hnew Hdup'.
  pose proof (fetch_examples_all ds exs q r Hsize Hr Hsrc fuel s Hfuel)
    as Hfetch.
  pose proof (Forall2_length _ _ _ (omap_Forall2 _ _ _ Hpayload)) as Hlp.
  pose proof (Forall2_length _ _ _ Hold) as Hlo.
  pose proof (Forall2_length _ _ _ Hnew) as Hln.
  exists (id_table old_ids new_ids). split; [|split; [|split; [|split]]].
  - unfold migrate_dataset_examples.
    rewrite (bind_ok _ _ _ _ _ Hfetch).
    rewrite bind_lift, Hpayload.
    unfold requests_post.
    erewrite bind_ok by (apply send_answer; exact Hbulk).
    rewrite bind_lift. cbn [response_json].
    rewrite bind_lift. cbn [Py.len]. unfold lift. cbn [fst].
    rewrite Hlen, <- Hlp.
    apply (id_mapping_zip exs created old_ids new_ids Hold Hnew
             ltac:(lia) Hdup (length exs) 0).
    lia.
  - unfold id_table. rewrite length_zip_with, !length_map. lia.
  - intros i o n Ho Hn. split.
    + unfold id_table. apply lookup_zip_with_Some.
      exists (VStr o), (VStr n). rewrite !list_lookup_fmap, Ho, Hn. done.
    + unfold Py.table_get. cbn [Py.hashable].
      rewrite (table_find_id_table _ _ _ _ _ Hdup Ho Hn). reflexivity.
  - unfold id_table. rewrite fst_zip by (rewrite !length_map; lia).
    apply NoDup_fmap_2; [|exact Hdup]. intros a b [= ->]. reflexivity.
  - unfold id_table. rewrite snd_zip by (rewrite !length_map; lia).
    apply NoDup_fmap_2; [|exact Hdup']. intros a b [= ->]. reflexivity.
Qed.

(** The payload built for an example carries the split the specification
    describes. *)
Lemma example_payload_split nid example p :
  example_payload nid example = Ok p ->
  Py.getitem p "split" = Ok (expected_split example).
Proof.
  unfold example_payload, Py.dict, split_of. cbn [Py.display obind].
  destruct example as [| | | | |l|fields]; try discriminate.
  cbn [Py.getitem expected_split].
  destruct (Py.lookup_key "inputs" fields); [|discriminate].
  destruct (Py.lookup_key "outputs" fields); [|discriminate].
  destruct (Py.lookup_key "metadata" fields) as [metadata|]; [|discriminate].
  destruct (Py.lookup_key "created_at" fields); [|discriminate].
  cbn [obind].
  destruct metadata as [|[]|z|f|str|l|[|kv d]]; cbn [Py.truthy];
    try (intros [= <-]; reflexivity); try discriminate.
  - destruct (negb (z =? 0)%Z); [discriminate|]. intros [= <-]; reflexivity.
  - destruct (negb (PrimFloat.eqb f 0)); [discriminate|].
    intros [= <-]; reflexivity.
  - destruct (negb (str =? "")%string); [discriminate|].
    intros [= <-]; reflexivity.
  - destruct l; cbn; [|discriminate]. intros [= <-]; reflexivity.
Qed.

(** An example that has the four copied fields, with a metadata that is
    null or an object, does get a payload. *)
Lemma example_payload_defined nid fields inputs outputs metadata created_at :
  Py.lookup_key "inputs" fields = Some inputs ->
  Py.lookup_key "outputs" fields = Some outputs ->
  Py.lookup_key "metadata" fields = Some metadata ->
  Py.lookup_key "created_at" fields = Some created_at ->
  metadata = VNone \/ (exists d, metadata = VDict d) ->
  example_payload nid (VDict fields)
  = Ok (VDict [("dataset_id", nid); ("inputs", inputs);
               ("outputs", outputs); ("metadata", metadata);
               ("created_at", created_at);
               ("split", expected_split (VDict fields))]).
Proof.
  intros Hi Ho Hm Hc Hmeta.
  unfold example_payload, Py.dict, split_of. cbn [Py.display obind].
  cbn [Py.getitem expected_split]. rewrite Hi, Ho, Hm, Hc. cbn [obind].
  destruct Hmeta as [->|[d ->]]; [reflexivity|].
  destruct d; reflexivity.
Qed.

(** C6.  Whatever the two instances answer, a [POST] made by
    [migrate_dataset_examples] is the bulk create, and the payload it
    carries has, for each example fetched from the source and at the same
    position, a ["split"] equal to the ["dataset_split"] of the example's
    metadata when that metadata is an object with such a key, and to
    ["base"] otherwise. *)
Theorem split_field fuel ds nid (s : State W) originals c :
  (fetch_examples http self fuel ds 0 100 [] s).1 = Ok originals ->
  c ∈ new_calls s (migrate_dataset_examples http self fuel ds nid s).2 ->
  method c.1 = POST ->
  exists payload,
    c.1 = bulk_request self payload
    /\ Forall2 (fun example p =>
                  Py.getitem p "split" = Ok (expected_split example))
         originals payload.
Proof.
  intros Hfetch Hin Hpost.
  pose proof (fetch_examples_gets fuel ds 0 100 [] s) as (cs & Hcs & Hgets).
  unfold migrate_dataset_examples, bind at 1 in Hin.
  destruct (fetch_examples http self fuel ds 0 100 [] s) as [o s1].
  cbn [fst snd] in *. subst o.
  assert (Hget : c ∈ cs -> False).
  { intros Hc. rewrite Forall_forall in Hgets.
    specialize (Hgets _ Hc). congruence. }
  rewrite bind_lift in Hin.
  destruct (omap (example_payload nid) originals) as [payload| |] eqn:Hp.
  - unfold requests_post, bind at 1, send in Hin.
    fold (bulk_request self payload) in Hin.
    assert (Hc : c ∈ cs ++ [(bulk_request self payload,
                             (http (bulk_request self payload) (world s1)).1)]).
    { destruct (http (bulk_request self payload) (world s1))
        as [[response|] w'].
      - rewrite snd_bind_lift in Hin.
        + unfold new_calls in Hin. cbn [calls fst] in Hin.
          rewrite Hcs, <- app_assoc, drop_app_length in Hin. exact Hin.
        + intros. apply snd_bind_lift. intros; reflexivity.
      - unfold new_calls in Hin. cbn [calls fst snd] in Hin.
        rewrite Hcs, <- app_assoc, drop_app_length in Hin. exact Hin. }
    apply elem_of_app in Hc as [Hc|Hc]; [destruct (Hget Hc)|].
    apply list_elem_of_singleton in Hc. subst c. exists payload.
    split; [reflexivity|].
    eapply Forall2_impl; [apply omap_Forall2, Hp|].
    intros example p. apply example_payload_split.
  - exfalso. apply Hget. cbn [snd] in Hin. unfold new_calls in Hin.
    rewrite Hcs, drop_app_length in Hin. exact Hin.
  - exfalso. apply Hget. cbn [snd] in Hin. unfold new_calls in Hin.
    rewrite Hcs, drop_app_length in Hin. exact Hin.
Qed.

(** *** Which calls create a dataset *)

Lemma eqb_append_l (b x y : string) :
  String.eqb (b +:+ x) (b +:+ y) = String.eqb x y.
Proof.
  induction b as [|a b IH]; [reflexivity|].
  change (String a b +:+ x) with (String a (b +:+ x)).
  change (String a b +:+ y) with (String a (b +:+ y)).
  cbn [String.eqb]. rewrite Ascii.eqb_refl. exact IH.
Qed.

Lemma get_not_create (c : Call) :
  method c.1 = GET -> is_dataset_create self c = false.
Proof. intros H. unfold is_dataset_create. rewrite H. reflexivity. Qed.

Lemma creations_app cs cs' :
  creations self (cs ++ cs') = creations self cs + creations self cs'.
Proof. unfold creations. rewrite filter_app, length_app. reflexivity. Qed.

Lemma creations_none cs :
  Forall (fun c => is_dataset_create self c = false) cs ->
  creations self cs = 0.
Proof.
  unfold creations. induction 1 as [|c cs Hc _ IH]; [reflexivity|].
  rewrite filter_cons_False by congruence. exact IH.
Qed.

Abbreviation not_create := (fun c : Call => is_dataset_create self c = false).

Ltac no_create_step :=
  lazymatch goal with
  | |- emits _ (lift _) => apply emits_lift
  | |- emits _ (raise _) => apply emits_lift
  | |- emits _ out_of_fuel => apply emits_lift
  | |- emits _ (ret _) => apply emits_ret
  | |- emits _ (send _ _) =>
      apply emits_send; intros;
      first [ apply get_not_create; reflexivity
            | unfold is_dataset_create; cbn [fst method url];
              rewrite ?eqb_append_l; reflexivity ]
  | |- emits _ (bind _ _) => apply emits_bind; [|intros]
  end.

Lemma migrate_dataset_examples_no_create fuel ds nid :
  emits not_create (migrate_dataset_examples http self fuel ds nid).
Proof.
  unfold migrate_dataset_examples, requests_post.
  apply emits_bind; [|intros; repeat no_create_step].
  eapply emits_weaken; [|apply fetch_examples_gets].
  intros c. apply get_not_create.
Qed.

Lemma fetch_experiments_gets fuel : forall ds offset last acc,
  emits (fun c => method c.1 = GET)
    (fetch_experiments http py_str self fuel ds offset last acc).
Proof.
  induction fuel as [|fuel IH]; intros ds offset last acc;
    cbn [fetch_experiments]; destruct (Nat.eqb last 100);
    try apply emits_ret; try apply (emits_lift _ OutOfFuel).
  unfold requests_get. repeat emits_step. apply IH.
Qed.

Lemma create_experiment_no_create nid experiment ids :
  emits not_create (create_experiment http self nid experiment ids).
Proof. unfold create_experiment, requests_post. repeat no_create_step. Qed.

Lemma push_runs_no_create fuel : forall exp_ids ex_ids payload,
  emits not_create (push_runs http self fuel exp_ids ex_ids payload).
Proof.
  induction fuel as [|fuel IH]; intros exp_ids ex_ids payload;
    cbn [push_runs]; [apply (emits_lift _ OutOfFuel)|].
  unfold requests_post. repeat no_create_step.
  destruct (Py.is_none _); [apply emits_ret|apply IH].
Qed.

Lemma migrate_dataset_experiments_no_create fuel ds nid ex_ids :
  emits not_create
    (migrate_dataset_experiments http py_str self fuel ds nid ex_ids).
Proof.
  unfold migrate_dataset_experiments.
  apply emits_bind.
  { eapply emits_weaken; [|apply fetch_experiments_gets].
    intros c. apply get_not_create. }
  intros experiments. apply emits_bind.
  { apply emits_for_each. intros. apply create_experiment_no_create. }
  intros ids. apply emits_bind; [apply emits_lift|].
  intros session. apply push_runs_no_create.
Qed.

(** *** [migrate_dataset] *)

Ltac call H := erewrite bind_ok by (apply send_answer; exact H).

Lemma no_detail_in_records (found : list value) :
  Forall (fun d => exists fields, d = VDict fields) found ->
  existsb (Py.is_str "detail") found = false.
Proof.
  induction 1 as [|d l [fields ->] _ IH]; [reflexivity|]. cbn. exact IH.
Qed.

Section ExistingDataset.

Variables (ds name : value) (s : State W).
Hypothesis Hname : Py.getitem ds "name" = Ok name.

Lemma existing_dataset_one d found w' :
  http (dataset_lookup py_str self name) (world s)
  = (Some (Json (VList [d])), w') ->
  Py.getitem d "id" = Ok found ->
  existing_dataset http py_str self true ds s
  = (Ok (Some found),
     mkState w' (calls s ++ [(dataset_lookup py_str self name,
                              Some (Json (VList [d])))])).
Proof.
  intros Hlookup Hid.
  unfold existing_dataset, requests_get. rewrite bind_lift, Hname.
  call Hlookup.
  rewrite bind_lift. cbn [response_json].
  rewrite bind_lift. cbn [Py.contains existsb].
  destruct d; try discriminate. cbn [Py.is_str orb negb].
  rewrite bind_lift. cbn [Py.len length Nat.ltb Nat.leb Nat.eqb].
  rewrite bind_lift. cbn [Py.getitem_int lookup list_lookup].
  rewrite bind_lift, Hid. reflexivity.
Qed.

Lemma existing_dataset_many found w' :
  http (dataset_lookup py_str self name) (world s)
  = (Some (Json (VList found)), w') ->
  Forall (fun d => exists fields, d = VDict fields) found ->
  1 < length found ->
  existing_dataset http py_str self true ds s
  = (Raise (ValueError ("Found multiple datasets with name "
                          +:+ py_str name +:+ " in new instance")),
     mkState w' (calls s ++ [(dataset_lookup py_str self name,
                              Some (Json (VList found)))])).
Proof.
  intros Hlookup Hdicts Hmany.
  unfold existing_dataset, requests_get. rewrite bind_lift, Hname.
  call Hlookup.
  rewrite bind_lift. cbn [response_json].
  rewrite bind_lift. cbn [Py.contains].
  rewrite (no_detail_in_records _ Hdicts).
  cbn [negb]. rewrite bind_lift. cbn [Py.len].
  apply Nat.ltb_lt in Hmany. rewrite Hmany. reflexivity.
Qed.

Lemma existing_dataset_detail body w' :
  http (dataset_lookup py_str self name) (world s)
  = (Some (Json (VDict body)), w') ->
  Py.lookup_key "detail" body <> None ->
  existing_dataset http py_str self true ds s
  = (Ok None,
     mkState w' (calls s ++ [(dataset_lookup py_str self name,
                              Some (Json (VDict body)))])).
Proof.
  intros Hlookup Hdetail.
  unfold existing_dataset, requests_get. rewrite bind_lift, Hname.
  call Hlookup.
  rewrite bind_lift. cbn [response_json].
  rewrite bind_lift. cbn [Py.contains].
  destruct (Py.lookup_key "detail" body); [|congruence]. reflexivity.
Qed.

End ExistingDataset.

Lemma migrate_dataset_fetched fuel id check mode (s : State W) ds w1 :
  http (dataset_request py_str self id) (world s) = (Some (Json ds), w1) ->
  migrate_dataset http py_str self fuel id check mode s
  = bind (existing_dataset http py_str self check ds)
      (fun existing =>
         match existing with
         | Some found => ret found
         | None => create_dataset http py_str self fuel id mode ds
         end)
      (mkState w1 (calls s ++ [(dataset_request py_str self id,
                                Some (Json ds))])).
Proof.
  intros Hget. unfold migrate_dataset, requests_get. call Hget.
  rewrite bind_lift. reflexivity.
Qed.

(** A destination that already has exactly one dataset of that name: the
    call returns its identifier after the two reads. *)
Lemma migrate_dataset_existing
    fuel id mode (s : State W) ds name d found w1 w2 :
  http (dataset_request py_str self id) (world s) = (Some (Json ds), w1) ->
  Py.getitem ds "name" = Ok name ->
  http (dataset_lookup py_str self name) w1
  = (Some (Json (VList [d])), w2) ->
  Py.getitem d "id" = Ok found ->
  migrate_dataset http py_str self fuel id true mode s
  = (Ok found,
     mkState w2
       (calls s ++ [(dataset_request py_str self id, Some (Json ds));
                    (dataset_lookup py_str self name,
                     Some (Json (VList [d])))])).
Proof.
  intros Hget Hname Hlookup Hid.
  rewrite (migrate_dataset_fetched _ _ _ _ _ _ _ Hget).
  erewrite bind_ok
    by (eapply existing_dataset_one; [exact Hname|exact Hlookup|exact Hid]).
  cbn [ret calls world]. rewrite <- app_assoc. reflexivity.
Qed.

(** C4.  With [check_if_already_exists] set, when the destination
    answers the name lookup with more than one dataset, [migrate_dataset]
    raises [ValueError] and has made two calls only, both reads: the fetch
    of the source dataset and the lookup.  Nothing is created. *)
Theorem ambiguous_name_raises
    fuel id mode (s : State W) ds name found w1 w2 :
  http (dataset_request py_str self id) (world s) = (Some (Json ds), w1) ->
  Py.getitem ds "name" = Ok name ->
  http (dataset_lookup py_str self name) w1
  = (Some (Json (VList found)), w2) ->
  Forall (fun d => exists fields, d = VDict fields) found ->
  1 < length found ->
  migrate_dataset http py_str self fuel id true mode s
  = (Raise (ValueError ("Found multiple datasets with name "
                          +:+ py_str name +:+ " in new instance")),
     mkState w2
       (calls s ++ [(dataset_request py_str self id, Some (Json ds));
                    (dataset_lookup py_str self name,
                     Some (Json (VList found)))])).
Proof.
  intros Hget Hname Hlookup Hdicts Hmany.
  rewrite (migrate_dataset_fetched _ _ _ _ _ _ _ Hget).
  erewrite bind_raise
    by (eapply existing_dataset_many;
        [exact Hname|exact Hlookup|exact Hdicts|exact Hmany]).
  cbn [calls world]. rewrite <- app_assoc. reflexivity.
Qed.

(** The calls of the creation path: the [POST] that creates the dataset,
    then calls that create no dataset. *)
Lemma create_dataset_calls fuel id mode ds (s : State W) :
  exists cs,
    calls (create_dataset http py_str self fuel id mode ds s).2
    = calls s ++ cs
    /\ match create_dataset_payload ds with
       | Ok payload =>
           exists cs',
             cs = (dataset_create self payload,
                   (http (dataset_create self payload) (world s)).1) :: cs'
             /\ Forall not_create cs'
       | _ => cs = []
       end.
Proof.
  unfold create_dataset. rewrite bind_lift.
  destruct (create_dataset_payload ds) as [payload|e|];
    try (exists []; rewrite app_nil_r; done).
  unfold requests_post. fold (dataset_create self payload).
  set (rest := fun create_response : Response => _).
  assert (Hrest : forall a, emits not_create (rest a)).
  { intros a. subst rest. cbv beta. repeat no_create_step.
    destruct (String.eqb mode "EXAMPLES").
    - repeat no_create_step. apply migrate_dataset_examples_no_create.
    - destruct (String.eqb mode "EXAMPLES_AND_EXPERIMENTS").
      + apply emits_bind; [apply migrate_dataset_examples_no_create|].
        intros. apply migrate_dataset_experiments_no_create.
      + apply emits_ret. }
  unfold bind at 1, send.
  destruct (http (dataset_create self payload) (world s))
    as [[response|] w']; cbn [fst].
  - destruct (Hrest response
                (mkState w' (calls s ++ [(dataset_create self payload,
                                          Some response)])))
      as (cs' & Hcs' & Hno).
    exists ((dataset_create self payload, Some response) :: cs').
    rewrite Hcs'. cbn [calls]. rewrite <- app_assoc. eauto.
  - eexists. cbn [snd calls]. split; [reflexivity|]. eauto.
Qed.

Lemma existing_dataset_gets check ds :
  emits (fun c => method c.1 = GET)
    (existing_dataset http py_str self check ds).
Proof.
  unfold existing_dataset, requests_get. destruct check; [|apply emits_ret].
  repeat emits_step. destruct (negb _); [|apply emits_ret].
  repeat emits_step. destruct (Nat.ltb _ _); [apply emits_lift|].
  destruct (Nat.eqb _ _); [|apply emits_ret]. repeat emits_step.
Qed.

Lemma at_most_one_bind {A B} (c : M W A) (k : A -> M W B) :
  emits not_create c ->
  (forall a, traces (fun cs => creations self cs <= 1) (k a)) ->
  traces (fun cs => creations self cs <= 1) (bind c k).
Proof.
  intros Hc Hk. eapply traces_bind; [exact Hc|exact Hk| |].
  - intros cs Hcs. rewrite (creations_none _ Hcs). lia.
  - intros cs cs' Hcs Hcs'. cbv beta in *.
    rewrite creations_app, (creations_none _ Hcs). exact Hcs'.
Qed.

(** One call of [migrate_dataset] creates at most one dataset. *)
Lemma migrate_dataset_creates_once fuel id check mode :
  traces (fun cs => creations self cs <= 1)
    (migrate_dataset http py_str self fuel id check mode).
Proof.
  unfold migrate_dataset, requests_get.
  apply at_most_one_bind.
  { apply emits_send. intros. apply get_not_create. reflexivity. }
  intros response. apply at_most_one_bind; [apply emits_lift|].
  intros ds. apply at_most_one_bind.
  { eapply emits_weaken; [|apply existing_dataset_gets].
    intros c. apply get_not_create. }
  intros [found|].
  - apply traces_lift. exact (Nat.le_0_l 1).
  - intros s. destruct (create_dataset_calls fuel id mode ds s)
      as (cs & Hcs & Hshape).
    exists cs. split; [exact Hcs|].
    destruct (create_dataset_payload ds) as [payload|e|].
    + destruct Hshape as (cs' & -> & Hno).
      change (creations self ([(dataset_create self payload,
                 (http (dataset_create self payload) (world s)).1)] ++ cs')
              <= 1).
      rewrite creations_app, (creations_none _ Hno).
      unfold creations. cbn. case_decide; cbn; lia.
    + subst cs. cbn. lia.
    + subst cs. cbn. lia.
Qed.

Lemma existing_dataset_none ds name (s : State W) w' :
  Py.getitem ds "name" = Ok name ->
  http (dataset_lookup py_str self name) (world s)
  = (Some (Json (VList [])), w') ->
  existing_dataset http py_str self true ds s
  = (Ok None,
     mkState w' (calls s ++ [(dataset_lookup py_str self name,
                              Some (Json (VList [])))])).
Proof.
  intros Hname Hlookup.
  unfold existing_dataset, requests_get. rewrite bind_lift, Hname.
  call Hlookup.
  rewrite bind_lift. cbn [response_json].
  rewrite bind_lift. reflexivity.
Qed.

(** A call that finds no dataset of that name and returns has created
    exactly one. *)
Lemma migrate_dataset_fresh
    fuel id mode (s s' : State W) ds name found w1 w2 :
  http (dataset_request py_str self id) (world s) = (Some (Json ds), w1) ->
  Py.getitem ds "name" = Ok name ->
  http (dataset_lookup py_str self name) w1 = (Some (Json (VList [])), w2) ->
  migrate_dataset http py_str self fuel id true mode s = (Ok found, s') ->
  creations self (new_calls s s') = 1.
Proof.
  intros Hget Hname Hlookup Hrun.
  rewrite (migrate_dataset_fetched _ _ _ _ _ _ _ Hget) in Hrun.
  erewrite bind_ok in Hrun
    by (eapply existing_dataset_none; [exact Hname|exact Hlookup]).
  cbv beta iota in Hrun.
  match type of Hrun with
  | create_dataset _ _ _ _ _ _ _ ?s2 = _ =>
      destruct (create_dataset_calls fuel id mode ds s2)
        as (cs & Hcs & Hshape)
  end.
  rewrite Hrun in Hcs. cbn [snd calls] in Hcs.
  destruct (create_dataset_payload ds) as [payload|e|] eqn:Hpayload.
  - destruct Hshape as (cs' & -> & Hno).
    unfold new_calls. rewrite Hcs, <- !app_assoc, drop_app_length.
    change (creations self
              ([(dataset_request py_str self id, Some (Json ds));
                (dataset_lookup py_str self name, Some (Json (VList [])))]
               ++ [(dataset_create self payload,
                    (http (dataset_create self payload) w2).1)] ++ cs') = 1).
    rewrite !creations_app, (creations_none _ Hno).
    rewrite (creations_none [_; _]) by (repeat constructor).
    unfold creations. cbn. case_decide as Hc; [reflexivity|].
    exfalso. apply Hc. unfold is_dataset_create. cbn.
    apply String.eqb_refl.
  - exfalso. unfold create_dataset in Hrun.
    rewrite bind_lift, Hpayload in Hrun. discriminate.
  - exfalso. unfold create_dataset in Hrun.
    rewrite bind_lift, Hpayload in Hrun. discriminate.
Qed.

(** C3.  With [check_if_already_exists] set, when the lookup on the
    destination answers with exactly one dataset, [migrate_dataset]
    returns the identifier of that dataset and makes two calls only, both
    reads: no dataset is created and no example or experiment is
    migrated.  Hence, when this happens in the state an earlier call of
    [migrate_dataset] for the same source dataset left, and the dataset
    found is the one the earlier call returned, the second call returns
    the same identifier and adds no creation: the two calls together have
    created at most one dataset, and exactly one when the first call had
    found none. *)
Theorem migrate_dataset_idempotent
    fuel id mode (s : State W) ds name d found w1 w2 :
  http (dataset_request py_str self id) (world s) = (Some (Json ds), w1) ->
  Py.getitem ds "name" = Ok name ->
  http (dataset_lookup py_str self name) w1
  = (Some (Json (VList [d])), w2) ->
  Py.getitem d "id" = Ok found ->
  let s' :=
    mkState w2
      (calls s ++ [(dataset_request py_str self id, Some (Json ds));
                   (dataset_lookup py_str self name,
                    Some (Json (VList [d])))]) in
  migrate_dataset http py_str self fuel id true mode s = (Ok found, s')
  /\ Forall (fun c => is_post c = false) (new_calls s s')
  /\ forall fuel0 mode0 (s0 : State W),
       migrate_dataset http py_str self fuel0 id true mode0 s0
       = (Ok found, s) ->
       creations self (new_calls s0 s') = creations self (new_calls s0 s)
       /\ creations self (new_calls s0 s') <= 1
       /\ forall ds0 name0 w3 w4,
            http (dataset_request py_str self id) (world s0)
            = (Some (Json ds0), w3) ->
            Py.getitem ds0 "name" = Ok name0 ->
            http (dataset_lookup py_str self name0) w3
            = (Some (Json (VList [])), w4) ->
            creations self (new_calls s0 s') = 1.
Proof.
  intros Hget Hname Hlookup Hid s'.
  split; [|split].
  - eapply migrate_dataset_existing; eauto.
  - subst s'. rewrite new_calls_app. repeat constructor.
  - intros fuel0 mode0 s0 Hfirst.
    destruct (migrate_dataset_creates_once fuel0 id true mode0 s0)
      as (cs & Hcs & Hone).
    rewrite Hfirst in Hcs. cbn [snd] in Hcs.
    assert (Hnew : new_calls s0 s = cs)
      by (unfold new_calls; rewrite Hcs; apply drop_app_length).
    assert (Hnew' : new_calls s0 s'
                    = cs ++ [(dataset_request py_str self id, Some (Json ds));
                             (dataset_lookup py_str self name,
                              Some (Json (VList [d])))]).
    { subst s'. unfold new_calls. cbn [calls].
      rewrite Hcs, <- app_assoc. apply drop_app_length. }
    assert (Hsame : creations self (new_calls s0 s')
                    = creations self (new_calls s0 s)).
    { rewrite Hnew, Hnew', creations_app.
      rewrite (creations_none [_; _]) by (repeat constructor). lia. }
    split; [exact Hsame|]. split; [rewrite Hsame, Hnew; exact Hone|].
    intros ds0 name0 w3 w4 Hget0 Hname0 Hlookup0. rewrite Hsame.
    eapply migrate_dataset_fresh; eauto.
Qed.

(** C10.  With [check_if_already_exists] set, when the destination
    answers the name lookup with an object that has a ["detail"] key, the
    check raises nothing and finds nothing: [migrate_dataset] goes on
    exactly as the creation does from the state the lookup left, and, the
    source dataset having the fields the payload copies, its third call is
    the [POST] that creates the dataset. *)
Theorem failed_lookup_creates
    fuel id mode (s : State W) ds name body w1 w2 :
  http (dataset_request py_str self id) (world s) = (Some (Json ds), w1) ->
  Py.getitem ds "name" = Ok name ->
  http (dataset_lookup py_str self name) w1
  = (Some (Json (VDict body)), w2) ->
  Py.lookup_key "detail" body <> None ->
  let s1 :=
    mkState w1 (calls s ++ [(dataset_request py_str self id,
                             Some (Json ds))]) in
  let s2 :=
    mkState w2 (calls s1 ++ [(dataset_lookup py_str self name,
                              Some (Json (VDict body)))]) in
  existing_dataset http py_str self true ds s1 = (Ok None, s2)
  /\ migrate_dataset http py_str self fuel id true mode s
     = create_dataset http py_str self fuel id mode ds s2
  /\ forall payload,
       create_dataset_payload ds = Ok payload ->
       new_calls s (migrate_dataset http py_str self fuel id true mode s).2
         !! 2
       = Some (dataset_create self payload,
               (http (dataset_create self payload) w2).1).
Proof.
  intros Hget Hname Hlookup Hdetail s1 s2.
  assert (Hcheck : existing_dataset http py_str self true ds s1
                   = (Ok None, s2)).
  { eapply existing_dataset_detail; eauto. }
  assert (Hrun : migrate_dataset http py_str self fuel id true mode s
                 = create_dataset http py_str self fuel id mode ds s2).
  { rewrite (migrate_dataset_fetched _ _ _ _ _ _ _ Hget).
    fold s1. rewrite (bind_ok _ _ _ _ _ Hcheck). reflexivity. }
  split; [exact Hcheck|]. split; [exact Hrun|].
  intros payload Hpayload. rewrite Hrun.
  destruct (create_dataset_calls fuel id mode ds s2) as (cs & Hcs & Hshape).
  rewrite Hpayload in Hshape. destruct Hshape as (cs' & -> & _).
  unfold new_calls. rewrite Hcs. subst s2 s1. cbn [calls world].
  rewrite <- !app_assoc, drop_app_length. reflexivity.
Qed.

(** *** [migrate_annotation_queue] *)

Lemma send_after (r : Request) (s : State W) :
  send http r s
  = (match (http r (world s)).1 with
     | Some response => Ok response
     | None => Raise RequestException
     end, after http s r).
Proof.
  unfold send, after. destruct (http r (world s)) as [[response|] w'];
    reflexivity.
Qed.

Lemma migrate_annotation_queue_fetched
    fuel id check mode (s : State W) queue w1 :
  http (queue_request py_str self id) (world s) = (Some (Json queue), w1) ->
  migrate_annotation_queue http py_str self fuel id check mode s
  = bind (existing_annotation_queue http py_str self check queue)
      (fun existing =>
         match existing with
         | Some found => ret found
         | None => create_annotation_queue http py_str self fuel mode queue
         end)
      (mkState w1 (calls s ++ [(queue_request py_str self id,
                                Some (Json queue))])).
Proof.
  intros Hget. unfold migrate_annotation_queue, requests_get. call Hget.
  rewrite bind_lift. reflexivity.
Qed.

(** The tail of [migrate_annotation_queue]: one [POST], whose answer
    gives the identifier returned. *)
Lemma create_queue_post payload (s : State W) :
  bind (requests_post http (base_url self +:+ "/annotation-queues")
          (new_headers self) payload)
    (fun response =>
       bind (lift (response_json response))
         (fun body =>
            bind (lift (Py.getitem body "id"))
              (fun new_annotation_queue_id => ret new_annotation_queue_id)))
    s
  = (created_id (http (queue_create self payload) (world s)).1,
     after http s (queue_create self payload)).
Proof.
  unfold requests_post. fold (queue_create self payload).
  unfold bind at 1. rewrite send_after.
  destruct ((http (queue_create self payload) (world s)).1)
    as [[body|]|]; cbn [created_id response_json obind]; try reflexivity.
  rewrite bind_lift. rewrite bind_lift.
  destruct (Py.getitem body "id"); reflexivity.
Qed.

Lemma queue_payload_default_dataset queue default_dataset payload :
  create_annotation_queue_payload queue default_dataset = Ok payload ->
  Py.getitem payload "default_dataset" = Ok default_dataset.
Proof.
  unfold create_annotation_queue_payload, Py.dict.
  cbn [Py.display obind].
  repeat match goal with
         | |- context [Py.getitem queue ?k] =>
             destruct (Py.getitem queue k); try discriminate; cbn [obind]
         end.
  intros [= <-]. reflexivity.
Qed.

(** C8.  Once the source queue is fetched and the existence check, if
    any, has found no queue: in mode [QUEUE_AND_DATASET], with a default
    dataset that is not null, [migrate_annotation_queue] first runs
    [migrate_dataset] on that dataset with [check_if_already_exists] set
    and mode [EXAMPLES], and then creates the queue with a payload whose
    ["default_dataset"] is the identifier that call returned; in mode
    [QUEUE_ONLY] it migrates no dataset and creates the queue at once,
    with a null ["default_dataset"], whatever the source queue has. *)
Theorem queue_default_dataset_migrated
    fuel id check (s s2 : State W) queue w1 :
  http (queue_request py_str self id) (world s) = (Some (Json queue), w1) ->
  existing_annotation_queue http py_str self check queue
    (mkState w1 (calls s ++ [(queue_request py_str self id,
                              Some (Json queue))]))
  = (Ok None, s2) ->
  (forall d nid s3 payload,
      Py.getitem queue "default_dataset" = Ok d -> d <> VNone ->
      migrate_dataset http py_str self fuel d true "EXAMPLES" s2
      = (Ok nid, s3) ->
      create_annotation_queue_payload queue nid = Ok payload ->
      Py.getitem payload "default_dataset" = Ok nid
      /\ migrate_annotation_queue http py_str self fuel id check
           "QUEUE_AND_DATASET" s
         = (created_id (http (queue_create self payload) (world s3)).1,
            after http s3 (queue_create self payload)))
  /\ (forall payload,
        create_annotation_queue_payload queue VNone = Ok payload ->
        Py.getitem payload "default_dataset" = Ok VNone
        /\ migrate_annotation_queue http py_str self fuel id check
             "QUEUE_ONLY" s
           = (created_id (http (queue_create self payload) (world s2)).1,
              after http s2 (queue_create self payload))).
Proof.
  intros Hget Hcheck. split.
  - intros d nid s3 payload Hd Hnone Hmigrate Hpayload.
    split; [eapply queue_payload_default_dataset; eauto|].
    rewrite (migrate_annotation_queue_fetched _ _ _ _ _ _ _ Hget).
    rewrite (bind_ok _ _ _ _ _ Hcheck). cbv beta iota.
    unfold create_annotation_queue.
    assert (Hdd : queue_default_dataset http py_str self fuel
                    "QUEUE_AND_DATASET" queue s2 = (Ok nid, s3)).
    { unfold queue_default_dataset. cbn [String.eqb Ascii.eqb Bool.eqb].
      rewrite bind_lift, Hd.
      destruct d; try congruence; exact Hmigrate. }
    rewrite (bind_ok _ _ _ _ _ Hdd).
    rewrite bind_lift, Hpayload. apply create_queue_post.
  - intros payload Hpayload.
    split; [eapply queue_payload_default_dataset; eauto|].
    rewrite (migrate_annotation_queue_fetched _ _ _ _ _ _ _ Hget).
    rewrite (bind_ok _ _ _ _ _ Hcheck). cbv beta iota.
    unfold create_annotation_queue, queue_default_dataset.
    cbn [String.eqb Ascii.eqb Bool.eqb].
    unfold bind at 1, ret.
    rewrite bind_lift, Hpayload. apply create_queue_post.
Qed.

Lemma existing_queue_detail queue name body (s : State W) w' :
  Py.getitem queue "name" = Ok name ->
  http (queue_lookup py_str self name) (world s)
  = (Some (Json (VDict body)), w') ->
  Py.lookup_key "detail" body <> None ->
  existing_annotation_queue http py_str self true queue s
  = (Ok None,
     mkState w' (calls s ++ [(queue_lookup py_str self name,
                              Some (Json (VDict body)))])).
Proof.
  intros Hname Hlookup Hdetail.
  unfold existing_annotation_queue, requests_get. rewrite bind_lift, Hname.
  call Hlookup.
  rewrite bind_lift. cbn [response_json].
  rewrite bind_lift. cbn [Py.contains].
  destruct (Py.lookup_key "detail" body); [|congruence]. reflexivity.
Qed.

(** When the creation path of [migrate_annotation_queue] returns, its
    last call is the [POST] to [/annotation-queues], answered with a body
    whose ["id"] is the value returned. *)
Lemma create_annotation_queue_returns fuel mode queue (s s' : State W) new_id :
  create_annotation_queue http py_str self fuel mode queue s
  = (Ok new_id, s') ->
  exists payload body,
    last (calls s') = Some (queue_create self payload, Some (Json body))
    /\ Py.getitem payload "name" = Py.getitem queue "name"
    /\ Py.getitem body "id" = Ok new_id.
Proof.
  unfold create_annotation_queue. unfold bind at 1.
  destruct (queue_default_dataset http py_str self fuel mode queue s)
    as [[dd|e|] s1]; try discriminate.
  rewrite bind_lift.
  destruct (create_annotation_queue_payload queue dd) as [payload|e|]
    eqn:Hpayload; try discriminate.
  rewrite create_queue_post. intros [= Hid <-].
  unfold after. cbn [calls]. rewrite last_snoc.
  destruct ((http (queue_create self payload) (world s1)).1)
    as [[body|]|]; cbn in Hid; try discriminate.
  exists payload, body. split; [reflexivity|]. split; [|exact Hid].
  revert Hpayload. unfold create_annotation_queue_payload, Py.dict.
  cbn [Py.display obind].
  destruct (Py.getitem queue "name") as [name|e|]; try discriminate.
  cbn [obind].
  repeat match goal with
         | |- context [Py.getitem queue ?k] =>
             destruct (Py.getitem queue k); try discriminate; cbn [obind]
         end.
  intros [= <-]. reflexivity.
Qed.

(** C9.  The existence check of [migrate_annotation_queue] looks the
    name up at [/annotation_queues] (underscore), while the queue is
    fetched from and created at [/annotation-queues] (hyphen).  So, on a
    destination that answers every lookup at the underscore path with an
    object that has a ["detail"] key, the check finds nothing, whatever
    queues the destination holds: with [check_if_already_exists] set,
    [migrate_annotation_queue] continues as the creation of the queue does
    from the state the lookup left, and whenever it returns, the value
    returned is the identifier of a queue it has just created by a [POST]
    to the hyphenated path. *)
Theorem queue_check_never_finds
    fuel id mode (s : State W) queue name w1 :
  (forall n w, exists body w',
      http (queue_lookup py_str self n) w = (Some (Json (VDict body)), w')
      /\ Py.lookup_key "detail" body <> None) ->
  http (queue_request py_str self id) (world s) = (Some (Json queue), w1) ->
  Py.getitem queue "name" = Ok name ->
  let s1 :=
    mkState w1 (calls s ++ [(queue_request py_str self id,
                             Some (Json queue))]) in
  let s2 := after http s1 (queue_lookup py_str self name) in
  url (queue_request py_str self id)
  = base_url self +:+ "/annotation-queues/" +:+ py_str id
  /\ url (queue_lookup py_str self name)
     = base_url self +:+ "/annotation_queues?name=" +:+ py_str name
  /\ existing_annotation_queue http py_str self true queue s1 = (Ok None, s2)
  /\ migrate_annotation_queue http py_str self fuel id true mode s
     = create_annotation_queue http py_str self fuel mode queue s2
  /\ forall new_id s',
       migrate_annotation_queue http py_str self fuel id true mode s
       = (Ok new_id, s') ->
       exists payload body,
         last (calls s') = Some (queue_create self payload, Some (Json body))
         /\ url (queue_create self payload)
            = base_url self +:+ "/annotation-queues"
         /\ Py.getitem payload "name" = Ok name
         /\ Py.getitem body "id" = Ok new_id.
Proof.
  intros Hdetail Hget Hname s1 s2.
  destruct (Hdetail name w1) as (body & w2 & Hlookup & Hkey).
  assert (Hcheck : existing_annotation_queue http py_str self true queue s1
                   = (Ok None, s2)).
  { subst s2. unfold after. subst s1. cbn [world calls]. rewrite Hlookup.
    eapply (existing_queue_detail queue name body
              (mkState w1 (calls s ++ [(queue_request py_str self id,
                                        Some (Json queue))])));
      eauto. }
  assert (Hrun :
    migrate_annotation_queue http py_str self fuel id true mode s
    = create_annotation_queue http py_str self fuel mode queue s2).
  { rewrite (migrate_annotation_queue_fetched _ _ _ _ _ _ _ Hget).
    fold s1. rewrite (bind_ok _ _ _ _ _ Hcheck). reflexivity. }
  repeat split; try reflexivity; try assumption.
  intros new_id s' Hret. rewrite Hrun in Hret.
  destruct (create_annotation_queue_returns _ _ _ _ _ _ Hret)
    as (payload & reply & Hlast & Hpname & Hid).
  exists payload, reply. rewrite Hpname, Hname. auto.
Qed.

(** *** [migrate_project_rules] *)

Lemma for_each_app {A B} (body : A -> B -> M W B) xs ys acc (s : State W) :
  for_each body (xs ++ ys) acc s
  = bind (for_each body xs acc) (for_each body ys) s.
Proof.
  revert acc s. induction xs as [|x xs IH]; intros acc s; cbn [for_each app].
  - reflexivity.
  - unfold bind at 1. unfold bind at 2. unfold bind at 1.
    destruct (body x acc s) as [[acc'|e|] s1]; try reflexivity.
    rewrite IH. reflexivity.
Qed.

Lemma migrate_project_rules_fetched
    fuel old_project_id new_project_id (s : State W) body w1 old_rules :
  http (rules_request py_str self old_project_id) (world s)
  = (Some (Json body), w1) ->
  Py.iter body = Ok old_rules ->
  migrate_project_rules http py_str self fuel old_project_id new_project_id s
  = for_each (migrate_rule http py_str self fuel new_project_id) old_rules tt
      (mkState w1 (calls s ++ [(rules_request py_str self old_project_id,
                                Some (Json body))])).
Proof.
  intros Hget Hiter. unfold migrate_project_rules, requests_get. call Hget.
  rewrite bind_lift. cbn [response_json]. rewrite bind_lift, Hiter.
  reflexivity.
Qed.

(** A rule that carries a [dataset_id] is passed over: no call. *)
Lemma migrate_rule_skipped fuel new_project_id old_rule dataset_id
    (s : State W) :
  Py.getitem old_rule "dataset_id" = Ok dataset_id -> dataset_id <> VNone ->
  migrate_rule http py_str self fuel new_project_id old_rule tt s = (Ok tt, s).
Proof.
  intros Hd Hnone. unfold migrate_rule. rewrite bind_lift, Hd.
  destruct dataset_id; try congruence; reflexivity.
Qed.

Lemma rule_payload_fields
    new_project_id old_rule add_to_annotation_queue_id add_to_dataset_id
    payload :
  create_rule_payload new_project_id old_rule add_to_annotation_queue_id
    add_to_dataset_id = Ok payload ->
  Py.getitem payload "add_to_dataset_id" = Ok add_to_dataset_id
  /\ Py.getitem payload "add_to_annotation_queue_id"
     = Ok add_to_annotation_queue_id
  /\ Py.getitem payload "session_id" = Ok new_project_id
  /\ Py.getitem payload "dataset_id" = Ok VNone.
Proof.
  unfold create_rule_payload, Py.dict. cbn [Py.display obind].
  repeat match goal with
         | |- context [Py.getitem old_rule ?k] =>
             destruct (Py.getitem old_rule k); try discriminate; cbn [obind]
         end.
  intros [= <-]. repeat split.
Qed.

(** A rule without [dataset_id] and with a target dataset: the dataset is
    migrated, then the queue if there is one, then the rule is created. *)
Lemma migrate_rule_cascade
    fuel new_project_id old_rule target queue new_dataset_id new_queue_id
    payload (s s1 s2 : State W) :
  Py.getitem old_rule "dataset_id" = Ok VNone ->
  Py.getitem old_rule "add_to_dataset_id" = Ok target -> target <> VNone ->
  migrate_dataset http py_str self fuel target true "EXAMPLES" s
  = (Ok new_dataset_id, s1) ->
  Py.getitem old_rule "add_to_annotation_queue_id" = Ok queue ->
  (if negb (Py.is_none queue)
   then migrate_annotation_queue http py_str self fuel queue true
          "QUEUE_AND_DATASET"
   else ret VNone) s1 = (Ok new_queue_id, s2) ->
  create_rule_payload new_project_id old_rule new_queue_id new_dataset_id
  = Ok payload ->
  migrate_rule http py_str self fuel new_project_id old_rule tt s
  = (match (http (rule_create self payload) (world s2)).1 with
     | Some _ => Ok tt
     | None => Raise RequestException
     end, after http s2 (rule_create self payload)).
Proof.
  intros Hd Ht Hnone Hmigrate Hq Hqueue Hpayload.
  unfold migrate_rule. rewrite bind_lift, Hd. cbn [Py.is_none negb].
  rewrite bind_lift, Ht.
  assert (negb (Py.is_none target) = true) as ->
    by (destruct target; try congruence; reflexivity).
  rewrite (bind_ok _ _ _ _ _ Hmigrate).
  rewrite bind_lift, Hq.
  rewrite (bind_ok _ _ _ _ _ Hqueue).
  rewrite bind_lift, Hpayload.
  unfold requests_post. fold (rule_create self payload).
  unfold bind. rewrite send_after.
  destruct ((http (rule_create self payload) (world s2)).1); reflexivity.
Qed.

(** C7.  In [migrate_project_rules], once the rules of the source
    project are fetched and those before [old_rule] are processed:
    - if [old_rule] has a [dataset_id] that is not null, it is passed
      over, no call is made for it and the loop goes on with the next
      rule from the same state;
    - if its [dataset_id] is null and its [add_to_dataset_id] is not,
      [migrate_dataset] is run on that dataset with
      [check_if_already_exists] set and mode [EXAMPLES]; the queue, if
      any, is migrated after it; and only then the rule is created, by a
      [POST] whose payload has ["add_to_dataset_id"] equal to the
      identifier [migrate_dataset] returned, ["session_id"] equal to the
      new project and a null ["dataset_id"]. *)
Theorem rule_cascade
    fuel old_project_id new_project_id (s s0 : State W) body w1
    before old_rule later :
  http (rules_request py_str self old_project_id) (world s)
  = (Some (Json body), w1) ->
  Py.iter body = Ok (before ++ old_rule :: later) ->
  for_each (migrate_rule http py_str self fuel new_project_id) before tt
    (mkState w1 (calls s ++ [(rules_request py_str self old_project_id,
                              Some (Json body))]))
  = (Ok tt, s0) ->
  (forall dataset_id,
      Py.getitem old_rule "dataset_id" = Ok dataset_id ->
      dataset_id <> VNone ->
      migrate_project_rules http py_str self fuel old_project_id
        new_project_id s
      = for_each (migrate_rule http py_str self fuel new_project_id) later tt
          s0)
  /\ (forall target queue new_dataset_id new_queue_id payload s1 s2 response,
        Py.getitem old_rule "dataset_id" = Ok VNone ->
        Py.getitem old_rule "add_to_dataset_id" = Ok target ->
        target <> VNone ->
        migrate_dataset http py_str self fuel target true "EXAMPLES" s0
        = (Ok new_dataset_id, s1) ->
        Py.getitem old_rule "add_to_annotation_queue_id" = Ok queue ->
        (if negb (Py.is_none queue)
         then migrate_annotation_queue http py_str self fuel queue true
                "QUEUE_AND_DATASET"
         else ret VNone) s1 = (Ok new_queue_id, s2) ->
        create_rule_payload new_project_id old_rule new_queue_id
          new_dataset_id = Ok payload ->
        (http (rule_create self payload) (world s2)).1 = Some response ->
        Py.getitem payload "add_to_dataset_id" = Ok new_dataset_id
        /\ Py.getitem payload "session_id" = Ok new_project_id
        /\ Py.getitem payload "dataset_id" = Ok VNone
        /\ migrate_project_rules http py_str self fuel old_project_id
             new_project_id s
           = for_each (migrate_rule http py_str self fuel new_project_id)
               later tt (after http s2 (rule_create self payload))).
Proof.
  intros Hget Hiter Hbefore.
  assert (Hloop : forall o s3,
    migrate_rule http py_str self fuel new_project_id old_rule tt s0
    = (Ok o, s3) ->
    migrate_project_rules http py_str self fuel old_project_id
      new_project_id s
    = for_each (migrate_rule http py_str self fuel new_project_id) later tt
        s3).
  { intros [] s3 Hrule.
    rewrite (migrate_project_rules_fetched _ _ _ _ _ _ _ Hget Hiter).
    rewrite for_each_app, (bind_ok _ _ _ _ _ Hbefore).
    cbn [for_each]. rewrite (bind_ok _ _ _ _ _ Hrule). reflexivity. }
  split.
  - intros dataset_id Hd Hnone. eapply Hloop.
    eapply migrate_rule_skipped; eauto.
  - intros target queue new_dataset_id new_queue_id payload s1 s2 response
      Hd Ht Hnone Hmigrate Hq Hqueue Hpayload Hresponse.
    destruct (rule_payload_fields _ _ _ _ _ Hpayload) as (H1 & _ & H2 & H3).
    repeat split; try assumption.
    eapply Hloop.
    erewrite migrate_rule_cascade; eauto.
    rewrite Hresponse. reflexivity.
Qed.

(** *** [migrate_dataset_experiments] *)

Lemma str_keys_no_none (t : Py.table) :
  str_keys t -> Py.table_find VNone t = None.
Proof.
  induction 1 as [|[k v] t [k' Hk] _ IH]; [reflexivity|].
  cbn in Hk. subst k. cbn. exact IH.
Qed.

(** The payload built for a run is the run re-pointed. *)
Lemma run_payload_repointed exp_ids ex_ids run p :
  str_keys ex_ids ->
  run_payload exp_ids ex_ids run = Ok p ->
  repointed exp_ids ex_ids run p.
Proof.
  intros Hkeys. unfold run_payload, Py.dict, repointed.
  cbn [Py.display obind].
  destruct run as [| | | | |l|d]; try discriminate.
  cbn [Py.getitem Py.get].
  destruct (Py.lookup_key "name" d); [|discriminate].
  destruct (Py.lookup_key "inputs" d); [|discriminate].
  destruct (Py.lookup_key "run_type" d); [|discriminate].
  destruct (Py.lookup_key "start_time" d); [|discriminate].
  destruct (Py.lookup_key "end_time" d); [|discriminate].
  destruct (Py.lookup_key "extra" d); [|discriminate].
  destruct (Py.lookup_key "outputs" d); [|discriminate].
  destruct (Py.lookup_key "trace_id" d) as [trace_id|]; [|discriminate].
  destruct (Py.lookup_key "id" d) as [id|]; [|discriminate].
  destruct (Py.lookup_key "dotted_order" d) as [dotted|]; [|discriminate].
  destruct (Py.lookup_key "session_id" d) as [old|]; [|discriminate].
  cbn [obind]. unfold Py.table_getitem, Py.table_get.
  destruct (Py.hashable old); [|discriminate].
  destruct (Py.table_find old exp_ids) as [new|] eqn:Hnew; [|discriminate].
  cbn [obind].
  destruct (Py.lookup_key "reference_example_id" d) as [ref|].
  - destruct (Py.hashable ref); [|discriminate]. cbn [obind].
    intros [= <-]. split; [exists old, new|]; repeat split; assumption.
  - cbn [Py.hashable obind]. rewrite (str_keys_no_none _ Hkeys).
    intros [= <-]. split; [exists old, new|]; repeat split; assumption.
Qed.

Lemma push_runs_pages fuel : forall exp_ids ex_ids get_runs_payload,
  traces (run_pages self exp_ids ex_ids)
    (push_runs http self fuel exp_ids ex_ids get_runs_payload).
Proof.
  induction fuel as [|fuel IH]; intros exp_ids ex_ids get_runs_payload;
    cbn [push_runs].
  { apply traces_lift. constructor. }
  intros s. unfold requests_post. fold (query_request self get_runs_payload).
  unfold bind at 1, send.
  destruct (http (query_request self get_runs_payload) (world s))
    as [[[body|]|] w1]; cbn [snd calls];
    try (eexists; split; [reflexivity|apply run_pages_query]).
  rewrite bind_lift. cbn [response_json].
  rewrite bind_lift.
  destruct (Py.getitem body "runs") as [original_runs|e|] eqn:Hruns;
    cbn [snd calls];
    try (eexists; split; [reflexivity|apply run_pages_query]).
  rewrite bind_lift.
  destruct (Py.iter original_runs) as [runs|e|] eqn:Hiter; cbn [snd calls];
    try (eexists; split; [reflexivity|apply run_pages_query]).
  rewrite bind_lift.
  destruct (omap (run_payload exp_ids ex_ids) runs) as [post|e|] eqn:Hpost;
    cbn [snd calls];
    try (eexists; split; [reflexivity|apply run_pages_query]).
  fold (batch_request self post).
  unfold bind at 1, send. cbn [world calls].
  destruct (http (batch_request self post) w1) as [[response|] w2];
    cbn [snd calls].
  2:{ eexists. rewrite <- app_assoc. split; [reflexivity|].
      eapply run_pages_batch; eauto. constructor. }
  rewrite bind_lift.
  destruct (Py.getitem body "cursors") as [cursors|e|]; cbn [snd calls];
    try (eexists; rewrite <- app_assoc; split; [reflexivity|];
         eapply run_pages_batch; eauto; constructor).
  rewrite bind_lift.
  destruct (Py.getitem cursors "next") as [next|e|]; cbn [snd calls];
    try (eexists; rewrite <- app_assoc; split; [reflexivity|];
         eapply run_pages_batch; eauto; constructor).
  destruct (Py.is_none next); cbn [ret snd calls].
  - eexists; rewrite <- app_assoc; split; [reflexivity|].
    eapply run_pages_batch; eauto; constructor.
  - match goal with
    | |- context [push_runs _ _ _ _ _ ?payload ?s1] =>
        destruct (IH exp_ids ex_ids payload s1) as (cs & Hcs & Hpages)
    end.
    rewrite Hcs. cbn [calls]. eexists. rewrite <- !app_assoc.
    split; [reflexivity|]. eapply run_pages_batch; eauto.
Qed.

(** In the calls of the run loop, a batch comes right after the query it
    answers. *)
Lemma run_pages_batch_at exp_ids ex_ids cs :
  run_pages self exp_ids ex_ids cs ->
  forall j c,
    cs !! j = Some c ->
    url c.1 = base_url self +:+ "/runs/batch" ->
    exists i get_runs_payload body original_runs runs post,
      j = S i
      /\ cs !! i = Some (query_request self get_runs_payload,
                         Some (Json body))
      /\ Py.getitem body "runs" = Ok original_runs
      /\ Py.iter original_runs = Ok runs
      /\ omap (run_payload exp_ids ex_ids) runs = Ok post
      /\ c.1 = batch_request self post.
Proof.
  assert (Hurl : forall payload,
    url (query_request self payload) <> base_url self +:+ "/runs/batch").
  { intros payload Heq. apply String.eqb_eq in Heq. cbn [url query_request] in Heq.
    rewrite eqb_append_l in Heq. discriminate. }
  induction 1 as [|payload reply
                  |payload body original_runs runs post reply rest
                     Hruns Hiter Hpost _ IH];
    intros j c Hj Hc.
  - discriminate.
  - destruct j; [|discriminate]. injection Hj as <-.
    destruct (Hurl _ Hc).
  - destruct j as [|[|j]]; cbn in Hj.
    + injection Hj as <-. destruct (Hurl _ Hc).
    + injection Hj as <-.
      exists 0, payload, body, original_runs, runs, post.
      repeat split; assumption || reflexivity.
    + destruct (IH j c Hj Hc)
        as (i & payload' & body' & runs0 & runs' & post' & -> & Hi
            & H1 & H2 & H3 & H4).
      exists (S (S i)), payload', body', runs0, runs', post'.
      repeat split; assumption || reflexivity.
Qed.

Lemma create_experiment_posts nid experiment ids :
  emits (fun c => url c.1 = base_url self +:+ "/sessions")
    (create_experiment http self nid experiment ids).
Proof. unfold create_experiment, requests_post. repeat emits_step. Qed.

(** Creating one experiment: one [POST], whose payload points to the new
    dataset, and one more entry in the table, from the identifier of the
    source experiment to the identifier the destination answered. *)
Lemma create_experiment_entry nid experiment ids ids' (s s' : State W) :
  create_experiment http self nid experiment ids s = (Ok ids', s') ->
  exists old payload body new,
    Py.getitem experiment "id" = Ok old
    /\ calls s' = calls s ++ [(experiment_create self payload,
                               Some (Json body))]
    /\ Py.getitem payload "reference_dataset_id" = Ok nid
    /\ Py.getitem body "id" = Ok new
    /\ ids' = Py.table_put old new ids.
Proof.
  unfold create_experiment. rewrite bind_lift.
  match goal with
  | |- context [Py.dict ?entries] =>
      destruct (Py.dict entries) as [payload|e|] eqn:Hpayload
  end; try discriminate.
  unfold requests_post. fold (experiment_create self payload).
  unfold bind at 1. rewrite send_after.
  destruct ((http (experiment_create self payload) (world s)).1)
    as [[body|]|] eqn:Hreply; try discriminate.
  rewrite bind_lift. cbn [response_json]. rewrite bind_lift.
  destruct (Py.getitem body "id") as [new|e|] eqn:Hnew; try discriminate.
  rewrite bind_lift.
  destruct (Py.getitem experiment "id") as [old|e|] eqn:Hold;
    try discriminate.
  unfold Py.table_setitem, lift.
  destruct (Py.hashable old); try discriminate.
  intros [= <- <-]. exists old, payload, body, new.
  repeat split; try assumption.
  - unfold after. cbn [calls]. rewrite Hreply. reflexivity.
  - revert Hpayload. unfold Py.dict. cbn [Py.display obind].
    repeat match goal with
           | |- context [Py.getitem experiment ?k] =>
               destruct (Py.getitem experiment k); try discriminate;
               cbn [obind]
           end.
    destruct (Py.get experiment "trace_tier" VNone); try discriminate.
    cbn [obind]. intros [= <-]. reflexivity.
Qed.

Lemma table_find_put k v (t : Py.table) :
  Py.eq k k = true -> Py.table_find k (Py.table_put k v t) = Some v.
Proof.
  intros Hk. induction t as [|[k' v'] t IH]; cbn.
  - rewrite Hk. reflexivity.
  - destruct (Py.eq k' k) eqn:Hk'; cbn; rewrite Hk'; [reflexivity|exact IH].
Qed.

Lemma eq_str_inv k b : Py.eq k (VStr b) = true -> k = VStr b.
Proof.
  destruct k; cbn; try discriminate.
  intros H. apply String.eqb_eq in H. congruence.
Qed.

Lemma eq_str_refl b : Py.eq (VStr b) (VStr b) = true.
Proof. cbn. apply String.eqb_refl. Qed.

(** Looking a string up after an assignment, whatever the key assigned. *)
Lemma table_find_str_put a k v (t : Py.table) :
  Py.table_find (VStr a) (Py.table_put k v t)
  = if Py.eq k (VStr a) then Some v else Py.table_find (VStr a) t.
Proof.
  induction t as [|[k' v'] t IH]; cbn [Py.table_put Py.table_find].
  - reflexivity.
  - destruct (Py.eq k' k) eqn:Hk'; cbn [Py.table_find].
    + destruct (Py.eq k (VStr a)) eqn:Hk.
      * apply eq_str_inv in Hk. subst k. rewrite Hk'. reflexivity.
      * destruct (Py.eq k' (VStr a)) eqn:Ha; [|reflexivity].
        apply eq_str_inv in Ha. subst k'.
        destruct k; cbn in Hk', Hk; try discriminate.
        rewrite String.eqb_sym in Hk'. congruence.
    + rewrite IH.
      destruct (Py.eq k' (VStr a)) eqn:Ha; [|reflexivity].
      apply eq_str_inv in Ha. subst k'.
      destruct (Py.eq k (VStr a)) eqn:Hk; [|reflexivity].
      apply eq_str_inv in Hk. subst k. rewrite eq_str_refl in Hk'.
      discriminate.
Qed.

(** Every string key of the table the creation loop returns was entered
    by the creation of the last experiment of that identifier, with what
    the destination answered, unless the table had it before and no
    experiment has that identifier. *)
Lemma created_ids_issued nid :
  forall experiments ids0 ids (s s' : State W),
    for_each (create_experiment http self nid) experiments ids0 s
    = (Ok ids, s') ->
    exists cs,
      calls s' = calls s ++ cs
      /\ forall o new,
           Py.table_find (VStr o) ids = Some new ->
           issued_for self nid experiments cs o new
           \/ (Py.table_find (VStr o) ids0 = Some new
               /\ forall k e, experiments !! k = Some e ->
                    Py.getitem e "id" <> Ok (VStr o)).
Proof.
  induction experiments as [|e experiments IH]; intros ids0 ids s s' Hrun.
  - cbn in Hrun. injection Hrun as <- <-.
    exists []. rewrite app_nil_r. split; [reflexivity|].
    intros o new Hfind. right. split; [exact Hfind|]. intros k e' Hk.
    discriminate.
  - cbn [for_each] in Hrun. unfold bind in Hrun.
    destruct (create_experiment http self nid e ids0 s) as [[ids1|x|] s1]
      eqn:Hone; try discriminate.
    destruct (create_experiment_entry _ _ _ _ _ _ Hone)
      as (old & payload & body & new0 & Hold & Hcalls & Href & Hnew & ->).
    destruct (IH _ ids s1 s' Hrun) as (cs & Hcs & Hall).
    exists ((experiment_create self payload, Some (Json body)) :: cs).
    split; [rewrite Hcs, Hcalls, <- app_assoc; reflexivity|].
    intros o new Hfind.
    destruct (Hall o new Hfind)
      as [(k & e' & payload' & reply & Hk & Hid & Hlast & Hcall & Href'
           & Hnew')
         |[Hfind1 Hnone]].
    + left. exists (S k), e', payload', reply.
      repeat split; try assumption.
      intros [|k'] e'' Hlt Hk'; [lia|].
      apply (Hlast k' e''); [lia|exact Hk'].
    + rewrite table_find_str_put in Hfind1.
      destruct (Py.eq old (VStr o)) eqn:Ho.
      * apply eq_str_inv in Ho. subst old. injection Hfind1 as <-.
        left. exists 0, e, payload, body.
        repeat split; try assumption.
        intros [|k'] e'' Hlt Hk'; [lia|]. apply (Hnone k' e'' Hk').
      * right. split; [exact Hfind1|].
        intros [|k] e' Hk; cbn in Hk.
        -- injection Hk as <-. rewrite Hold. intros [= ->].
           rewrite eq_str_refl in Ho. discriminate.
        -- apply (Hnone k e' Hk).
Qed.

(** A run that can be rewritten is: building its payload does not raise,
    with a reference example or without one. *)
Lemma run_payload_rewritable exp_ids ex_ids run :
  rewritable exp_ids run ->
  exists p, run_payload exp_ids ex_ids run = Ok p.
Proof.
  intros (Hfields & (old & new & Hold & Hhash & Hfind) & Href).
  destruct run as [| | | | |l|d]; try discriminate.
  unfold run_payload, Py.dict. cbn [Py.display Py.get].
  repeat match goal with
         | |- context [Py.getitem (VDict d) ?k] =>
             lazymatch k with
             | "session_id" => fail
             | _ =>
                 let H := fresh in
                 destruct (Hfields k) as [? H];
                 [repeat (first [apply list_elem_of_here
                                |apply list_elem_of_further])|];
                 rewrite H; clear H; cbn [obind]
             end
         end.
  rewrite Hold. cbn [obind]. unfold Py.table_getitem. rewrite Hhash, Hfind.
  cbn [obind]. unfold Py.table_get.
  destruct (Py.lookup_key "reference_example_id" d) as [ref|] eqn:Hr.
  - rewrite (Href ref) by (cbn [Py.getitem]; rewrite Hr; reflexivity).
    cbn [obind]. eexists. reflexivity.
  - cbn [Py.hashable obind]. eexists. reflexivity.
Qed.

Lemma omap_defined {A B} (f : A -> outcome B) l :
  Forall (fun x => exists y, f x = Ok y) l -> exists l', omap f l = Ok l'.
Proof.
  induction 1 as [|x l [y Hy] _ [l' IH]]; cbn.
  - eexists. reflexivity.
  - rewrite Hy, IH. eexists. reflexivity.
Qed.

(** In the run loop, the runs of a page that can all be rewritten are
    submitted right after the query that returned them. *)
Lemma push_runs_batches fuel : forall exp_ids ex_ids get_runs_payload,
  str_keys ex_ids ->
  traces (batches_follow self exp_ids ex_ids)
    (push_runs http self fuel exp_ids ex_ids get_runs_payload).
Proof.
  assert (Hurl : forall post payload (reply reply' : option Response),
    (batch_request self post, reply)
    <> (query_request self payload, reply')).
  { intros post payload reply reply' [= Heq _ _].
    apply String.eqb_eq in Heq. rewrite eqb_append_l in Heq. discriminate. }
  assert (Hone : forall exp_ids ex_ids payload (reply : option Response),
    (forall body original_runs runs,
        reply = Some (Json body) ->
        Py.getitem body "runs" = Ok original_runs ->
        Py.iter original_runs = Ok runs ->
        Forall (rewritable exp_ids) runs -> False) ->
    batches_follow self exp_ids ex_ids [(query_request self payload, reply)]).
  { intros exp_ids ex_ids payload reply Hno [|i] q body original_runs runs Hi;
      [|discriminate].
    injection Hi as _ ->. intros Hruns Hiter Hall.
    destruct (Hno body original_runs runs eq_refl Hruns Hiter Hall). }
  induction fuel as [|fuel IH]; intros exp_ids ex_ids get_runs_payload Hkeys;
    cbn [push_runs].
  { apply traces_lift. intros i q body original_runs runs Hi. discriminate. }
  intros s. unfold requests_post. fold (query_request self get_runs_payload).
  unfold bind at 1, send.
  destruct (http (query_request self get_runs_payload) (world s))
    as [[[body|]|] w1]; cbn [snd calls];
    try (eexists; split; [reflexivity|apply Hone; intros; discriminate]).
  rewrite bind_lift. cbn [response_json].
  rewrite bind_lift.
  destruct (Py.getitem body "runs") as [original_runs|e|] eqn:Hruns;
    cbn [snd calls];
    try (eexists; split; [reflexivity|apply Hone;
         intros ? ? ? [= <-] H; rewrite H in Hruns; discriminate]).
  rewrite bind_lift.
  destruct (Py.iter original_runs) as [runs|e|] eqn:Hiter; cbn [snd calls];
    try (eexists; split; [reflexivity|apply Hone;
         intros ? ? ? [= <-] H H'; rewrite H in Hruns; injection Hruns as ->;
         rewrite H' in Hiter; discriminate]).
  rewrite bind_lift.
  destruct (omap (run_payload exp_ids ex_ids) runs) as [post|e|] eqn:Hpost;
    cbn [snd calls];
    try (eexists; split; [reflexivity|apply Hone;
         intros ? ? ? [= <-] H H' Hall; rewrite H in Hruns;
         injection Hruns as ->; rewrite H' in Hiter; injection Hiter as ->;
         destruct (omap_defined (run_payload exp_ids ex_ids) runs) as [? Hd];
         [eapply Forall_impl; [exact Hall|];
          intros run Hrun; apply run_payload_rewritable, Hrun
         |rewrite Hd in Hpost; discriminate]]).
  fold (batch_request self post).
  assert (Hfollow : forall reply rest,
    batches_follow self exp_ids ex_ids rest ->
    batches_follow self exp_ids ex_ids
      ((query_request self get_runs_payload, Some (Json body))
         :: (batch_request self post, reply) :: rest)).
  { intros reply rest Hrest [|[|i]] q body' runs0 runs' Hi Hr Hit Hall;
      cbn in Hi.
    - injection Hi as _ <-. rewrite Hr in Hruns. injection Hruns as ->.
      rewrite Hit in Hiter. injection Hiter as ->.
      exists post, reply. split; [reflexivity|].
      eapply Forall2_impl; [apply omap_Forall2, Hpost|].
      intros run p. apply run_payload_repointed, Hkeys.
    - exfalso. apply (Hurl post q reply (Some (Json body'))). congruence.
    - destruct (Hrest i q body' runs0 runs' Hi Hr Hit Hall)
        as (post' & reply' & Hnext & Hre).
      exists post', reply'. split; [exact Hnext|exact Hre]. }
  assert (Hnil : batches_follow self exp_ids ex_ids []).
  { intros i q body' runs0 runs' Hi. discriminate. }
  unfold bind at 1, send. cbn [world calls].
  destruct (http (batch_request self post) w1) as [[response|] w2];
    cbn [snd calls].
  2:{ eexists. rewrite <- app_assoc. split; [reflexivity|].
      apply Hfollow, Hnil. }
  rewrite bind_lift.
  destruct (Py.getitem body "cursors") as [cursors|e|]; cbn [snd calls];
    try (eexists; rewrite <- app_assoc; split; [reflexivity|];
         apply Hfollow, Hnil).
  rewrite bind_lift.
  destruct (Py.getitem cursors "next") as [next|e|]; cbn [snd calls];
    try (eexists; rewrite <- app_assoc; split; [reflexivity|];
         apply Hfollow, Hnil).
  destruct (Py.is_none next); cbn [ret snd calls].
  - eexists; rewrite <- app_assoc; split; [reflexivity|].
    apply Hfollow, Hnil.
  - match goal with
    | |- context [push_runs _ _ _ _ _ ?payload ?s1] =>
        destruct (IH exp_ids ex_ids payload Hkeys s1) as (cs & Hcs & Hpages)
    end.
    rewrite Hcs. cbn [calls]. eexists. rewrite <- !app_assoc.
    split; [reflexivity|]. apply Hfollow, Hpages.
Qed.

(** C2.  Whatever the two instances answer, a [POST] to [/runs/batch]
    made by [migrate_dataset_experiments] comes right after the query of
    the source's runs whose answer it rewrites, and its payload has one
    entry per run of that answer, in order, in which: ["session_id"] is
    what the table of experiments built by the function holds for the
    run's source ["session_id"], which, for a string, is the ["id"] the
    destination answered to the [POST] that created, for the new dataset,
    the source experiment of that identifier;
    ["reference_example_id"] is what the table of examples holds for the
    run's ["reference_example_id"] (null when the table has no such key),
    and null when the run has none; ["id"], ["trace_id"] and
    ["dotted_order"] are those of the run and ["parent_run_id"] is the
    run's (null when it has none).  Nothing is raised on the way: every
    query answered with runs that have the fields copied, a session among
    the experiments created and, if any, a hashable reference example, is
    followed at once by the batch of those runs. *)
Theorem runs_repointed fuel ds nid ex_ids (s : State W) :
  str_keys ex_ids ->
  let final :=
    migrate_dataset_experiments http py_str self fuel ds nid ex_ids s in
  (forall j c,
      new_calls s final.2 !! j = Some c ->
      method c.1 = POST ->
      url c.1 = base_url self +:+ "/runs/batch" ->
      exists experiments s1 exp_ids s2 i get_runs_payload body original_runs
             runs post,
        fetch_experiments http py_str self fuel ds 0 100 [] s
        = (Ok experiments, s1)
        /\ for_each (create_experiment http self nid) experiments [] s1
           = (Ok exp_ids, s2)
        /\ j = S i
        /\ new_calls s final.2 !! i
           = Some (query_request self get_runs_payload, Some (Json body))
        /\ Py.getitem body "runs" = Ok original_runs
        /\ Py.iter original_runs = Ok runs
        /\ c.1 = batch_request self post
        /\ Forall2 (repointed exp_ids ex_ids) runs post
        /\ Forall2 (fun run p =>
                      forall o,
                        Py.getitem run "session_id" = Ok (VStr o) ->
                        exists new,
                          Py.getitem p "session_id" = Ok new
                          /\ issued_for self nid experiments (new_calls s1 s2)
                               o new)
             runs post)
  /\ (forall experiments s1 exp_ids s2,
        fetch_experiments http py_str self fuel ds 0 100 [] s
        = (Ok experiments, s1) ->
        for_each (create_experiment http self nid) experiments [] s1
        = (Ok exp_ids, s2) ->
        batches_follow self exp_ids ex_ids (new_calls s final.2)).
Proof.
  intros Hkeys final.
  assert (Hfin : final = migrate_dataset_experiments http py_str self fuel ds
                           nid ex_ids s) by reflexivity.
  clearbody final.
  pose proof (fetch_experiments_gets fuel ds 0 100 [] s)
    as (cs1 & Hcs1 & Hgets).
  assert (Hget1 : forall k c, cs1 !! k = Some c -> method c.1 = GET).
  { intros k c Hk. rewrite Forall_forall in Hgets.
    apply (Hgets c (list_elem_of_lookup_2 _ _ _ Hk)). }
  unfold migrate_dataset_experiments in Hfin. unfold bind at 1 in Hfin.
  destruct (fetch_experiments http py_str self fuel ds 0 100 [] s)
    as [[experiments|e|] s1] eqn:Hfetch; cbn [snd] in Hcs1.
  2,3: subst final; (split; [|intros; discriminate]);
       intros j c Hj Hpost; exfalso; cbn [snd] in Hj; unfold new_calls in Hj;
       rewrite Hcs1, drop_app_length in Hj; apply Hget1 in Hj; congruence.
  pose proof (emits_for_each _ _ experiments
                (create_experiment_posts nid) [] s1)
    as (cs2 & Hcs2 & Hposts).
  assert (Hurl2 : forall k c, cs2 !! k = Some c ->
                              url c.1 = base_url self +:+ "/sessions").
  { intros k c Hk. rewrite Forall_forall in Hposts.
    apply (Hposts c (list_elem_of_lookup_2 _ _ _ Hk)). }
  assert (Hnot12 : forall k c, (cs1 ++ cs2) !! k = Some c ->
    (method c.1 = POST /\ url c.1 = base_url self +:+ "/runs/batch"
     \/ exists payload reply, c = (query_request self payload, reply)) ->
    False).
  { intros k c Hk Hc. apply lookup_app_Some in Hk as [Hk|[_ Hk]].
    - apply Hget1 in Hk.
      destruct Hc as [[Hp _]|(payload & reply & ->)]; cbn in Hk; congruence.
    - apply Hurl2 in Hk.
      destruct Hc as [[_ Hu]|(payload & reply & ->)];
        [rewrite Hu in Hk|cbn [fst url query_request] in Hk];
        apply String.eqb_eq in Hk; rewrite eqb_append_l in Hk; discriminate. }
  assert (Hlog : forall final' cs3,
    calls final' = (calls s ++ cs1) ++ cs2 ++ cs3 ->
    new_calls s final' = (cs1 ++ cs2) ++ cs3).
  { intros final' cs3 H. unfold new_calls.
    rewrite H, <- !app_assoc. apply drop_app_length. }
  assert (Hstop : forall final',
    calls final' = (calls s ++ cs1) ++ cs2 ->
    (forall j c,
        new_calls s final' !! j = Some c ->
        method c.1 = POST ->
        url c.1 = base_url self +:+ "/runs/batch" -> False)
    /\ forall exp_ids, batches_follow self exp_ids ex_ids (new_calls s final')).
  { intros final' H.
    rewrite (Hlog final' []) by (rewrite app_nil_r; exact H).
    rewrite app_nil_r. split.
    - intros j c Hj Hpost Hurl. eapply Hnot12; eauto.
    - intros exp_ids i q body original_runs runs Hi. exfalso.
      eapply Hnot12; eauto. }
  unfold bind at 1 in Hfin.
  destruct (for_each (create_experiment http self nid) experiments [] s1)
    as [[exp_ids|e|] s2] eqn:Hcreate; cbn [snd] in Hcs2.
  2,3: subst final; cbn [snd];
       destruct (Hstop s2) as [Hno Hyes]; [rewrite Hcs2, Hcs1; reflexivity|];
       (split; [intros j c Hj Hpost Hurl; destruct (Hno j c Hj Hpost Hurl)
               |intros; apply Hyes]).
  assert (Hissued : forall o new,
    Py.table_find (VStr o) exp_ids = Some new ->
    issued_for self nid experiments (new_calls s1 s2) o new).
  { destruct (created_ids_issued nid _ _ _ _ _ Hcreate) as (cs & Hcs & Hall).
    intros o new Hfind. unfold new_calls. rewrite Hcs, drop_app_length.
    destruct (Hall o new Hfind) as [H|[H _]]; [exact H|discriminate]. }
  rewrite bind_lift in Hfin.
  destruct (omap (fun experiment => Py.getitem experiment "id") experiments)
    as [session|e|].
  2,3: subst final; cbn [snd];
       destruct (Hstop s2) as [Hno Hyes]; [rewrite Hcs2, Hcs1; reflexivity|];
       (split; [intros j c Hj Hpost Hurl; destruct (Hno j c Hj Hpost Hurl)
               |intros; apply Hyes]).
  match type of Hfin with
  | context [push_runs _ _ _ _ _ ?payload s2] =>
      destruct (push_runs_pages fuel exp_ids ex_ids payload s2)
        as (cs3 & Hcs3 & Hpages);
      destruct (push_runs_batches fuel exp_ids ex_ids payload Hkeys s2)
        as (cs3' & Hcs3' & Hfollow)
  end.
  assert (cs3' = cs3) as ->
    by (rewrite Hcs3 in Hcs3'; apply app_inv_head in Hcs3'; congruence).
  rewrite <- Hfin in Hcs3.
  rewrite (Hlog final.2 cs3)
    by (rewrite Hcs3, Hcs2, Hcs1, <- !app_assoc; reflexivity).
  unfold Call in *. split.
  - intros j c Hj Hpost Hurl.
    apply lookup_app_Some in Hj as [Hj|[Hlen Hj]];
      [exfalso; eapply Hnot12; eauto|].
    destruct (run_pages_batch_at _ _ _ Hpages _ _ Hj Hurl)
      as (i & payload & body & original_runs & runs & post
          & Hji & Hi & Hruns & Hiter & Hposted & Hc).
    exists experiments, s1, exp_ids, s2, (length (cs1 ++ cs2) + i), payload,
      body, original_runs, runs, post.
    assert (Hall : Forall2 (repointed exp_ids ex_ids) runs post).
    { eapply Forall2_impl; [apply omap_Forall2, Hposted|].
      intros run p. apply run_payload_repointed, Hkeys. }
    repeat split; try assumption.
    + lia.
    + rewrite lookup_app_r by lia.
      replace (length (cs1 ++ cs2) + i - length (cs1 ++ cs2)) with i by lia.
      exact Hi.
    + eapply Forall2_impl; [exact Hall|].
      intros run p ((old & new & Hold & Hfind & Hnew) & _) o Ho.
      rewrite Ho in Hold. injection Hold as <-.
      exists new. split; [exact Hnew|apply Hissued, Hfind].
  - intros ? ? ? ? [= <- <-] H. rewrite Hcreate in H. injection H as <- <-.
    intros i q body original_runs runs Hi Hruns Hiter Hall.
    apply lookup_app_Some in Hi as [Hi|[Hlen Hi]];
      [exfalso; eapply Hnot12; eauto|].
    destruct (Hfollow _ _ _ _ _ Hi Hruns Hiter Hall)
      as (post & reply & Hnext & Hre).
    exists post, reply. split; [|exact Hre].
    rewrite lookup_app_r by lia.
    replace (S i - length (cs1 ++ cs2))
      with (S (i - length (cs1 ++ cs2))) by lia.
    exact Hnext.
Qed.

End Properties.

(** ** The migrator on the in-memory platform *)

Section Runs.

Local Open Scope nat_scope.

(** The source serves the 250 examples of the large dataset by offset. *)
Lemma source_serves_large :
  serves_examples Scenario.http Fake.migrator (VStr "ds1")
    Scenario.large_examples.
Proof.
  intros w offset. unfold Scenario.http, Fake.http.
  change (headers (examples_request Fake.migrator (VStr "ds1") offset))
    with (old_headers Fake.migrator).
  rewrite decide_True by reflexivity.
  change ((Fake.serve Scenario.source 0 (base_url Fake.migrator)
             (examples_request Fake.migrator (VStr "ds1") offset)).1.1)
    with (Json (VList (take 100 (drop (Z.to_nat (Z.of_nat offset))
                 (Fake.keep (Fake.has "dataset_id" (VStr "ds1"))
                    (Fake.examples Scenario.source)))))).
  rewrite Nat2Z.id. reflexivity.
Qed.

(** The source serves the three examples of the small dataset. *)
Lemma source_serves_small :
  serves_examples Scenario.http Fake.migrator (VStr "ds2")
    Scenario.small_examples.
Proof.
  intros w offset. unfold Scenario.http, Fake.http.
  change (headers (examples_request Fake.migrator (VStr "ds2") offset))
    with (old_headers Fake.migrator).
  rewrite decide_True by reflexivity.
  change ((Fake.serve Scenario.source 0 (base_url Fake.migrator)
             (examples_request Fake.migrator (VStr "ds2") offset)).1.1)
    with (Json (VList (take 100 (drop (Z.to_nat (Z.of_nat offset))
                 (Fake.keep (Fake.has "dataset_id" (VStr "ds2"))
                    (Fake.examples Scenario.source)))))).
  rewrite Nat2Z.id.
  replace (Fake.keep (Fake.has "dataset_id" (VStr "ds2"))
             (Fake.examples Scenario.source))
    with Scenario.small_examples by (vm_compute; reflexivity).
  reflexivity.
Qed.

(** The 250 examples are read as three pages, at offsets 0, 100 and 200,
    and submitted as 250 payloads. *)
Lemma pagination_250 :
  let s := Fake.start Fake.empty in
  let payload := Scenario.payloads (VStr "new-0") Scenario.large_examples in
  fetch_examples Scenario.http Fake.migrator 3 (VStr "ds1") 0 100 [] s
  = (Ok Scenario.large_examples,
     mkState (world s)
       (calls s ++ map (page_call Fake.migrator (VStr "ds1")
                          Scenario.large_examples) [0; 1; 2]))
  /\ new_calls s (migrate_dataset_examples Scenario.http Fake.migrator 3
                    (VStr "ds1") (VStr "new-0") s).2
     = map (page_call Fake.migrator (VStr "ds1") Scenario.large_examples)
         [0; 1; 2]
       ++ [(bulk_request Fake.migrator payload,
            (Scenario.http (bulk_request Fake.migrator payload) (world s)).1)]
  /\ length payload = 250.
Proof.
  apply (pagination_complete Scenario.http Fake.migrator (VStr "ds1")
           (VStr "new-0") Scenario.large_examples
           (Scenario.payloads (VStr "new-0") Scenario.large_examples)
           2 50 3 (Fake.start Fake.empty)).
  - exact source_serves_large.
  - vm_compute. reflexivity.
  - lia.
  - lia.
  - vm_compute. reflexivity.
Defined.

(** The three examples of the small dataset are mapped, in order, to the
    three identifiers the destination issued. *)
Lemma small_mapping :
  exists mapping : Py.table,
    (migrate_dataset_examples Scenario.http Fake.migrator 1 (VStr "ds2")
       (VStr "new-0") (Fake.start Fake.empty)).1 = Ok mapping
    /\ length mapping = length Scenario.small_examples
    /\ (forall i o n,
          ["b-0"; "b-1"; "b-2"] !! i = Some o ->
          ["new-0"; "new-1"; "new-2"] !! i = Some n ->
          mapping !! i = Some (VStr o, VStr n)
          /\ Py.table_get mapping (VStr o) = Ok (VStr n))
    /\ NoDup mapping.*1 /\ NoDup mapping.*2.
Proof.
  eapply (example_mapping_positional Scenario.http Fake.migrator (VStr "ds2")
            (VStr "new-0") Scenario.small_examples
            (Scenario.payloads (VStr "new-0") Scenario.small_examples)
            (Fake.with_ids 0
               (Scenario.payloads (VStr "new-0") Scenario.small_examples))
            ["b-0"; "b-1"; "b-2"] ["new-0"; "new-1"; "new-2"]
            0 3 1 (Fake.start Fake.empty)).
  - exact source_serves_small.
  - reflexivity.
  - lia.
  - lia.
  - vm_compute. reflexivity.
  - repeat constructor.
  - apply (bool_decide_unpack _). vm_compute. exact I.
  - vm_compute. reflexivity.
  - reflexivity.
  - repeat constructor.
  - apply (bool_decide_unpack _). vm_compute. exact I.
Defined.

(** The in-memory platform knows no [/annotation_queues] path. *)
Lemma underscore_path_unknown n w :
  exists body w',
    Scenario.http (queue_lookup Fake.str Fake.migrator n) w
    = (Some (Json (VDict body)), w')
    /\ Py.lookup_key "detail" body <> None.
Proof.
  destruct w as [i k []]; eexists _, _; (split; [reflexivity|discriminate]).
Qed.

(** The payloads submitted for the small dataset carry the expected
    splits. *)
Lemma small_splits :
  let payload := Scenario.payloads (VStr "new-0") Scenario.small_examples in
  let c : Call :=
    (bulk_request Fake.migrator payload,
     Some (Json (VList (Fake.with_ids 0 payload)))) in
  exists submitted,
    c.1 = bulk_request Fake.migrator submitted
    /\ Forall2 (fun example p =>
                  Py.getitem p "split" = Ok (expected_split example))
         Scenario.small_examples submitted.
Proof.
  intros payload c.
  apply (split_field Scenario.http Fake.migrator 1 (VStr "ds2") (VStr "new-0")
           (Fake.start Fake.empty) Scenario.small_examples c).
  - vm_compute. reflexivity.
  - vm_compute. repeat constructor.
  - reflexivity.
Defined.

(** Migrating the small dataset twice into an empty destination: both
    calls return the same identifier, the second only reads, and one
    dataset is created. *)
Lemma migrate_twice :
  let start := Fake.start Fake.empty in
  let first :=
    migrate_dataset Scenario.http Fake.str Fake.migrator 1 (VStr "ds2") true
      "EXAMPLES" start in
  let second :=
    migrate_dataset Scenario.http Fake.str Fake.migrator 1 (VStr "ds2") true
      "EXAMPLES" first.2 in
  first.1 = Ok (VStr "new-0")
  /\ second.1 = Ok (VStr "new-0")
  /\ Forall (fun c => is_post c = false) (new_calls first.2 second.2)
  /\ creations Fake.migrator (new_calls start second.2) = 1.
Proof.
  intros start first second.
  assert (Hfirst : first = (Ok (VStr "new-0"), first.2))
    by (vm_compute; reflexivity).
  edestruct (migrate_dataset_idempotent Scenario.http Fake.str Fake.migrator
               1 (VStr "ds2") "EXAMPLES" first.2)
    as (Hsecond & Hreads & Htwice).
  - vm_compute. reflexivity.
  - vm_compute. reflexivity.
  - vm_compute. reflexivity.
  - vm_compute. reflexivity.
  - fold second in Hsecond.
    split; [rewrite Hfirst; reflexivity|].
    split; [rewrite Hsecond; reflexivity|].
    split; [rewrite Hsecond; exact Hreads|].
    rewrite Hsecond.
    eapply (Htwice 1 "EXAMPLES" start Hfirst).
    + vm_compute. reflexivity.
    + vm_compute. reflexivity.
    + vm_compute. reflexivity.
Defined.

(** A destination with two datasets named ["bar"]: the migration of the
    source dataset of that name raises after its two reads. *)
Lemma two_bars_raise :
  let start := Fake.start Scenario.two_bars in
  migrate_dataset Scenario.http Fake.str Fake.migrator 1 (VStr "ds2") true
    "EXAMPLES" start
  = (Raise (ValueError "Found multiple datasets with name bar in new instance"),
     mkState (world start)
       [(dataset_request Fake.str Fake.migrator (VStr "ds2"),
         Some (Json (Scenario.dataset "ds2" "bar")));
        (dataset_lookup Fake.str Fake.migrator (VStr "bar"),
         Some (Json (VList [Scenario.dataset "x1" "bar";
                            Scenario.dataset "x2" "bar"])))]).
Proof.
  intros start.
  apply (ambiguous_name_raises Scenario.http Fake.str Fake.migrator 1
           (VStr "ds2") "EXAMPLES" start (Scenario.dataset "ds2" "bar")
           (VStr "bar")
           [Scenario.dataset "x1" "bar"; Scenario.dataset "x2" "bar"]
           (world start) (world start)).
  - reflexivity.
  - reflexivity.
  - reflexivity.
  - repeat constructor; eexists; reflexivity.
  - cbn. lia.
Defined.

(** While the search by name is down, migrating a dataset the destination
    already has creates a second one of the same name. *)
Lemma search_down_duplicates :
  let start := Fake.start_search_down Scenario.migrated in
  let final :=
    migrate_dataset Scenario.http Fake.str Fake.migrator 1 (VStr "ds2") true
      "DATASET_ONLY" start in
  (exists payload reply,
      new_calls start final.2 !! 2
      = Some (dataset_create Fake.migrator payload, reply))
  /\ final.1 = Ok (VStr "new-0")
  /\ length (Fake.keep (Fake.has "name" (VStr "bar"))
               (Fake.datasets (Fake.destination (world final.2)))) = 2.
Proof.
  intros start final.
  edestruct (failed_lookup_creates Scenario.http Fake.str Fake.migrator 1
               (VStr "ds2") "DATASET_ONLY" start)
    as (Hcheck & Hrun & Hthird).
  - vm_compute. reflexivity.
  - vm_compute. reflexivity.
  - vm_compute. reflexivity.
  - discriminate.
  - split; [|split].
    + eexists _, _. apply Hthird. vm_compute. reflexivity.
    + unfold final. rewrite Hrun. vm_compute. reflexivity.
    + unfold final. rewrite Hrun. vm_compute. reflexivity.
Defined.

(** The queue of the source, migrated with and without its default
    dataset. *)
Lemma queue_with_dataset :
  let start := Fake.start Fake.empty in
  (exists payload,
      Py.getitem payload "default_dataset" = Ok (VStr "new-0")
      /\ (migrate_annotation_queue Scenario.http Fake.str Fake.migrator 1
            (VStr "q1") true "QUEUE_AND_DATASET" start).1 = Ok (VStr "new-4")
      /\ last (calls (migrate_annotation_queue Scenario.http Fake.str
                        Fake.migrator 1 (VStr "q1") true "QUEUE_AND_DATASET"
                        start).2)
         = Some (queue_create Fake.migrator payload,
                 Some (Json (Fake.with_id 4 payload))))
  /\ (exists payload,
        Py.getitem payload "default_dataset" = Ok VNone
        /\ (migrate_annotation_queue Scenario.http Fake.str Fake.migrator 1
              (VStr "q1") true "QUEUE_ONLY" start).1 = Ok (VStr "new-0")
        /\ new_calls start
             (migrate_annotation_queue Scenario.http Fake.str Fake.migrator 1
                (VStr "q1") true "QUEUE_ONLY" start).2 !! 2
           = Some (queue_create Fake.migrator payload,
                   Some (Json (Fake.with_id 0 payload)))).
Proof.
  intros start.
  edestruct (queue_default_dataset_migrated Scenario.http Fake.str
               Fake.migrator 1 (VStr "q1") true start)
    as (Hboth & Honly).
  - vm_compute. reflexivity.
  - vm_compute. reflexivity.
  - split.
    + edestruct Hboth as (Hfield & Hrun).
      * vm_compute. reflexivity.
      * discriminate.
      * vm_compute. reflexivity.
      * vm_compute. reflexivity.
      * eexists. split; [exact Hfield|]. rewrite Hrun.
        split; vm_compute; reflexivity.
    + edestruct Honly as (Hfield & Hrun).
      * vm_compute. reflexivity.
      * eexists. split; [exact Hfield|]. rewrite Hrun.
        split; vm_compute; reflexivity.
Defined.

(** The destination already has the queue ["review"]; migrating it with
    the existence check on creates a second one. *)
Lemma queue_created_again :
  let start := Fake.start Scenario.migrated in
  let final :=
    migrate_annotation_queue Scenario.http Fake.str Fake.migrator 1 (VStr "q1")
      true "QUEUE_ONLY" start in
  final.1 = Ok (VStr "new-0")
  /\ (exists payload body,
        last (calls final.2)
        = Some (queue_create Fake.migrator payload, Some (Json body))
        /\ url (queue_create Fake.migrator payload)
           = base_url Fake.migrator +:+ "/annotation-queues"
        /\ Py.getitem payload "name" = Ok (VStr "review")
        /\ Py.getitem body "id" = Ok (VStr "new-0"))
  /\ length (Fake.keep (Fake.has "name" (VStr "review"))
               (Fake.queues (Fake.destination (world final.2)))) = 2.
Proof.
  intros start final.
  edestruct (queue_check_never_finds Scenario.http Fake.str Fake.migrator 1
               (VStr "q1") "QUEUE_ONLY" start)
    as (_ & _ & Hcheck & Hrun & Hcreated).
  - exact underscore_path_unknown.
  - vm_compute. reflexivity.
  - vm_compute. reflexivity.
  - assert (Hfinal : final = (Ok (VStr "new-0"), final.2))
      by (vm_compute; reflexivity).
    split; [rewrite Hfinal; reflexivity|].
    split; [exact (Hcreated _ _ Hfinal)|].
    vm_compute. reflexivity.
Defined.

(** The two rules of the project: the first is passed over, the second has
    the small dataset migrated before it is created. *)
Lemma rules_of_project :
  let start := Fake.start Fake.empty in
  let fetched :=
    mkState (world start)
      [(rules_request Fake.str Fake.migrator (VStr "p1"),
        Some (Json (VList [Scenario.guarded_rule; Scenario.collecting_rule])))] in
  migrate_project_rules Scenario.http Fake.str Fake.migrator 1 (VStr "p1")
    (VStr "p2") start
  = for_each (migrate_rule Scenario.http Fake.str Fake.migrator 1 (VStr "p2"))
      [Scenario.collecting_rule] tt fetched
  /\ exists payload s2,
       Py.getitem payload "add_to_dataset_id" = Ok (VStr "new-0")
       /\ Py.getitem payload "session_id" = Ok (VStr "p2")
       /\ Py.getitem payload "dataset_id" = Ok VNone
       /\ migrate_dataset Scenario.http Fake.str Fake.migrator 1 (VStr "ds2")
            true "EXAMPLES" fetched = (Ok (VStr "new-0"), s2)
       /\ migrate_project_rules Scenario.http Fake.str Fake.migrator 1
            (VStr "p1") (VStr "p2") start
          = (Ok tt, after Scenario.http s2 (rule_create Fake.migrator payload)).
Proof.
  intros start fetched. split.
  - edestruct (rule_cascade Scenario.http Fake.str Fake.migrator 1 (VStr "p1")
                 (VStr "p2") start fetched
                 (VList [Scenario.guarded_rule; Scenario.collecting_rule])
                 (world start) [] Scenario.guarded_rule
                 [Scenario.collecting_rule])
      as (Hskip & _).
    + reflexivity.
    + reflexivity.
    + reflexivity.
    + apply (Hskip (VStr "ds9")); [reflexivity|discriminate].
  - edestruct (rule_cascade Scenario.http Fake.str Fake.migrator 1 (VStr "p1")
                 (VStr "p2") start fetched
                 (VList [Scenario.guarded_rule; Scenario.collecting_rule])
                 (world start) [Scenario.guarded_rule] Scenario.collecting_rule
                 [])
      as (_ & Hcascade).
    + reflexivity.
    + reflexivity.
    + vm_compute. reflexivity.
    + edestruct Hcascade as (H1 & H2 & H3 & Hrun).
      * reflexivity.
      * reflexivity.
      * discriminate.
      * vm_compute. reflexivity.
      * reflexivity.
      * vm_compute. reflexivity.
      * vm_compute. reflexivity.
      * vm_compute. reflexivity.
      * eexists _, _. split; [exact H1|]. split; [exact H2|].
        split; [exact H3|]. split; [vm_compute; reflexivity|]. exact Hrun.
Defined.

(** The first batch of runs submitted for the experiments of the small
    dataset: the two runs of the first page go to the experiments the
    destination has just created, the first with the new identifier of its
    example, the second, which has no example, with null. *)
Lemma first_batch_repointed :
  let start := Fake.start Fake.empty in
  let ex_ids := id_table ["b-0"; "b-1"; "b-2"] ["new-1"; "new-2"; "new-3"] in
  let final :=
    migrate_dataset_experiments Scenario.http Fake.str Fake.migrator 2
      (VStr "ds2") (VStr "new-0") ex_ids start in
  final.1 = Ok tt
  /\ (exists c experiments s1 exp_ids s2 get_runs_payload body original_runs
             runs post,
        new_calls start final.2 !! 4 = Some c
        /\ fetch_experiments Scenario.http Fake.str Fake.migrator 2
             (VStr "ds2") 0 100 [] start = (Ok experiments, s1)
        /\ for_each (create_experiment Scenario.http Fake.migrator
                       (VStr "new-0"))
             experiments [] s1 = (Ok exp_ids, s2)
        /\ new_calls start final.2 !! 3
           = Some (query_request Fake.migrator get_runs_payload,
                   Some (Json body))
        /\ Py.getitem body "runs" = Ok original_runs
        /\ Py.iter original_runs = Ok runs
        /\ c.1 = batch_request Fake.migrator post
        /\ Forall2 (repointed exp_ids ex_ids) runs post
        /\ Forall2 (fun run p =>
                      forall o,
                        Py.getitem run "session_id" = Ok (VStr o) ->
                        exists new,
                          Py.getitem p "session_id" = Ok new
                          /\ issued_for Fake.migrator (VStr "new-0")
                               experiments (new_calls s1 s2) o new)
             runs post)
  /\ (exists post reply,
        new_calls start final.2 !! 4
        = Some (batch_request Fake.migrator post, reply)
        /\ Forall2 (repointed Cases.exp_ids ex_ids) (take 2 Scenario.runs)
             post
        /\ map (fun p => Py.getitem p "session_id") post
           = [Ok (VStr "new-0"); Ok (VStr "new-1")]
        /\ map (fun p => Py.getitem p "reference_example_id") post
           = [Ok (VStr "new-2"); Ok VNone]).
Proof.
  intros start ex_ids final. split; [vm_compute; reflexivity|].
  assert (Hkeys : str_keys ex_ids)
    by (repeat constructor; eexists; reflexivity).
  destruct (runs_repointed Scenario.http Fake.str Fake.migrator 2 (VStr "ds2")
              (VStr "new-0") ex_ids start Hkeys) as [Hbatch Hfollow].
  fold final in Hbatch, Hfollow. split.
  - edestruct (Hbatch 4)
      as (experiments & s1 & exp_ids & s2 & i & payload & body
          & original_runs & runs & post & Hfetch & Hcreate & Hi & Hquery
          & Hruns & Hiter & Hc & Hall & Hissued).
    + vm_compute. reflexivity.
    + reflexivity.
    + reflexivity.
    + injection Hi as <-.
      eexists _, experiments, s1, exp_ids, s2, payload, body, original_runs,
        runs, post.
      split; [vm_compute; reflexivity|].
      repeat split; assumption.
  - edestruct (Hfollow Cases.experiments
                 (fetch_experiments Scenario.http Fake.str Fake.migrator 2
                    (VStr "ds2") 0 100 [] start).2
                 Cases.exp_ids
                 (for_each (create_experiment Scenario.http Fake.migrator
                              (VStr "new-0"))
                    Cases.experiments []
                    (fetch_experiments Scenario.http Fake.str Fake.migrator 2
                       (VStr "ds2") 0 100 [] start).2).2
                 eq_refl eq_refl 3 Cases.first_query
                 (Cases.page_of Cases.first_query)
                 (VList (take 2 Scenario.runs)) (take 2 Scenario.runs))
      as (post & reply & Hnext & Hre).
    + vm_compute. reflexivity.
    + vm_compute. reflexivity.
    + reflexivity.
    + repeat constructor;
        try (intros k Hk;
             repeat (apply elem_of_cons in Hk as [->|Hk];
                     [eexists; reflexivity|]);
             apply elem_of_nil in Hk; destruct Hk);
        try (eexists _, _; repeat split; reflexivity);
        intros ref Href; vm_compute in Href;
        first [discriminate|injection Href as <-; reflexivity].
    + exists post, reply. split; [exact Hnext|]. split; [exact Hre|].
      vm_compute in Hnext. injection Hnext as <- _.
      split; reflexivity.
Defined.

End Runs.

(** ** Further properties *)

Section Further.

Context {W : Type}.
Variable http : Request -> W -> option Response * W.
Variable py_str : value -> string.
Variable self : LangsmithMigrator.

Local Open Scope nat_scope.

Ltac safe_step :=
  lazymatch goal with
  | |- emits _ (lift _) => apply emits_lift
  | |- emits _ (raise _) => apply emits_lift
  | |- emits _ out_of_fuel => apply emits_lift
  | |- emits _ (ret _) => apply emits_ret
  | |- emits _ (send _ _) =>
      apply emits_send; intros; unfold source_safe;
      cbn [fst method url headers];
      first [ left; reflexivity
            | right; left; reflexivity
            | right; right; reflexivity ]
  | |- emits _ (bind _ _) => apply emits_bind; [|intros]
  | |- emits _ (if ?b then _ else _) => destruct b
  | |- emits _ (match ?x with _ => _ end) => destruct x
  end.

Lemma safe_examples fuel ds nid :
  emits (source_safe self) (migrate_dataset_examples http self fuel ds nid).
Proof.
  unfold migrate_dataset_examples, requests_post.
  apply emits_bind; [|intros; repeat safe_step].
  eapply emits_weaken; [|apply fetch_examples_gets].
  intros c Hc. left. exact Hc.
Qed.

Lemma safe_push_runs fuel : forall exp_ids ex_ids payload,
  emits (source_safe self) (push_runs http self fuel exp_ids ex_ids payload).
Proof.
  induction fuel as [|fuel IH]; intros exp_ids ex_ids payload;
    cbn [push_runs]; [apply (emits_lift _ OutOfFuel)|].
  unfold requests_post. repeat safe_step. apply IH.
Qed.

Lemma safe_experiments fuel ds nid ex_ids :
  emits (source_safe self)
    (migrate_dataset_experiments http py_str self fuel ds nid ex_ids).
Proof.
  unfold migrate_dataset_experiments.
  apply emits_bind.
  { eapply emits_weaken; [|apply fetch_experiments_gets].
    intros c Hc. left. exact Hc. }
  intros experiments. apply emits_bind.
  { apply emits_for_each. intros.
    unfold create_experiment, requests_post. repeat safe_step. }
  intros ids. apply emits_bind; [apply emits_lift|].
  intros session. apply safe_push_runs.
Qed.

Lemma safe_existing_dataset check ds :
  emits (source_safe self) (existing_dataset http py_str self check ds).
Proof.
  eapply emits_weaken; [|apply existing_dataset_gets].
  intros c Hc. left. exact Hc.
Qed.

Lemma safe_dataset fuel id check mode :
  emits (source_safe self) (migrate_dataset http py_str self fuel id check mode).
Proof.
  unfold migrate_dataset, create_dataset, requests_get, requests_post.
  repeat safe_step;
    first [ apply safe_existing_dataset
          | apply safe_examples
          | apply safe_experiments ].
Qed.

Lemma safe_queue fuel id check mode :
  emits (source_safe self)
    (migrate_annotation_queue http py_str self fuel id check mode).
Proof.
  unfold migrate_annotation_queue, existing_annotation_queue,
    create_annotation_queue, queue_default_dataset, requests_get,
    requests_post.
  repeat safe_step; apply safe_dataset.
Qed.

(** X1.  Whatever the two instances answer, every call of the five
    operations is a [GET], the query of the runs, or a request made with
    the credentials of the destination: nothing is written to the source. *)
Theorem source_only_read fuel :
  (forall id check mode,
      emits (source_safe self)
        (migrate_dataset http py_str self fuel id check mode))
  /\ (forall ds nid,
        emits (source_safe self)
          (migrate_dataset_examples http self fuel ds nid))
  /\ (forall ds nid ex_ids,
        emits (source_safe self)
          (migrate_dataset_experiments http py_str self fuel ds nid ex_ids))
  /\ (forall id check mode,
        emits (source_safe self)
          (migrate_annotation_queue http py_str self fuel id check mode))
  /\ (forall old_project_id new_project_id,
        emits (source_safe self)
          (migrate_project_rules http py_str self fuel old_project_id
             new_project_id)).
Proof.
  split; [intros; apply safe_dataset|].
  split; [intros; apply safe_examples|].
  split; [intros; apply safe_experiments|].
  split; [intros; apply safe_queue|].
  intros old_project_id new_project_id.
  unfold migrate_project_rules, requests_get. repeat safe_step.
  apply emits_for_each. intros old_rule [].
  unfold migrate_rule, requests_post.
  repeat safe_step; first [apply safe_dataset | apply safe_queue].
Qed.

(** The creation of the dataset: one [POST], then what the mode asks. *)
Lemma create_dataset_posted fuel id mode ds payload (s : State W) :
  create_dataset_payload ds = Ok payload ->
  create_dataset http py_str self fuel id mode ds s
  = match (http (dataset_create self payload) (world s)).1 with
    | Some response =>
        match (body <~ response_json response; Py.getitem body "id")%py with
        | Ok new_dataset_id =>
            bind (if String.eqb mode "EXAMPLES" then
                    bind (migrate_dataset_examples http self fuel id
                            new_dataset_id)
                      (fun _ => ret tt)
                  else if String.eqb mode "EXAMPLES_AND_EXPERIMENTS" then
                    bind (migrate_dataset_examples http self fuel id
                            new_dataset_id)
                      (fun original_to_new_example_ids =>
                         migrate_dataset_experiments http py_str self fuel id
                           new_dataset_id original_to_new_example_ids)
                  else ret tt)
              (fun _ => ret new_dataset_id)
              (after http s (dataset_create self payload))
        | Raise e => (Raise e, after http s (dataset_create self payload))
        | OutOfFuel => (OutOfFuel, after http s (dataset_create self payload))
        end
    | None => (Raise RequestException,
               after http s (dataset_create self payload))
    end.
Proof.
  intros Hpayload. unfold create_dataset. rewrite bind_lift, Hpayload.
  unfold requests_post. fold (dataset_create self payload).
  unfold bind at 1. rewrite send_after.
  destruct ((http (dataset_create self payload) (world s)).1)
    as [[body|]|]; cbn [response_json obind]; reflexivity.
Qed.

(** X2.  When no existing dataset is found (or none is looked for), a
    [migration_mode] other than ["EXAMPLES"] and
    ["EXAMPLES_AND_EXPERIMENTS"], be it ["DATASET_ONLY"] or any other string,
    creates the dataset and stops there: one [POST], whose answer gives the
    identifier returned (or the exception raised). *)
Theorem other_modes_only_create
    fuel id check mode (s s2 : State W) ds payload w1 :
  http (dataset_request py_str self id) (world s) = (Some (Json ds), w1) ->
  existing_dataset http py_str self check ds
    (mkState w1 (calls s ++ [(dataset_request py_str self id,
                              Some (Json ds))]))
  = (Ok None, s2) ->
  create_dataset_payload ds = Ok payload ->
  mode <> "EXAMPLES" -> mode <> "EXAMPLES_AND_EXPERIMENTS" ->
  migrate_dataset http py_str self fuel id check mode s
  = (created_id (http (dataset_create self payload) (world s2)).1,
     after http s2 (dataset_create self payload)).
Proof.
  intros Hget Hcheck Hpayload Hm1 Hm2.
  rewrite (migrate_dataset_fetched _ _ _ _ _ _ _ _ _ _ Hget).
  rewrite (bind_ok _ _ _ _ _ Hcheck). cbv beta iota.
  rewrite (create_dataset_posted _ _ _ _ _ _ Hpayload).
  apply String.eqb_neq in Hm1, Hm2. rewrite Hm1, Hm2.
  destruct ((http (dataset_create self payload) (world s2)).1)
    as [[body|]|]; cbn [created_id response_json obind]; try reflexivity.
  destruct (Py.getitem body "id"); reflexivity.
Qed.

(** X3.  When the source answers the fetch of the dataset with an object
    that has no ["name"], an error body for instance, [migrate_dataset]
    raises [KeyError] after that one call, with the existence check or
    without it: nothing is asked of the destination. *)
Theorem missing_source_dataset fuel id check mode (s : State W) body w1 :
  http (dataset_request py_str self id) (world s)
  = (Some (Json (VDict body)), w1) ->
  Py.lookup_key "name" body = None ->
  migrate_dataset http py_str self fuel id check mode s
  = (Raise KeyError,
     mkState w1 (calls s ++ [(dataset_request py_str self id,
                              Some (Json (VDict body)))])).
Proof.
  intros Hget Hname.
  rewrite (migrate_dataset_fetched _ _ _ _ _ _ _ _ _ _ Hget).
  unfold existing_dataset. destruct check.
  - unfold bind at 1. rewrite bind_lift. cbn [Py.getitem]. rewrite Hname.
    reflexivity.
  - unfold bind at 1, ret. unfold create_dataset. rewrite bind_lift.
    unfold create_dataset_payload, Py.dict. cbn [Py.display Py.getitem].
    rewrite Hname. reflexivity.
Qed.

(** X4.  The payload that creates the dataset has eight entries: the name,
    description, creation date, two schema definitions, externally-managed
    flag and data type of the source dataset, unchanged, and its
    transformations, replaced by an empty list when they are falsy (null,
    an empty list).  It carries no identifier. *)
Theorem dataset_payload_copies ds payload :
  create_dataset_payload ds = Ok payload ->
  exists name description created_at inputs_schema outputs_schema
         externally_managed transformations data_type,
    Py.getitem ds "name" = Ok name
    /\ Py.getitem ds "description" = Ok description
    /\ Py.getitem ds "created_at" = Ok created_at
    /\ Py.getitem ds "inputs_schema_definition" = Ok inputs_schema
    /\ Py.getitem ds "outputs_schema_definition" = Ok outputs_schema
    /\ Py.getitem ds "externally_managed" = Ok externally_managed
    /\ Py.getitem ds "transformations" = Ok transformations
    /\ Py.getitem ds "data_type" = Ok data_type
    /\ payload
       = VDict [("name", name); ("description", description);
                ("created_at", created_at);
                ("inputs_schema_definition", inputs_schema);
                ("outputs_schema_definition", outputs_schema);
                ("externally_managed", externally_managed);
                ("transformations",
                  if Py.truthy transformations then transformations
                  else VList []);
                ("data_type", data_type)].
Proof.
  unfold create_dataset_payload, Py.dict. cbn [Py.display].
  destruct (Py.getitem ds "name") as [name|e|]; cbn [obind];
    try discriminate.
  destruct (Py.getitem ds "description") as [description|e|]; cbn [obind];
    try discriminate.
  destruct (Py.getitem ds "created_at") as [created_at|e|]; cbn [obind];
    try discriminate.
  destruct (Py.getitem ds "inputs_schema_definition") as [i|e|]; cbn [obind];
    try discriminate.
  destruct (Py.getitem ds "outputs_schema_definition") as [o|e|];
    cbn [obind]; try discriminate.
  destruct (Py.getitem ds "externally_managed") as [m|e|]; cbn [obind];
    try discriminate.
  destruct (Py.getitem ds "transformations") as [t|e|]; cbn [obind];
    try discriminate.
  destruct (Py.getitem ds "data_type") as [d|e|]; cbn [obind];
    try (destruct (Py.truthy t); discriminate).
  intros Hp. exists name, description, created_at, i, o, m, t, d.
  repeat split.
  destruct (Py.truthy t); cbn [obind] in Hp; injection Hp as <-; reflexivity.
Qed.

(** X5.  In mode ["EXAMPLES"], when the migration of the examples raises,
    [migrate_dataset] raises the same exception, and the dataset it has
    created stays: the log holds the [POST] that created it, followed only
    by calls that create no dataset. *)
Theorem examples_failure_leaves_dataset
    fuel id check (s s2 s4 : State W) ds payload body nid w1 w3 e :
  http (dataset_request py_str self id) (world s) = (Some (Json ds), w1) ->
  existing_dataset http py_str self check ds
    (mkState w1 (calls s ++ [(dataset_request py_str self id,
                              Some (Json ds))]))
  = (Ok None, s2) ->
  create_dataset_payload ds = Ok payload ->
  http (dataset_create self payload) (world s2) = (Some (Json body), w3) ->
  Py.getitem body "id" = Ok nid ->
  migrate_dataset_examples http self fuel id nid
    (mkState w3 (calls s2 ++ [(dataset_create self payload,
                               Some (Json body))]))
  = (Raise e, s4) ->
  migrate_dataset http py_str self fuel id check "EXAMPLES" s = (Raise e, s4)
  /\ exists later,
       calls s4
       = calls s2 ++ (dataset_create self payload, Some (Json body)) :: later
       /\ Forall (fun c => is_dataset_create self c = false) later.
Proof.
  intros Hget Hcheck Hpayload Hcreate Hid Hexamples. split.
  - rewrite (migrate_dataset_fetched _ _ _ _ _ _ _ _ _ _ Hget).
    rewrite (bind_ok _ _ _ _ _ Hcheck). cbv beta iota.
    rewrite (create_dataset_posted _ _ _ _ _ _ Hpayload).
    unfold after. rewrite Hcreate. cbn [fst snd response_json obind].
    rewrite Hid. cbn [String.eqb Ascii.eqb Bool.eqb].
    unfold bind at 1. unfold bind at 1. rewrite Hexamples. reflexivity.
  - destruct (migrate_dataset_examples_no_create http self fuel id nid
                (mkState w3 (calls s2 ++ [(dataset_create self payload,
                                           Some (Json body))])))
      as (later & Hlater & Hno).
    rewrite Hexamples in Hlater. cbn [snd calls] in Hlater.
    exists later. rewrite Hlater, <- app_assoc. split; [reflexivity|exact Hno].
Qed.

(** X6.  When the answer to the creation of the dataset has no ["id"] to
    read, [migrate_dataset] raises what the subscript raises, in every mode,
    and the creation is its last call: no example is fetched. *)
Theorem create_without_id
    fuel id check mode (s s2 : State W) ds payload body w1 w3 e :
  http (dataset_request py_str self id) (world s) = (Some (Json ds), w1) ->
  existing_dataset http py_str self check ds
    (mkState w1 (calls s ++ [(dataset_request py_str self id,
                              Some (Json ds))]))
  = (Ok None, s2) ->
  create_dataset_payload ds = Ok payload ->
  http (dataset_create self payload) (world s2) = (Some (Json body), w3) ->
  Py.getitem body "id" = Raise e ->
  migrate_dataset http py_str self fuel id check mode s
  = (Raise e,
     mkState w3 (calls s2 ++ [(dataset_create self payload,
                               Some (Json body))])).
Proof.
  intros Hget Hcheck Hpayload Hcreate Hid.
  rewrite (migrate_dataset_fetched _ _ _ _ _ _ _ _ _ _ Hget).
  rewrite (bind_ok _ _ _ _ _ Hcheck). cbv beta iota.
  rewrite (create_dataset_posted _ _ _ _ _ _ Hpayload).
  unfold after. rewrite Hcreate. cbn [fst snd response_json obind].
  rewrite Hid. reflexivity.
Qed.

(** *** More on [migrate_dataset_examples] *)

(** Once the examples are fetched and their payloads built, the function
    posts the batch and builds the table from the answer. *)
Lemma migrate_dataset_examples_answered
    ds nid exs payload q r fuel (s : State W) new_examples w' :
  serves_examples http self ds exs ->
  length exs = 100 * q + r -> r < 100 -> q < fuel ->
  omap (example_payload nid) exs = Ok payload ->
  http (bulk_request self payload) (world s)
  = (Some (Json new_examples), w') ->
  migrate_dataset_examples http self fuel ds nid s
  = ((n <~ Py.len new_examples;
      id_mapping exs new_examples (seq 0 n) [])%py,
     mkState w'
       (calls s ++ map (page_call self ds exs) (seq 0 (q + 1))
          ++ [(bulk_request self payload, Some (Json new_examples))])).
Proof.
  intros Hsrc Hsize Hr Hfuel Hpayload Hbulk.
  unfold migrate_dataset_examples.
  rewrite (bind_ok _ _ _ _ _
             (fetch_examples_all http self ds exs q r Hsize Hr Hsrc fuel s
                Hfuel)).
  rewrite bind_lift, Hpayload. unfold requests_post.
  erewrite bind_ok by (apply send_answer; exact Hbulk).
  rewrite bind_lift. cbn [response_json]. rewrite bind_lift.
  cbn [calls]. rewrite <- app_assoc.
  destruct (Py.len new_examples); reflexivity.
Qed.

Lemma id_mapping_prefix exs created old_ids new_ids :
  has_ids exs old_ids -> has_ids created new_ids ->
  length created <= length exs -> NoDup old_ids ->
  forall n k, k + n = length created ->
    id_mapping exs (VList created) (seq k n)
      (id_table (take k old_ids) (take k new_ids))
    = Ok (id_table old_ids new_ids).
Proof.
  intros Hold Hnew Hlen Hdup.
  pose proof (Forall2_length _ _ _ Hold) as Hlo.
  pose proof (Forall2_length _ _ _ Hnew) as Hln.
  induction n as [|n IH]; intros k Hk; cbn [seq id_mapping].
  - f_equal. unfold id_table.
    rewrite (take_ge new_ids) by lia.
    rewrite <- (take_drop k old_ids) at 2. rewrite map_app.
    rewrite zip_with_app_l. rewrite length_map, length_take.
    rewrite (take_ge (map VStr new_ids))
      by (rewrite length_map; lia).
    rewrite (drop_ge (map VStr new_ids))
      by (rewrite length_map; lia).
    rewrite zip_with_nil_r, app_nil_r. reflexivity.
  - destruct (lookup_lt_is_Some_2 exs k) as [e He]; [lia|].
    destruct (lookup_lt_is_Some_2 created k) as [c Hc]; [lia|].
    destruct (Forall2_lookup_l _ _ _ _ _ Hold He) as (o & Ho & Hoid).
    destruct (Forall2_lookup_l _ _ _ _ _ Hnew Hc) as (m & Hm & Hmid).
    unfold list_getitem. rewrite He. cbn [obind]. rewrite Hoid. cbn [obind].
    cbn [Py.getitem_int]. rewrite Hc. cbn [obind]. rewrite Hmid. cbn [obind].
    unfold Py.table_setitem. cbn [Py.hashable obind].
    rewrite table_put_fresh.
    + rewrite <- id_table_snoc by (rewrite !length_take; lia).
      rewrite <- (take_S_r _ _ _ Ho), <- (take_S_r _ _ _ Hm).
      apply IH. lia.
    + apply id_table_fresh. intros Hin.
      apply list_elem_of_lookup in Hin as [j Hj].
      apply lookup_take_Some in Hj as [Hj Hjk].
      pose proof (NoDup_lookup _ _ _ _ Hdup Hj Ho). lia.
Qed.

Lemma id_mapping_overrun exs created old_ids new_ids :
  has_ids exs old_ids -> has_ids created new_ids ->
  forall n k acc, k <= length exs -> length exs < k + n ->
    k + n <= length created ->
    id_mapping exs (VList created) (seq k n) acc = Raise IndexError.
Proof.
  intros Hold Hnew.
  induction n as [|n IH]; intros k acc Hk Hover Hcreated; [lia|].
  cbn [seq id_mapping]. unfold list_getitem.
  destruct (decide (k = length exs)) as [->|Hne].
  - rewrite lookup_ge_None_2 by lia. reflexivity.
  - destruct (lookup_lt_is_Some_2 exs k) as [e He]; [lia|].
    destruct (lookup_lt_is_Some_2 created k) as [c Hc]; [lia|].
    destruct (Forall2_lookup_l _ _ _ _ _ Hold He) as (o & Ho & Hoid).
    destruct (Forall2_lookup_l _ _ _ _ _ Hnew Hc) as (m & Hm & Hmid).
    rewrite He. cbn [obind]. rewrite Hoid. cbn [obind].
    cbn [Py.getitem_int]. rewrite Hc. cbn [obind]. rewrite Hmid. cbn [obind].
    unfold Py.table_setitem. cbn [Py.hashable obind].
    apply IH; lia.
Qed.

(** X7.  When the bulk create answers with fewer records than were
    submitted, [migrate_dataset_examples] returns, with no error, a table
    of as many entries as the answer has, pairing them with the first
    source examples; when it answers with more, the function raises
    [IndexError]. *)
Theorem bulk_answer_length
    ds nid exs payload created old_ids new_ids q r fuel (s : State W) w' :
  serves_examples http self ds exs ->
  length exs = 100 * q + r -> r < 100 -> q < fuel ->
  omap (example_payload nid) exs = Ok payload ->
  has_ids exs old_ids -> NoDup old_ids ->
  http (bulk_request self payload) (world s)
  = (Some (Json (VList created)), w') ->
  has_ids created new_ids ->
  (length created <= length exs ->
   (migrate_dataset_examples http self fuel ds nid s).1
   = Ok (id_table old_ids new_ids)
   /\ length (id_table old_ids new_ids) = length created)
  /\ (length exs < length created ->
      (migrate_dataset_examples http self fuel ds nid s).1
      = Raise IndexError).
Proof.
  intros Hsrc Hsize Hr Hfuel Hpayload Hold Hdup Hbulk Hnew.
  rewrite (migrate_dataset_examples_answered _ _ _ _ _ _ _ _ _ _
             Hsrc Hsize Hr Hfuel Hpayload Hbulk).
  cbn [fst Py.len obind].
  pose proof (Forall2_length _ _ _ Hold) as Hlo.
  pose proof (Forall2_length _ _ _ Hnew) as Hln.
  split.
  - intros Hshort. split.
    + apply (id_mapping_prefix exs created old_ids new_ids Hold Hnew Hshort
               Hdup (length created) 0). lia.
    + unfold id_table. rewrite length_zip_with, !length_map. lia.
  - intros Hlong.
    apply (id_mapping_overrun exs created old_ids new_ids Hold Hnew); lia.
Qed.

(** X8.  When the bulk create answers with an object instead of a list:
    an empty object gives an empty table and no error; any other object
    makes the function raise [KeyError] as soon as the source has an
    example. *)
Theorem bulk_error_body
    ds nid exs payload d q r fuel (s : State W) w' :
  serves_examples http self ds exs ->
  length exs = 100 * q + r -> r < 100 -> q < fuel ->
  omap (example_payload nid) exs = Ok payload ->
  http (bulk_request self payload) (world s) = (Some (Json (VDict d)), w') ->
  (d = [] -> (migrate_dataset_examples http self fuel ds nid s).1 = Ok [])
  /\ (forall first old,
        d <> [] -> exs !! 0 = Some first -> Py.getitem first "id" = Ok old ->
        (migrate_dataset_examples http self fuel ds nid s).1 = Raise KeyError).
Proof.
  intros Hsrc Hsize Hr Hfuel Hpayload Hbulk.
  rewrite (migrate_dataset_examples_answered _ _ _ _ _ _ _ _ _ _
             Hsrc Hsize Hr Hfuel Hpayload Hbulk).
  cbn [fst Py.len obind]. split.
  - intros ->. reflexivity.
  - intros first old Hd Hfirst Hid. destruct d as [|kv d]; [congruence|].
    cbn [length seq id_mapping]. unfold list_getitem. rewrite Hfirst.
    cbn [obind]. rewrite Hid. reflexivity.
Qed.

(** *** Repeated identifiers *)

Lemma table_find_put_str a b v (t : Py.table) :
  Py.table_find (VStr a) (Py.table_put (VStr b) v t)
  = if String.eqb b a then Some v else Py.table_find (VStr a) t.
Proof.
  induction t as [|[k' v'] t IH]; cbn [Py.table_put Py.table_find].
  - cbn. destruct (String.eqb b a); reflexivity.
  - destruct (Py.eq k' (VStr b)) eqn:Hb.
    + apply eq_str_inv in Hb. subst k'. cbn.
      destruct (String.eqb b a); reflexivity.
    + cbn [Py.table_find]. rewrite IH.
      destruct (Py.eq k' (VStr a)) eqn:Ha; [|reflexivity].
      apply eq_str_inv in Ha. subst k'. cbn in Hb.
      rewrite String.eqb_sym, Hb. reflexivity.
Qed.

Lemma table_put_keys b v (t : Py.table) :
  NoDup t.*1 -> NoDup (Py.table_put (VStr b) v t).*1.
Proof.
  induction t as [|[k' v'] t IH]; cbn [Py.table_put]; intros Hnd.
  - cbn. apply NoDup_singleton.
  - destruct (Py.eq k' (VStr b)) eqn:Hb; [exact Hnd|].
    cbn [fmap list_fmap fst] in *. apply NoDup_cons in Hnd as [Hk' Hnd].
    apply NoDup_cons. split; [|apply IH, Hnd].
    intros Hin. apply Hk'. clear IH Hnd Hk'.
    induction t as [|[k'' v''] t IHt]; cbn [Py.table_put] in Hin.
    + cbn in Hin. apply list_elem_of_singleton in Hin. subst k'.
      cbn in Hb. rewrite String.eqb_refl in Hb. discriminate.
    + destruct (Py.eq k'' (VStr b)); [exact Hin|].
      cbn [fmap list_fmap fst] in *.
      apply elem_of_cons in Hin as [->|Hin]; [left|right; apply IHt, Hin].
Qed.

Lemma latest_snoc o pairs a b :
  latest o (pairs ++ [(a, b)])
  = if String.eqb a o then Some b else latest o pairs.
Proof.
  induction pairs as [|[a' b'] pairs IH]; cbn [latest app].
  - reflexivity.
  - rewrite IH. destruct (String.eqb a o); [reflexivity|].
    destruct (latest o pairs); reflexivity.
Qed.

Lemma id_mapping_latest exs created old_ids new_ids :
  has_ids exs old_ids -> has_ids created new_ids ->
  length created = length exs ->
  forall n k acc, k + n = length exs ->
    NoDup acc.*1 ->
    (forall o, Py.table_find (VStr o) acc
               = VStr <$> latest o (zip (take k old_ids) (take k new_ids))) ->
    exists t,
      id_mapping exs (VList created) (seq k n) acc = Ok t
      /\ NoDup t.*1
      /\ forall o, Py.table_find (VStr o) t
                   = VStr <$> latest o (zip old_ids new_ids).
Proof.
  intros Hold Hnew Hlen.
  pose proof (Forall2_length _ _ _ Hold) as Hlo.
  pose proof (Forall2_length _ _ _ Hnew) as Hln.
  induction n as [|n IH]; intros k acc Hk Hnd Hfind; cbn [seq id_mapping].
  - exists acc. rewrite !take_ge in Hfind by lia. auto.
  - destruct (lookup_lt_is_Some_2 exs k) as [e He]; [lia|].
    destruct (lookup_lt_is_Some_2 created k) as [c Hc]; [lia|].
    destruct (Forall2_lookup_l _ _ _ _ _ Hold He) as (o & Ho & Hoid).
    destruct (Forall2_lookup_l _ _ _ _ _ Hnew Hc) as (m & Hm & Hmid).
    unfold list_getitem. rewrite He. cbn [obind]. rewrite Hoid. cbn [obind].
    cbn [Py.getitem_int]. rewrite Hc. cbn [obind]. rewrite Hmid. cbn [obind].
    unfold Py.table_setitem. cbn [Py.hashable obind].
    apply IH; [lia|apply table_put_keys, Hnd|].
    intros o'. rewrite table_find_put_str, Hfind.
    rewrite (take_S_r _ _ _ Ho), (take_S_r _ _ _ Hm).
    rewrite zip_with_app by (rewrite !length_take; lia).
    cbn [zip_with]. rewrite latest_snoc.
    destruct (String.eqb o o'); reflexivity.
Qed.

(** X9.  When source examples share an identifier, the table returned has
    one entry for it, holding the new identifier of the last of them: the
    keys of the table are distinct, and looking an old identifier up gives
    the new identifier of its last occurrence. *)
Theorem repeated_ids_last_wins
    ds nid exs payload created old_ids new_ids q r fuel (s : State W) w' :
  serves_examples http self ds exs ->
  length exs = 100 * q + r -> r < 100 -> q < fuel ->
  omap (example_payload nid) exs = Ok payload ->
  has_ids exs old_ids ->
  http (bulk_request self payload) (world s)
  = (Some (Json (VList created)), w') ->
  length created = length exs ->
  has_ids created new_ids ->
  exists mapping : Py.table,
    (migrate_dataset_examples http self fuel ds nid s).1 = Ok mapping
    /\ NoDup mapping.*1
    /\ forall o, Py.table_find (VStr o) mapping
                 = VStr <$> latest o (zip old_ids new_ids).
Proof.
  intros Hsrc Hsize Hr Hfuel Hpayload Hold Hbulk Hlen Hnew.
  rewrite (migrate_dataset_examples_answered _ _ _ _ _ _ _ _ _ _
             Hsrc Hsize Hr Hfuel Hpayload Hbulk).
  cbn [fst Py.len obind]. rewrite Hlen.
  apply (id_mapping_latest exs created old_ids new_ids Hold Hnew Hlen
           (length exs) 0 []).
  - lia.
  - constructor.
  - intros o. reflexivity.
Qed.

(** *** More on the page loop *)

(** X10.  The request names no page size.  Against a source whose pages
    hold [p] examples, with [p] other than 100, the loop stops after the
    first page: only the first [p] examples are returned, whatever their
    number. *)
Theorem short_pages_truncate ds exs p fuel (s : State W) :
  (forall (w : W) (offset : nat),
      http (examples_request self ds offset) w
      = (Some (Json (VList (take p (drop offset exs)))), w)) ->
  p <> 100 -> p <= length exs ->
  fetch_examples http self (S fuel) ds 0 100 [] s
  = (Ok (take p exs),
     mkState (world s)
       (calls s ++ [(examples_request self ds 0,
                     Some (Json (VList (take p exs))))])).
Proof.
  intros Hsrc Hp Hlen. cbn [fetch_examples].
  change (Nat.eqb 100 100) with true. cbv iota.
  unfold requests_get.
  rewrite (bind_ok _ _ _ _ _ (send_answer _ _ _ _ _ (Hsrc (world s) 0))).
  rewrite bind_lift. cbn [response_json].
  rewrite bind_lift. cbn [Py.len].
  rewrite bind_lift. unfold Py.iadd. cbn [Py.iter obind app drop].
  apply fetch_examples_stop. rewrite length_take, length_drop. lia.
Qed.

(** X11.  Against a source that answers every page request with exactly
    100 examples, the loop never ends: whatever the fuel, it is exhausted
    after as many requests, and [migrate_dataset_examples] submits
    nothing. *)
Theorem full_pages_never_end ds :
  (forall (w : W) (offset : nat), exists page w',
      http (examples_request self ds offset) w = (Some (Json (VList page)), w')
      /\ length page = 100) ->
  forall fuel acc (s : State W),
    (fetch_examples http self fuel ds (length acc) 100 acc s).1 = OutOfFuel
    /\ length (new_calls s
                 (fetch_examples http self fuel ds (length acc) 100 acc s).2)
       = fuel
    /\ forall nid,
         (migrate_dataset_examples http self fuel ds nid s).1 = OutOfFuel.
Proof.
  intros Hsrc.
  assert (Hloop : forall fuel acc (s : State W),
    (fetch_examples http self fuel ds (length acc) 100 acc s).1 = OutOfFuel
    /\ exists cs,
         calls (fetch_examples http self fuel ds (length acc) 100 acc s).2
         = calls s ++ cs /\ length cs = fuel).
  { induction fuel as [|fuel IH]; intros acc s; cbn [fetch_examples];
      change (Nat.eqb 100 100) with true; cbv iota.
    - split; [reflexivity|]. exists []. rewrite app_nil_r. done.
    - destruct (Hsrc (world s) (length acc)) as (page & w' & Hpage & Hlen).
      unfold requests_get.
      rewrite (bind_ok _ _ _ _ _ (send_answer _ _ _ _ _ Hpage)).
      rewrite bind_lift. cbn [response_json].
      rewrite bind_lift. cbn [Py.len].
      rewrite bind_lift. unfold Py.iadd. cbn [Py.iter obind]. rewrite Hlen.
      destruct (IH (acc ++ page)
                  (mkState w' (calls s ++ [(examples_request self ds
                                              (length acc),
                                            Some (Json (VList page)))])))
        as (Hout & cs & Hcs & Hn).
      split; [exact Hout|].
      eexists. rewrite Hcs. cbn [calls]. rewrite <- app_assoc.
      split; [reflexivity|]. cbn. lia. }
  intros fuel acc s. destruct (Hloop fuel acc s) as (Hout & cs & Hcs & Hn).
  split; [exact Hout|]. split.
  - unfold new_calls. rewrite Hcs, drop_app_length. exact Hn.
  - intros nid. unfold migrate_dataset_examples, bind.
    destruct (Hloop fuel [] s) as (Hout' & _). cbn [length] in Hout'.
    destruct (fetch_examples http self fuel ds 0 100 [] s) as [o s1].
    cbn [fst] in Hout'. subst o. reflexivity.
Qed.

(** X12.  When the source answers the first page request with an object
    that is not empty (an error body), its keys are taken for examples
    and [migrate_dataset_examples] raises [TypeError] after that one call:
    nothing is submitted. *)
Theorem examples_error_body ds nid d fuel (s : State W) w' :
  http (examples_request self ds 0) (world s) = (Some (Json (VDict d)), w') ->
  d <> [] -> length d <> 100 ->
  migrate_dataset_examples http self (S fuel) ds nid s
  = (Raise TypeError,
     mkState w' (calls s ++ [(examples_request self ds 0,
                              Some (Json (VDict d)))])).
Proof.
  intros Hget Hd Hlen. unfold migrate_dataset_examples.
  assert (Hfetch :
    fetch_examples http self (S fuel) ds 0 100 [] s
    = (Ok (map (fun kv => VStr kv.1) d),
       mkState w' (calls s ++ [(examples_request self ds 0,
                                Some (Json (VDict d)))]))).
  { cbn [fetch_examples]. change (Nat.eqb 100 100) with true. cbv iota.
    unfold requests_get.
    rewrite (bind_ok _ _ _ _ _ (send_answer _ _ _ _ _ Hget)).
    rewrite bind_lift. cbn [response_json].
    rewrite bind_lift. cbn [Py.len].
    rewrite bind_lift. unfold Py.iadd. cbn [Py.iter obind app].
    apply fetch_examples_stop. exact Hlen. }
  rewrite (bind_ok _ _ _ _ _ Hfetch). rewrite bind_lift.
  destruct d as [|[k v] d]; [congruence|]. reflexivity.
Qed.

(** *** More on [migrate_dataset_experiments] *)

Lemma fetch_experiments_stop fuel ds offset last acc (s : State W) :
  last <> 100 ->
  fetch_experiments http py_str self fuel ds offset last acc s = (Ok acc, s).
Proof.
  intros Hlast. apply Nat.eqb_neq in Hlast.
  destruct fuel; simpl; rewrite Hlast; reflexivity.
Qed.

(** X13.  Against a source that serves the experiments of a dataset by
    offset, a hundred to a page, the loop of [migrate_dataset_experiments]
    asks for the pages at offsets 0, 100, ..., 100 * q, the offset written
    in the URL, and returns every experiment, in order. *)
Theorem experiments_paged ds exps q r fuel (s : State W) :
  serves_experiments http py_str self ds exps ->
  length exps = 100 * q + r -> r < 100 -> q < fuel ->
  fetch_experiments http py_str self fuel ds 0 100 [] s
  = (Ok exps,
     mkState (world s)
       (calls s
          ++ map (fun k =>
                    (experiments_request py_str self ds (100 * k),
                     Some (Json (VList (take 100 (drop (100 * k) exps))))))
               (seq 0 (q + 1)))).
Proof.
  intros Hsrc Hsize Hr Hfuel.
  assert (Hloop : forall fuel k (s : State W),
    k <= q -> q - k < fuel ->
    fetch_experiments http py_str self fuel ds (100 * k) 100
      (take (100 * k) exps) s
    = (Ok exps,
       mkState (world s)
         (calls s
            ++ map (fun k =>
                      (experiments_request py_str self ds (100 * k),
                       Some (Json (VList (take 100 (drop (100 * k) exps))))))
                 (seq k (q + 1 - k))))).
  { clear fuel s Hfuel.
    induction fuel as [|fuel IH]; intros k s Hk Hfuel; [lia|].
    cbn [fetch_experiments]. change (Nat.eqb 100 100) with true. cbv iota.
    unfold requests_get.
    rewrite (bind_ok _ _ _ _ _
               (send_answer _ _ _ _ _ (Hsrc (world s) (100 * k)))).
    rewrite bind_lift. cbn [response_json].
    rewrite bind_lift. cbn [Py.len].
    rewrite bind_lift. unfold Py.iadd. cbn [Py.iter obind].
    rewrite take_take_drop.
    replace (q + 1 - k) with (S (q - k)) by lia. cbn [seq map].
    destruct (decide (k = q)) as [->|Hne].
    - rewrite fetch_experiments_stop
        by (rewrite length_take, length_drop; lia).
      f_equal.
      + f_equal. rewrite take_ge; [done|lia].
      + cbn [world calls]. replace (q - q) with 0 by lia. reflexivity.
    - replace (length (take 100 (drop (100 * k) exps))) with 100
        by (rewrite length_take, length_drop; lia).
      rewrite length_take.
      replace ((100 * k + 100) `min` length exps) with (100 * S k) by lia.
      replace (100 * k + 100) with (100 * S k) by lia.
      rewrite IH by lia. cbn [world calls].
      rewrite <- app_assoc.
      replace (q + 1 - S k) with (q - k) by lia. reflexivity. }
  pose proof (Hloop fuel 0 s) as H.
  rewrite Nat.mul_0_r, !Nat.sub_0_r in H.
  replace (q + 1 - 0) with (q + 1) in H by lia. apply H; lia.
Qed.

(** X14.  The experiment created on the destination refers to the new
    dataset, while its ["default_dataset_id"] is the one of the source
    experiment, not re-mapped; name, description, times and extra are
    those of the source, and ["trace_tier"] is the source's, or null when
    it has none. *)
Theorem experiment_payload_fields nid experiment ids ids' (s s' : State W) :
  create_experiment http self nid experiment ids s = (Ok ids', s') ->
  exists payload body,
    last (calls s') = Some (experiment_create self payload, Some (Json body))
    /\ Py.getitem payload "reference_dataset_id" = Ok nid
    /\ Py.getitem payload "default_dataset_id"
       = Py.getitem experiment "default_dataset_id"
    /\ Py.getitem payload "name" = Py.getitem experiment "name"
    /\ Py.getitem payload "description" = Py.getitem experiment "description"
    /\ Py.getitem payload "start_time" = Py.getitem experiment "start_time"
    /\ Py.getitem payload "end_time" = Py.getitem experiment "end_time"
    /\ Py.getitem payload "extra" = Py.getitem experiment "extra"
    /\ Py.getitem payload "trace_tier" = Py.get experiment "trace_tier" VNone.
Proof.
  unfold create_experiment. rewrite bind_lift.
  match goal with
  | |- context [Py.dict ?entries] =>
      destruct (Py.dict entries) as [payload|e|] eqn:Hpayload
  end; try discriminate.
  unfold requests_post. fold (experiment_create self payload).
  unfold bind at 1. rewrite send_after.
  destruct ((http (experiment_create self payload) (world s)).1)
    as [[body|]|] eqn:Hreply; try discriminate.
  rewrite bind_lift. cbn [response_json]. rewrite bind_lift.
  destruct (Py.getitem body "id") as [new|e|]; try discriminate.
  rewrite bind_lift.
  destruct (Py.getitem experiment "id") as [old|e|]; try discriminate.
  unfold Py.table_setitem, lift.
  destruct (Py.hashable old); try discriminate.
  intros [= <- <-]. exists payload, body.
  split; [unfold after; cbn [calls]; rewrite last_snoc, Hreply; reflexivity|].
  revert Hpayload. unfold Py.dict. cbn [Py.display].
  destruct (Py.getitem experiment "name"); cbn [obind]; try discriminate.
  destruct (Py.getitem experiment "description"); cbn [obind];
    try discriminate.
  destruct (Py.getitem experiment "default_dataset_id"); cbn [obind];
    try discriminate.
  destruct (Py.getitem experiment "start_time"); cbn [obind];
    try discriminate.
  destruct (Py.getitem experiment "end_time"); cbn [obind]; try discriminate.
  destruct (Py.getitem experiment "extra"); cbn [obind]; try discriminate.
  destruct (Py.get experiment "trace_tier" VNone); cbn [obind];
    try discriminate.
  intros [= <-]. repeat split.
Qed.

(** The loop that creates the experiments: one call each, in order, and
    a table that holds, for every experiment, what its call answered. *)
Lemma create_experiments_table nid :
  forall experiments old_ids ids0 ids (s s' : State W),
    has_ids experiments old_ids -> NoDup old_ids ->
    for_each (create_experiment http self nid) experiments ids0 s
    = (Ok ids, s') ->
    exists cs,
      calls s' = calls s ++ cs
      /\ Forall2 (fun o c =>
                    exists payload body new,
                      c = (experiment_create self payload, Some (Json body))
                      /\ Py.getitem payload "reference_dataset_id" = Ok nid
                      /\ Py.getitem body "id" = Ok new
                      /\ Py.table_find (VStr o) ids = Some new)
           old_ids cs
      /\ forall o, o ∉ old_ids ->
           Py.table_find (VStr o) ids = Py.table_find (VStr o) ids0.
Proof.
  induction experiments as [|e experiments IH];
    intros old_ids ids0 ids s s' Hids Hdup Hrun.
  - apply Forall2_nil_inv_l in Hids. subst old_ids.
    cbn in Hrun. injection Hrun as <- <-.
    exists []. rewrite app_nil_r. repeat split; constructor.
  - apply Forall2_cons_inv_l in Hids as (o & rest & Ho & Hrest & ->).
    apply NoDup_cons in Hdup as [Hfresh Hdup].
    cbn [for_each] in Hrun. unfold bind in Hrun.
    destruct (create_experiment http self nid e ids0 s) as [[ids1|x|] s1]
      eqn:Hone; try discriminate.
    destruct (create_experiment_entry _ _ _ _ _ _ _ _ Hone)
      as (old & payload & body & new & Hold & Hcalls & Href & Hnew & ->).
    rewrite Ho in Hold. injection Hold as <-.
    destruct (IH rest _ ids s1 s' Hrest Hdup Hrun) as (cs & Hcs & Hall & Hothers).
    exists ((experiment_create self payload, Some (Json body)) :: cs).
    split; [rewrite Hcs, Hcalls, <- app_assoc; reflexivity|]. split.
    + constructor; [|exact Hall].
      exists payload, body, new. repeat split; try assumption.
      rewrite (Hothers o Hfresh), table_find_put_str, String.eqb_refl.
      reflexivity.
    + intros o' Ho'. apply not_elem_of_cons in Ho' as [Hne Ho'].
      rewrite (Hothers o' Ho'), table_find_put_str.
      destruct (String.eqb_spec o o'); [congruence|reflexivity].
Qed.

(** X15.  Creating the experiments of distinct identifiers makes one call
    per experiment, in order, each for the new dataset, and the table built
    holds, for each experiment, the identifier its call answered; any other
    identifier raises [KeyError]. *)
Theorem experiments_table nid experiments old_ids ids (s s' : State W) :
  has_ids experiments old_ids -> NoDup old_ids ->
  for_each (create_experiment http self nid) experiments [] s = (Ok ids, s') ->
  Forall2 (fun o c =>
             exists payload body new,
               c = (experiment_create self payload, Some (Json body))
               /\ Py.getitem payload "reference_dataset_id" = Ok nid
               /\ Py.getitem body "id" = Ok new
               /\ Py.table_getitem ids (VStr o) = Ok new)
    old_ids (new_calls s s')
  /\ forall o, o ∉ old_ids -> Py.table_getitem ids (VStr o) = Raise KeyError.
Proof.
  intros Hids Hdup Hrun.
  destruct (create_experiments_table nid _ _ _ _ _ _ Hids Hdup Hrun)
    as (cs & Hcs & Hall & Hothers).
  unfold new_calls. rewrite Hcs, drop_app_length. split.
  - eapply Forall2_impl; [exact Hall|].
    intros o c (payload & body & new & Hc & Href & Hnew & Hfind).
    exists payload, body, new. repeat split; try assumption.
    unfold Py.table_getitem. cbn [Py.hashable]. rewrite Hfind. reflexivity.
  - intros o Ho. unfold Py.table_getitem. cbn [Py.hashable].
    rewrite (Hothers o Ho). reflexivity.
Qed.

(** *** The loop over the pages of runs *)

(** X16.  Against a source that serves the runs in pages linked by
    cursors, the last of which has a null cursor, and with fuel for each
    page, the loop returns, after asking for each page with the cursor of
    the page before (the first query has none) and submitting each page
    rewritten before asking for the next. *)
Theorem runs_pages_followed exp_ids ex_ids :
  (forall post w, (http (batch_request self post) w).1 <> None) ->
  forall pages get_runs_payload fuel (s : State W),
    serves_runs http self exp_ids ex_ids get_runs_payload pages ->
    length pages <= fuel ->
    (push_runs http self fuel exp_ids ex_ids get_runs_payload s).1 = Ok tt
    /\ map fst
         (new_calls s
            (push_runs http self fuel exp_ids ex_ids get_runs_payload s).2)
       = run_requests self get_runs_payload pages.
Proof.
  intros Hbatch.
  assert (Hloop : forall pages get_runs_payload fuel (s : State W),
    serves_runs http self exp_ids ex_ids get_runs_payload pages ->
    length pages <= fuel ->
    exists s' cs,
      push_runs http self fuel exp_ids ex_ids get_runs_payload s = (Ok tt, s')
      /\ calls s' = calls s ++ cs
      /\ map fst cs = run_requests self get_runs_payload pages).
  { induction pages as [|[body post] rest IH];
      intros payload fuel s Hserves Hfuel; [destruct Hserves|].
    destruct fuel as [|fuel]; [cbn in Hfuel; lia|].
    cbn [serves_runs] in Hserves.
    destruct Hserves as (Hquery & (original_runs & runs & Hruns & Hiter & Hpost)
                         & (cursors & next & Hcursors & Hnext) & Hrest).
    assert (Hnc : next_cursor body = next).
    { unfold next_cursor. rewrite Hcursors. cbn [obind]. rewrite Hnext.
      reflexivity. }
    cbn [push_runs run_requests]. unfold requests_post.
    fold (query_request self payload).
    rewrite (bind_ok _ _ _ _ _ (send_answer _ _ _ _ _ (Hquery (world s)))).
    rewrite bind_lift. cbn [response_json].
    rewrite bind_lift, Hruns. rewrite bind_lift, Hiter.
    rewrite bind_lift, Hpost. fold (batch_request self post).
    unfold bind at 1. rewrite send_after. unfold after. cbn [world calls].
    pose proof (Hbatch post (world s)) as Hsome.
    destruct ((http (batch_request self post) (world s)).1) as [response|]
      eqn:Hreply; [|congruence].
    rewrite bind_lift, Hcursors. rewrite bind_lift, Hnext.
    destruct rest as [|page rest].
    - rewrite Hnc in Hrest. subst next. cbn [Py.is_none ret].
      eexists _, _. split; [reflexivity|]. cbn [calls].
      rewrite <- app_assoc. split; reflexivity.
    - destruct Hrest as [Hnot Hrest]. rewrite Hnc in Hnot, Hrest.
      rewrite Hnc.
      assert (Py.is_none next = false) as ->
        by (destruct next; try reflexivity; congruence).
      match goal with
      | |- context [push_runs _ _ _ _ _ _ ?s1] =>
          destruct (IH (Py.setitem "cursor" next payload) fuel s1 Hrest)
            as (s' & cs & Hrun & Hcs & Hmap); [cbn in Hfuel |- *; lia|]
      end.
      eexists _, _. split; [exact Hrun|]. rewrite Hcs.
      cbn [calls world]. rewrite <- !app_assoc.
      split; [reflexivity|]. cbn [map fst app]. rewrite Hmap. reflexivity. }
  intros pages payload fuel s Hserves Hfuel.
  destruct (Hloop pages payload fuel s Hserves Hfuel)
    as (s' & cs & Hrun & Hcs & Hmap).
  rewrite Hrun. cbn [fst snd]. split; [reflexivity|].
  unfold new_calls. rewrite Hcs, drop_app_length. exact Hmap.
Qed.

(** X17.  When one run of a page cannot be rewritten, the loop raises
    what the rewriting raises right after the query: no part of that page
    is submitted. *)
Theorem bad_run_blocks_page
    fuel exp_ids ex_ids get_runs_payload (s : State W) body original_runs
    runs e w1 :
  http (query_request self get_runs_payload) (world s)
  = (Some (Json body), w1) ->
  Py.getitem body "runs" = Ok original_runs ->
  Py.iter original_runs = Ok runs ->
  omap (run_payload exp_ids ex_ids) runs = Raise e ->
  push_runs http self (S fuel) exp_ids ex_ids get_runs_payload s
  = (Raise e,
     mkState w1 (calls s ++ [(query_request self get_runs_payload,
                              Some (Json body))])).
Proof.
  intros Hquery Hruns Hiter Hbad.
  cbn [push_runs]. unfold requests_post.
  fold (query_request self get_runs_payload).
  rewrite (bind_ok _ _ _ _ _ (send_answer _ _ _ _ _ Hquery)).
  rewrite bind_lift. cbn [response_json].
  rewrite bind_lift, Hruns. rewrite bind_lift, Hiter.
  rewrite bind_lift, Hbad. reflexivity.
Qed.

(** X18.  A run that has the fields copied from it, but whose
    ["session_id"] is no key of the table of experiments, cannot be
    rewritten: [KeyError] ([TypeError] when the value is not hashable). *)
Theorem unknown_session_raises exp_ids ex_ids run old :
  (forall k, k ∈ ["name"; "inputs"; "run_type"; "start_time"; "end_time";
                  "extra"; "outputs"; "trace_id"; "id"; "dotted_order"] ->
             exists v, Py.getitem run k = Ok v) ->
  Py.getitem run "session_id" = Ok old ->
  Py.table_find old exp_ids = None ->
  run_payload exp_ids ex_ids run
  = Raise (if Py.hashable old then KeyError else TypeError).
Proof.
  intros Hfields Hold Hfind.
  destruct run as [| | | | |l|d]; try discriminate.
  unfold run_payload, Py.dict. cbn [Py.display Py.get].
  repeat match goal with
         | |- context [Py.getitem (VDict d) ?k] =>
             lazymatch k with
             | "session_id" => fail
             | _ =>
                 let H := fresh in
                 destruct (Hfields k) as [? H];
                 [repeat (first [apply list_elem_of_here
                                |apply list_elem_of_further])|];
                 rewrite H; clear H; cbn [obind]
             end
         end.
  rewrite Hold. cbn [obind]. unfold Py.table_getitem. rewrite Hfind.
  destruct (Py.hashable old); reflexivity.
Qed.

(** *** More on [migrate_annotation_queue] *)

(** X19.  When the lookup answers with exactly one queue,
    [migrate_annotation_queue] returns its identifier after the two reads,
    in every mode: no queue is created and the default dataset is not
    migrated. *)
Theorem existing_queue_reused
    fuel id mode (s : State W) queue name q found w1 w2 :
  http (queue_request py_str self id) (world s) = (Some (Json queue), w1) ->
  Py.getitem queue "name" = Ok name ->
  http (queue_lookup py_str self name) w1 = (Some (Json (VList [q])), w2) ->
  Py.getitem q "id" = Ok found ->
  migrate_annotation_queue http py_str self fuel id true mode s
  = (Ok found,
     mkState w2
       (calls s ++ [(queue_request py_str self id, Some (Json queue));
                    (queue_lookup py_str self name,
                     Some (Json (VList [q])))])).
Proof.
  intros Hget Hname Hlookup Hid.
  rewrite (migrate_annotation_queue_fetched _ _ _ _ _ _ _ _ _ _ Hget).
  unfold existing_annotation_queue, requests_get.
  unfold bind at 1. rewrite bind_lift, Hname.
  fold (queue_lookup py_str self name).
  erewrite bind_ok by (apply send_answer; exact Hlookup).
  rewrite bind_lift. cbn [response_json].
  rewrite bind_lift. cbn [Py.contains existsb].
  destruct q; try discriminate. cbn [Py.is_str orb negb].
  rewrite bind_lift. cbn [Py.len length Nat.ltb Nat.leb Nat.eqb].
  rewrite bind_lift. cbn [Py.getitem_int lookup list_lookup].
  rewrite bind_lift, Hid. cbn [ret calls world].
  rewrite <- app_assoc. reflexivity.
Qed.

(** X20.  When the lookup answers with more than one queue,
    [migrate_annotation_queue] raises [ValueError] after the two reads. *)
Theorem ambiguous_queue_raises
    fuel id mode (s : State W) queue name found w1 w2 :
  http (queue_request py_str self id) (world s) = (Some (Json queue), w1) ->
  Py.getitem queue "name" = Ok name ->
  http (queue_lookup py_str self name) w1
  = (Some (Json (VList found)), w2) ->
  Forall (fun d => exists fields, d = VDict fields) found ->
  1 < length found ->
  migrate_annotation_queue http py_str self fuel id true mode s
  = (Raise (ValueError ("Found multiple annotation queues with name "
                          +:+ py_str name +:+ " in new instance")),
     mkState w2
       (calls s ++ [(queue_request py_str self id, Some (Json queue));
                    (queue_lookup py_str self name,
                     Some (Json (VList found)))])).
Proof.
  intros Hget Hname Hlookup Hdicts Hmany.
  rewrite (migrate_annotation_queue_fetched _ _ _ _ _ _ _ _ _ _ Hget).
  unfold existing_annotation_queue, requests_get.
  unfold bind at 1. rewrite bind_lift, Hname.
  fold (queue_lookup py_str self name).
  erewrite bind_ok by (apply send_answer; exact Hlookup).
  rewrite bind_lift. cbn [response_json].
  rewrite bind_lift. cbn [Py.contains].
  rewrite (no_detail_in_records _ Hdicts).
  cbn [negb]. rewrite bind_lift. cbn [Py.len].
  apply Nat.ltb_lt in Hmany. rewrite Hmany.
  unfold raise, lift. cbn [calls world]. rewrite <- app_assoc. reflexivity.
Qed.

(** X21.  In mode ["QUEUE_AND_DATASET"], a source queue whose default
    dataset is null is created at once, with a null default dataset and no
    dataset migrated; a source queue that has no ["default_dataset"] entry
    makes the function raise [KeyError] before anything is created. *)
Theorem queue_without_default_dataset
    fuel id check (s s2 : State W) queue w1 :
  http (queue_request py_str self id) (world s) = (Some (Json queue), w1) ->
  existing_annotation_queue http py_str self check queue
    (mkState w1 (calls s ++ [(queue_request py_str self id,
                              Some (Json queue))]))
  = (Ok None, s2) ->
  (forall payload,
      Py.getitem queue "default_dataset" = Ok VNone ->
      create_annotation_queue_payload queue VNone = Ok payload ->
      migrate_annotation_queue http py_str self fuel id check
        "QUEUE_AND_DATASET" s
      = (created_id (http (queue_create self payload) (world s2)).1,
         after http s2 (queue_create self payload)))
  /\ (Py.getitem queue "default_dataset" = Raise KeyError ->
      migrate_annotation_queue http py_str self fuel id check
        "QUEUE_AND_DATASET" s
      = (Raise KeyError, s2)).
Proof.
  intros Hget Hcheck. split.
  - intros payload Hd Hpayload.
    rewrite (migrate_annotation_queue_fetched _ _ _ _ _ _ _ _ _ _ Hget).
    rewrite (bind_ok _ _ _ _ _ Hcheck). cbv beta iota.
    unfold create_annotation_queue, queue_default_dataset.
    cbn [String.eqb Ascii.eqb Bool.eqb].
    unfold bind at 1. rewrite bind_lift, Hd. cbn [Py.is_none negb ret].
    rewrite bind_lift, Hpayload. apply create_queue_post.
  - intros Hd.
    rewrite (migrate_annotation_queue_fetched _ _ _ _ _ _ _ _ _ _ Hget).
    rewrite (bind_ok _ _ _ _ _ Hcheck). cbv beta iota.
    unfold create_annotation_queue, queue_default_dataset.
    cbn [String.eqb Ascii.eqb Bool.eqb].
    unfold bind at 1. rewrite bind_lift, Hd. reflexivity.
Qed.

(** X22.  Any mode other than ["QUEUE_AND_DATASET"], ["QUEUE_ONLY"] or
    any other string, creates the queue at once with a null default
    dataset, without reading the default dataset of the source queue. *)
Theorem other_queue_modes_skip_dataset
    fuel id check mode (s s2 : State W) queue payload w1 :
  http (queue_request py_str self id) (world s) = (Some (Json queue), w1) ->
  existing_annotation_queue http py_str self check queue
    (mkState w1 (calls s ++ [(queue_request py_str self id,
                              Some (Json queue))]))
  = (Ok None, s2) ->
  mode <> "QUEUE_AND_DATASET" ->
  create_annotation_queue_payload queue VNone = Ok payload ->
  migrate_annotation_queue http py_str self fuel id check mode s
  = (created_id (http (queue_create self payload) (world s2)).1,
     after http s2 (queue_create self payload)).
Proof.
  intros Hget Hcheck Hmode Hpayload.
  rewrite (migrate_annotation_queue_fetched _ _ _ _ _ _ _ _ _ _ Hget).
  rewrite (bind_ok _ _ _ _ _ Hcheck). cbv beta iota.
  unfold create_annotation_queue, queue_default_dataset.
  apply String.eqb_neq in Hmode. rewrite Hmode.
  unfold bind at 1, ret.
  rewrite bind_lift, Hpayload. apply create_queue_post.
Qed.

(** X23.  When the migration of the default dataset raises,
    [migrate_annotation_queue] raises the same exception from the state
    that migration left: the queue is not created. *)
Theorem dataset_failure_blocks_queue
    fuel id check (s s2 s3 : State W) queue d e w1 :
  http (queue_request py_str self id) (world s) = (Some (Json queue), w1) ->
  existing_annotation_queue http py_str self check queue
    (mkState w1 (calls s ++ [(queue_request py_str self id,
                              Some (Json queue))]))
  = (Ok None, s2) ->
  Py.getitem queue "default_dataset" = Ok d -> d <> VNone ->
  migrate_dataset http py_str self fuel d true "EXAMPLES" s2 = (Raise e, s3) ->
  migrate_annotation_queue http py_str self fuel id check "QUEUE_AND_DATASET" s
  = (Raise e, s3).
Proof.
  intros Hget Hcheck Hd Hnone Hmigrate.
  rewrite (migrate_annotation_queue_fetched _ _ _ _ _ _ _ _ _ _ Hget).
  rewrite (bind_ok _ _ _ _ _ Hcheck). cbv beta iota.
  unfold create_annotation_queue, queue_default_dataset.
  cbn [String.eqb Ascii.eqb Bool.eqb].
  unfold bind at 1. rewrite bind_lift, Hd.
  assert (negb (Py.is_none d) = true) as ->
    by (destruct d; try congruence; reflexivity).
  rewrite Hmigrate. reflexivity.
Qed.

(** *** More on [migrate_project_rules] *)

(** X24.  When the source answers the fetch of the rules with an empty
    list or an empty object, [migrate_project_rules] returns after that one
    call; when it answers with an object that is not empty (an error
    body), its keys are taken for rules and the function raises
    [TypeError] after that one call. *)
Theorem rules_error_body
    fuel old_project_id new_project_id (s : State W) body w1 :
  http (rules_request py_str self old_project_id) (world s)
  = (Some (Json body), w1) ->
  let fetched :=
    mkState w1 (calls s ++ [(rules_request py_str self old_project_id,
                             Some (Json body))]) in
  (body = VList [] \/ body = VDict [] ->
   migrate_project_rules http py_str self fuel old_project_id new_project_id s
   = (Ok tt, fetched))
  /\ (forall d, body = VDict d -> d <> [] ->
      migrate_project_rules http py_str self fuel old_project_id
        new_project_id s
      = (Raise TypeError, fetched)).
Proof.
  intros Hget fetched. split.
  - intros [-> | ->];
      erewrite migrate_project_rules_fetched by (try exact Hget; reflexivity);
      reflexivity.
  - intros d -> Hd.
    erewrite migrate_project_rules_fetched by (try exact Hget; reflexivity).
    destruct d as [|[k v] d]; [congruence|]. reflexivity.
Qed.

(** X25.  A rule with no dataset and no queue to add to is created by a
    single [POST], with both targets null. *)
Theorem rule_without_targets
    fuel new_project_id old_rule payload (s : State W) :
  Py.getitem old_rule "dataset_id" = Ok VNone ->
  Py.getitem old_rule "add_to_dataset_id" = Ok VNone ->
  Py.getitem old_rule "add_to_annotation_queue_id" = Ok VNone ->
  create_rule_payload new_project_id old_rule VNone VNone = Ok payload ->
  migrate_rule http py_str self fuel new_project_id old_rule tt s
  = (match (http (rule_create self payload) (world s)).1 with
     | Some _ => Ok tt
     | None => Raise RequestException
     end, after http s (rule_create self payload))
  /\ Py.getitem payload "add_to_dataset_id" = Ok VNone
  /\ Py.getitem payload "add_to_annotation_queue_id" = Ok VNone.
Proof.
  intros Hd Ht Hq Hpayload. split.
  - unfold migrate_rule. rewrite bind_lift, Hd. cbn [Py.is_none negb].
    rewrite bind_lift, Ht. cbn [Py.is_none negb].
    unfold bind at 1, ret. rewrite bind_lift, Hq. cbn [Py.is_none negb].
    unfold bind at 1. rewrite bind_lift, Hpayload.
    unfold requests_post. fold (rule_create self payload).
    unfold bind. rewrite send_after.
    destruct ((http (rule_create self payload) (world s)).1); reflexivity.
  - destruct (rule_payload_fields _ _ _ _ _ Hpayload) as (H1 & H2 & _).
    split; assumption.
Qed.

(** X26.  A rule with a queue to add to, and no dataset, has that queue
    migrated first, with the existence check and in mode
    ["QUEUE_AND_DATASET"], and is then created with
    ["add_to_annotation_queue_id"] equal to the identifier returned. *)
Theorem rule_queue_cascade
    fuel new_project_id old_rule queue new_queue_id payload (s s1 : State W) :
  Py.getitem old_rule "dataset_id" = Ok VNone ->
  Py.getitem old_rule "add_to_dataset_id" = Ok VNone ->
  Py.getitem old_rule "add_to_annotation_queue_id" = Ok queue ->
  queue <> VNone ->
  migrate_annotation_queue http py_str self fuel queue true "QUEUE_AND_DATASET"
    s = (Ok new_queue_id, s1) ->
  create_rule_payload new_project_id old_rule new_queue_id VNone = Ok payload ->
  migrate_rule http py_str self fuel new_project_id old_rule tt s
  = (match (http (rule_create self payload) (world s1)).1 with
     | Some _ => Ok tt
     | None => Raise RequestException
     end, after http s1 (rule_create self payload))
  /\ Py.getitem payload "add_to_annotation_queue_id" = Ok new_queue_id
  /\ Py.getitem payload "add_to_dataset_id" = Ok VNone.
Proof.
  intros Hd Ht Hq Hnone Hqueue Hpayload. split.
  - unfold migrate_rule. rewrite bind_lift, Hd. cbn [Py.is_none negb].
    rewrite bind_lift, Ht. cbn [Py.is_none negb].
    unfold bind at 1, ret. rewrite bind_lift, Hq.
    assert (negb (Py.is_none queue) = true) as ->
      by (destruct queue; try congruence; reflexivity).
    rewrite (bind_ok _ _ _ _ _ Hqueue).
    rewrite bind_lift, Hpayload.
    unfold requests_post. fold (rule_create self payload).
    unfold bind. rewrite send_after.
    destruct ((http (rule_create self payload) (world s1)).1); reflexivity.
  - destruct (rule_payload_fields _ _ _ _ _ Hpayload) as (H1 & H2 & _).
    split; assumption.
Qed.

(** X27.  When the migration of a rule raises, [migrate_project_rules]
    raises the same exception from the state that rule left: the rules
    after it are not processed, and what the rules before it created
    stays. *)
Theorem rule_failure_stops_loop
    fuel old_project_id new_project_id (s s0 s1 : State W) body w1
    before old_rule later e :
  http (rules_request py_str self old_project_id) (world s)
  = (Some (Json body), w1) ->
  Py.iter body = Ok (before ++ old_rule :: later) ->
  for_each (migrate_rule http py_str self fuel new_project_id) before tt
    (mkState w1 (calls s ++ [(rules_request py_str self old_project_id,
                              Some (Json body))]))
  = (Ok tt, s0) ->
  migrate_rule http py_str self fuel new_project_id old_rule tt s0
  = (Raise e, s1) ->
  migrate_project_rules http py_str self fuel old_project_id new_project_id s
  = (Raise e, s1).
Proof.
  intros Hget Hiter Hbefore Hrule.
  rewrite (migrate_project_rules_fetched _ _ _ _ _ _ _ _ _ _ Hget Hiter).
  rewrite for_each_app, (bind_ok _ _ _ _ _ Hbefore).
  cbn [for_each]. rewrite (bind_raise _ _ _ _ _ Hrule). reflexivity.
Qed.

End Further.

(** ** Further runs of the migrator *)

Section FurtherRuns.

Local Open Scope nat_scope.

Lemma misspelt_mode :
  let final :=
    migrate_dataset Scenario.http Fake.str Fake.migrator 1 (VStr "ds2") false
      "examples" (Fake.start Fake.empty) in
  final.1 = Ok (VStr "new-0")
  /\ map (fun c => method c.1) (calls final.2) = [GET; POST]
  /\ Fake.examples (Fake.destination (world final.2)) = [].
Proof.
  intros final.
  eassert (Hrun : final = _).
  { eapply (other_modes_only_create Scenario.http Fake.str Fake.migrator 1
              (VStr "ds2") false "examples" (Fake.start Fake.empty)).
    - vm_compute. reflexivity.
    - reflexivity.
    - vm_compute. reflexivity.
    - discriminate.
    - discriminate. }
  rewrite Hrun. repeat split; vm_compute; reflexivity.
Defined.

Lemma unknown_dataset :
  (migrate_dataset Scenario.http Fake.str Fake.migrator 1 (VStr "nope") true
     "EXAMPLES" (Fake.start Fake.empty)).1 = Raise KeyError
  /\ (migrate_dataset Scenario.http Fake.str Fake.migrator 1 (VStr "nope")
        false "EXAMPLES" (Fake.start Fake.empty)).1 = Raise KeyError.
Proof.
  split.
  - erewrite (missing_source_dataset Scenario.http Fake.str Fake.migrator 1
                (VStr "nope") true "EXAMPLES" (Fake.start Fake.empty));
      [reflexivity|vm_compute; reflexivity|reflexivity].
  - erewrite (missing_source_dataset Scenario.http Fake.str Fake.migrator 1
                (VStr "nope") false "EXAMPLES" (Fake.start Fake.empty));
      [reflexivity|vm_compute; reflexivity|reflexivity].
Defined.

Lemma payload_of_bar :
  exists name description created_at inputs_schema outputs_schema
         externally_managed transformations data_type,
    Py.getitem (Scenario.dataset "ds2" "bar") "name" = Ok name
    /\ Py.getitem (Scenario.dataset "ds2" "bar") "description" = Ok description
    /\ Py.getitem (Scenario.dataset "ds2" "bar") "created_at" = Ok created_at
    /\ Py.getitem (Scenario.dataset "ds2" "bar") "inputs_schema_definition"
       = Ok inputs_schema
    /\ Py.getitem (Scenario.dataset "ds2" "bar") "outputs_schema_definition"
       = Ok outputs_schema
    /\ Py.getitem (Scenario.dataset "ds2" "bar") "externally_managed"
       = Ok externally_managed
    /\ Py.getitem (Scenario.dataset "ds2" "bar") "transformations"
       = Ok transformations
    /\ Py.getitem (Scenario.dataset "ds2" "bar") "data_type" = Ok data_type
    /\ VDict [("name", VStr "bar");
              ("description", VStr "questions and answers");
              ("created_at", VStr "2024-01-01T00:00:00");
              ("inputs_schema_definition", VNone);
              ("outputs_schema_definition", VNone);
              ("externally_managed", VBool false);
              ("transformations", VList []);
              ("data_type", VStr "kv")]
       = VDict [("name", name); ("description", description);
                ("created_at", created_at);
                ("inputs_schema_definition", inputs_schema);
                ("outputs_schema_definition", outputs_schema);
                ("externally_managed", externally_managed);
                ("transformations",
                  if Py.truthy transformations then transformations
                  else VList []);
                ("data_type", data_type)].
Proof.
  apply (dataset_payload_copies (Scenario.dataset "ds2" "bar")).
  reflexivity.
Defined.

Lemma broken_example_after_create :
  let final :=
    migrate_dataset Cases.faulty_http Fake.str Fake.migrator 1 (VStr "ds3")
      true "EXAMPLES" (Fake.start Fake.empty) in
  final.1 = Raise KeyError
  /\ length (Fake.datasets (Fake.destination (world final.2))) = 1
  /\ Fake.examples (Fake.destination (world final.2)) = [].
Proof.
  intros final.
  edestruct (examples_failure_leaves_dataset Cases.faulty_http Fake.str
               Fake.migrator 1 (VStr "ds3") true (Fake.start Fake.empty))
    as (Hrun & later & Hcalls & Hno).
  - vm_compute. reflexivity.
  - vm_compute. reflexivity.
  - vm_compute. reflexivity.
  - vm_compute. reflexivity.
  - vm_compute. reflexivity.
  - vm_compute. reflexivity.
  - unfold final. rewrite Hrun. repeat split; vm_compute; reflexivity.
Defined.

Lemma creation_refused :
  migrate_dataset Stub.scripted Fake.str Stub.migrator 1 (VStr "ds2") true
    "EXAMPLES"
    (Stub.script [Some (Json (Scenario.dataset "ds2" "bar"));
                  Some (Json (VList []));
                  Some (Json Cases.error_body)])
  = (Raise KeyError,
     mkState []
       [(dataset_request Fake.str Stub.migrator (VStr "ds2"),
         Some (Json (Scenario.dataset "ds2" "bar")));
        (dataset_lookup Fake.str Stub.migrator (VStr "bar"),
         Some (Json (VList [])));
        (dataset_create Stub.migrator
           (VDict [("name", VStr "bar");
                   ("description", VStr "questions and answers");
                   ("created_at", VStr "2024-01-01T00:00:00");
                   ("inputs_schema_definition", VNone);
                   ("outputs_schema_definition", VNone);
                   ("externally_managed", VBool false);
                   ("transformations", VList []);
                   ("data_type", VStr "kv")]),
         Some (Json Cases.error_body))]).
Proof.
  eapply (create_without_id Stub.scripted Fake.str Stub.migrator 1
            (VStr "ds2") true "EXAMPLES" _
            (mkState [Some (Json Cases.error_body)]
               [(dataset_request Fake.str Stub.migrator (VStr "ds2"),
                 Some (Json (Scenario.dataset "ds2" "bar")));
                (dataset_lookup Fake.str Stub.migrator (VStr "bar"),
                 Some (Json (VList [])))])).
  - reflexivity.
  - reflexivity.
  - reflexivity.
  - reflexivity.
  - reflexivity.
Defined.

(** The source of [Cases.paged] serves its examples by offset. *)
Lemma paged_serves exs bulk ds :
  serves_examples (Stub.http (Cases.paged exs bulk)) Stub.migrator ds exs.
Proof.
  intros [] offset. unfold Stub.http, Cases.paged, Stub.offset_of.
  cbn [method examples_request params Fake.field Py.lookup_key String.eqb
       Ascii.eqb Bool.eqb Fake.nat_of].
  rewrite Nat2Z.id. reflexivity.
Qed.

(** Three examples submitted: a destination that answers two records gives
    a table of two entries, one that answers four makes the function
    raise. *)
Lemma bulk_short_and_long :
  (migrate_dataset_examples
     (Stub.http (Cases.paged (Stub.items 3) (Json (VList (Cases.created 2)))))
     Stub.migrator 1 (VStr "ds") (VStr "new") Stub.start).1
  = Ok [(VStr "i-0", VStr "n-0"); (VStr "i-1", VStr "n-1")]
  /\ (migrate_dataset_examples
        (Stub.http (Cases.paged (Stub.items 3)
                      (Json (VList (Cases.created 4)))))
        Stub.migrator 1 (VStr "ds") (VStr "new") Stub.start).1
     = Raise IndexError.
Proof.
  split.
  - edestruct (bulk_answer_length
                 (Stub.http (Cases.paged (Stub.items 3)
                               (Json (VList (Cases.created 2)))))
                 Stub.migrator (VStr "ds") (VStr "new") (Stub.items 3)
                 (Scenario.payloads (VStr "new") (Stub.items 3))
                 (Cases.created 2) ["i-0"; "i-1"; "i-2"] ["n-0"; "n-1"]
                 0 3 1 Stub.start tt)
      as ([Hrun _] & _).
    + apply paged_serves.
    + reflexivity.
    + lia.
    + lia.
    + vm_compute. reflexivity.
    + repeat constructor.
    + apply (bool_decide_unpack _). vm_compute. exact I.
    + reflexivity.
    + repeat constructor.
    + cbn. lia.
    + exact Hrun.
  - edestruct (bulk_answer_length
                 (Stub.http (Cases.paged (Stub.items 3)
                               (Json (VList (Cases.created 4)))))
                 Stub.migrator (VStr "ds") (VStr "new") (Stub.items 3)
                 (Scenario.payloads (VStr "new") (Stub.items 3))
                 (Cases.created 4) ["i-0"; "i-1"; "i-2"]
                 ["n-0"; "n-1"; "n-2"; "n-3"]
                 0 3 1 Stub.start tt)
      as (_ & Hrun).
    + apply paged_serves.
    + reflexivity.
    + lia.
    + lia.
    + vm_compute. reflexivity.
    + repeat constructor.
    + apply (bool_decide_unpack _). vm_compute. exact I.
    + reflexivity.
    + repeat constructor.
    + apply Hrun. cbn. lia.
Defined.

(** Three examples submitted to a destination that answers the error body
    or an empty object. *)
Lemma bulk_refused :
  (migrate_dataset_examples
     (Stub.http (Cases.paged (Stub.items 3) (Json Cases.error_body)))
     Stub.migrator 1 (VStr "ds") (VStr "new") Stub.start).1
  = Raise KeyError
  /\ (migrate_dataset_examples
        (Stub.http (Cases.paged (Stub.items 3) (Json (VDict []))))
        Stub.migrator 1 (VStr "ds") (VStr "new") Stub.start).1
     = Ok [].
Proof.
  split.
  - edestruct (bulk_error_body
                 (Stub.http (Cases.paged (Stub.items 3)
                               (Json Cases.error_body)))
                 Stub.migrator (VStr "ds") (VStr "new") (Stub.items 3)
                 (Scenario.payloads (VStr "new") (Stub.items 3))
                 [("detail", VStr "Forbidden")] 0 3 1 Stub.start tt)
      as (_ & Hrun).
    + apply paged_serves.
    + reflexivity.
    + lia.
    + lia.
    + vm_compute. reflexivity.
    + reflexivity.
    + apply (Hrun (Stub.item 0) (VStr "i-0")).
      * discriminate.
      * reflexivity.
      * reflexivity.
  - edestruct (bulk_error_body
                 (Stub.http (Cases.paged (Stub.items 3) (Json (VDict []))))
                 Stub.migrator (VStr "ds") (VStr "new") (Stub.items 3)
                 (Scenario.payloads (VStr "new") (Stub.items 3))
                 [] 0 3 1 Stub.start tt)
      as (Hrun & _).
    + apply paged_serves.
    + reflexivity.
    + lia.
    + lia.
    + vm_compute. reflexivity.
    + reflexivity.
    + apply Hrun. reflexivity.
Defined.

(** Three examples, the first and the last with the same identifier: the
    table has two entries and the shared identifier leads to the record
    created last. *)
Lemma twins_mapped :
  exists mapping : Py.table,
    (migrate_dataset_examples
       (Stub.http (Cases.paged Cases.twin_items
                     (Json (VList (Cases.created 3)))))
       Stub.migrator 1 (VStr "ds") (VStr "new") Stub.start).1 = Ok mapping
    /\ NoDup mapping.*1
    /\ Py.table_find (VStr "i-0") mapping = Some (VStr "n-2")
    /\ Py.table_find (VStr "i-1") mapping = Some (VStr "n-1")
    /\ length mapping = 2.
Proof.
  edestruct (repeated_ids_last_wins
               (Stub.http (Cases.paged Cases.twin_items
                             (Json (VList (Cases.created 3)))))
               Stub.migrator (VStr "ds") (VStr "new") Cases.twin_items
               (Scenario.payloads (VStr "new") Cases.twin_items)
               (Cases.created 3) ["i-0"; "i-1"; "i-0"] ["n-0"; "n-1"; "n-2"]
               0 3 1 Stub.start tt)
    as (mapping & Hrun & Hkeys & Hfind).
  - apply paged_serves.
  - reflexivity.
  - lia.
  - lia.
  - vm_compute. reflexivity.
  - repeat constructor.
  - reflexivity.
  - reflexivity.
  - repeat constructor.
  - exists mapping. split; [exact Hrun|]. split; [exact Hkeys|].
    split; [apply (Hfind "i-0")|]. split; [apply (Hfind "i-1")|].
    vm_compute in Hrun. injection Hrun as <-. reflexivity.
Defined.

(** Of 120 examples served in pages of 50, the loop returns the first 50,
    after one request. *)
Lemma first_fifty :
  fetch_examples (Stub.http Stub.pages_of_50) Stub.migrator 3 (VStr "ds") 0
    100 [] Stub.start
  = (Ok (take 50 (Stub.items 120)),
     mkState tt
       [(examples_request Stub.migrator (VStr "ds") 0,
         Some (Json (VList (take 50 (Stub.items 120)))))]).
Proof.
  apply (short_pages_truncate (Stub.http Stub.pages_of_50) Stub.migrator
           (VStr "ds") (Stub.items 120) 50 2 Stub.start).
  - intros [] offset. unfold Stub.http, Stub.pages_of_50, Stub.offset_of.
    cbn [examples_request params Fake.field Py.lookup_key String.eqb
         Ascii.eqb Bool.eqb Fake.nat_of].
    rewrite Nat2Z.id. reflexivity.
  - lia.
  - vm_compute. lia.
Defined.

(** A source that always answers the same hundred examples exhausts a
    budget of seven requests. *)
Lemma seven_requests :
  (fetch_examples (Stub.http Stub.same_page) Stub.migrator 7 (VStr "ds") 0
     100 [] Stub.start).1 = OutOfFuel
  /\ length (new_calls Stub.start
               (fetch_examples (Stub.http Stub.same_page) Stub.migrator 7
                  (VStr "ds") 0 100 [] Stub.start).2) = 7
  /\ (migrate_dataset_examples (Stub.http Stub.same_page) Stub.migrator 7
        (VStr "ds") (VStr "new") Stub.start).1 = OutOfFuel.
Proof.
  assert (Hsrc : forall (w : unit) (offset : nat), exists page w',
             Stub.http Stub.same_page
               (examples_request Stub.migrator (VStr "ds") offset) w
             = (Some (Json (VList page)), w')
             /\ length page = 100).
  { intros w offset. exists (Stub.items 100), w. split; reflexivity. }
  destruct (full_pages_never_end (Stub.http Stub.same_page) Stub.migrator
              (VStr "ds") Hsrc 7 [] Stub.start) as (Hout & Hcalls & Hrun).
  split; [exact Hout|]. split; [exact Hcalls|]. apply Hrun.
Defined.

(** A source that answers the page request with an error body. *)
Lemma examples_forbidden :
  migrate_dataset_examples (Stub.http Stub.forbidden) Stub.migrator 1
    (VStr "ds") (VStr "new") Stub.start
  = (Raise TypeError,
     mkState tt
       [(examples_request Stub.migrator (VStr "ds") 0,
         Some (Json (VDict [("detail", VStr "Forbidden")])))]).
Proof.
  apply (examples_error_body (Stub.http Stub.forbidden) Stub.migrator
           (VStr "ds") (VStr "new") [("detail", VStr "Forbidden")] 0
           Stub.start tt).
  - reflexivity.
  - discriminate.
  - cbn. lia.
Defined.

Lemma experiments_url_inj m n :
  Cases.experiments_url m = Cases.experiments_url n -> m = n.
Proof.
  unfold Cases.experiments_url, experiments_request. cbn [url Fake.str].
  intros H. apply String.eqb_eq in H. rewrite !eqb_append_l in H.
  apply String.eqb_eq in H. apply (inj pretty) in H. lia.
Qed.

Lemma two_experiments_served :
  serves_experiments (Stub.http Cases.two_experiments) Fake.str Stub.migrator
    (VStr "ds2") Cases.experiments.
Proof.
  intros [] offset. unfold Stub.http, Cases.two_experiments.
  fold (Cases.experiments_url offset).
  destruct offset as [|[|offset]].
  - reflexivity.
  - reflexivity.
  - destruct (String.eqb_spec (Cases.experiments_url (S (S offset)))
                (Cases.experiments_url 0)) as [H|_];
      [apply experiments_url_inj in H; lia|].
    destruct (String.eqb_spec (Cases.experiments_url (S (S offset)))
                (Cases.experiments_url 1)) as [H|_];
      [apply experiments_url_inj in H; lia|].
    rewrite drop_ge by (cbn; lia). reflexivity.
Qed.

(** Two experiments are read with one request, at offset 0. *)
Lemma two_experiments_read :
  fetch_experiments (Stub.http Cases.two_experiments) Fake.str Stub.migrator 1
    (VStr "ds2") 0 100 [] Stub.start
  = (Ok Cases.experiments,
     mkState tt
       [(experiments_request Fake.str Stub.migrator (VStr "ds2") 0,
         Some (Json (VList Cases.experiments)))]).
Proof.
  apply (experiments_paged (Stub.http Cases.two_experiments) Fake.str
           Stub.migrator (VStr "ds2") Cases.experiments 0 2 1 Stub.start).
  - exact two_experiments_served.
  - reflexivity.
  - lia.
  - lia.
Defined.

(** The experiment ["e1"] created for the new dataset ["new-0"]. *)
Lemma first_experiment_created :
  let experiment := Scenario.experiment "e1" "first" in
  let final :=
    create_experiment Scenario.http Fake.migrator (VStr "new-0") experiment []
      (Fake.start Fake.empty) in
  exists payload body,
    last (calls final.2)
    = Some (experiment_create Fake.migrator payload, Some (Json body))
    /\ Py.getitem payload "reference_dataset_id" = Ok (VStr "new-0")
    /\ Py.getitem payload "default_dataset_id"
       = Py.getitem experiment "default_dataset_id"
    /\ Py.getitem payload "name" = Py.getitem experiment "name"
    /\ Py.getitem payload "description" = Py.getitem experiment "description"
    /\ Py.getitem payload "start_time" = Py.getitem experiment "start_time"
    /\ Py.getitem payload "end_time" = Py.getitem experiment "end_time"
    /\ Py.getitem payload "extra" = Py.getitem experiment "extra"
    /\ Py.getitem payload "trace_tier" = Py.get experiment "trace_tier" VNone.
Proof.
  intros experiment final.
  apply (experiment_payload_fields Scenario.http Fake.migrator (VStr "new-0")
           experiment [] [(VStr "e1", VStr "new-0")] (Fake.start Fake.empty)
           final.2).
  vm_compute. reflexivity.
Defined.

(** The two experiments created in turn, and the table that results. *)
Lemma two_experiments_created :
  let start := Fake.start Fake.empty in
  let final :=
    for_each (create_experiment Scenario.http Fake.migrator (VStr "new-9"))
      Cases.experiments [] start in
  Forall2 (fun o c =>
             exists payload body new,
               c = (experiment_create Fake.migrator payload, Some (Json body))
               /\ Py.getitem payload "reference_dataset_id"
                  = Ok (VStr "new-9")
               /\ Py.getitem body "id" = Ok new
               /\ Py.table_getitem Cases.exp_ids (VStr o) = Ok new)
    ["e1"; "e2"] (new_calls start final.2)
  /\ Py.table_getitem Cases.exp_ids (VStr "e3") = Raise KeyError.
Proof.
  intros start final.
  edestruct (experiments_table Scenario.http Fake.migrator (VStr "new-9")
               Cases.experiments ["e1"; "e2"] Cases.exp_ids start final.2)
    as (Hcalls & Hothers).
  - repeat constructor.
  - apply (bool_decide_unpack _). vm_compute. exact I.
  - vm_compute. reflexivity.
  - split; [exact Hcalls|]. apply Hothers.
    apply (bool_decide_unpack _). vm_compute. exact I.
Defined.

(** The source of the scenario answers the two queries of runs from its
    own records, whatever the state of the destination. *)
Lemma source_answers_query payload (w : Fake.platform) :
  payload = Cases.first_query \/ payload = Cases.second_query ->
  Scenario.http (query_request Fake.migrator payload) w
  = (Some (Json (Cases.page_of payload)), w).
Proof.
  unfold Cases.page_of, Scenario.http, Fake.http.
  change (headers (query_request Fake.migrator payload))
    with (old_headers Fake.migrator).
  rewrite !decide_True by reflexivity.
  intros [-> | ->]; vm_compute; reflexivity.
Qed.

Lemma destination_answers_batch post (w : Fake.platform) :
  (Scenario.http (batch_request Fake.migrator post) w).1 <> None.
Proof.
  unfold Scenario.http, Fake.http.
  change (headers (batch_request Fake.migrator post))
    with (new_headers Fake.migrator).
  rewrite decide_False by discriminate.
  rewrite decide_True by reflexivity.
  destruct (Fake.search_down w && _); [discriminate|].
  destruct (Fake.serve _ _ _ _) as [[response i] n]. discriminate.
Qed.

(** The three runs of the two experiments come in two pages: the loop
    makes four calls, query and batch for each page, the second query
    with the cursor of the first page. *)
Lemma two_pages_of_runs :
  let start := Fake.start Fake.empty in
  let final :=
    push_runs Scenario.http Fake.migrator 2 Cases.exp_ids Cases.ex_ids
      Cases.first_query start in
  final.1 = Ok tt
  /\ map fst (new_calls start final.2)
     = [query_request Fake.migrator Cases.first_query;
        batch_request Fake.migrator (Cases.batch_of
                                       (Cases.page_of Cases.first_query));
        query_request Fake.migrator Cases.second_query;
        batch_request Fake.migrator (Cases.batch_of
                                       (Cases.page_of Cases.second_query))].
Proof.
  intros start final.
  apply (runs_pages_followed Scenario.http Fake.migrator Cases.exp_ids
           Cases.ex_ids destination_answers_batch Cases.pages
           Cases.first_query 2 start).
  - cbn [serves_runs Cases.pages].
    split; [intros w; apply source_answers_query; left; reflexivity|].
    split; [eexists _, _; repeat split; vm_compute; reflexivity|].
    split; [eexists _, _; split; vm_compute; reflexivity|].
    split; [vm_compute; discriminate|].
    split; [intros w; apply source_answers_query; right; reflexivity|].
    split; [eexists _, _; repeat split; vm_compute; reflexivity|].
    split; [eexists _, _; split; vm_compute; reflexivity|].
    vm_compute. reflexivity.
  - cbn. lia.
Defined.

(** With an empty table of experiments, the first page of runs raises
    [KeyError] after the query: no batch is submitted. *)
Lemma runs_of_unknown_experiments :
  push_runs Scenario.http Fake.migrator 2 [] Cases.ex_ids Cases.first_query
    (Fake.start Fake.empty)
  = (Raise KeyError,
     mkState (world (Fake.start Fake.empty))
       [(query_request Fake.migrator Cases.first_query,
         Some (Json (Cases.page_of Cases.first_query)))]).
Proof.
  eapply (bad_run_blocks_page Scenario.http Fake.migrator 1 [] Cases.ex_ids
            Cases.first_query (Fake.start Fake.empty)
            (Cases.page_of Cases.first_query)).
  - apply source_answers_query. left. reflexivity.
  - vm_compute. reflexivity.
  - reflexivity.
  - vm_compute. reflexivity.
Defined.

(** A run of the experiment ["e1"] against a table that knows ["e2"]
    only. *)
Lemma run_of_unknown_experiment :
  run_payload (id_table ["e2"] ["new-1"]) Cases.ex_ids
    (Scenario.run "r1" "e1" "1" [("reference_example_id", VStr "b-1")])
  = Raise KeyError.
Proof.
  apply (unknown_session_raises (id_table ["e2"] ["new-1"]) Cases.ex_ids
           (Scenario.run "r1" "e1" "1" [("reference_example_id", VStr "b-1")])
           (VStr "e1")).
  - intros k Hk. repeat (apply elem_of_cons in Hk as [->|Hk];
                         [eexists; reflexivity|]).
    apply elem_of_nil in Hk. destruct Hk.
  - reflexivity.
  - reflexivity.
Defined.

(** The destination answers the lookup with one queue: its identifier is
    returned after two calls, in a mode that is no mode. *)
Lemma queue_found_once :
  migrate_annotation_queue Stub.scripted Fake.str Stub.migrator 1 (VStr "q1")
    true "anything"
    (Stub.script [Some (Json Scenario.queue);
                  Some (Json (VList [Fake.with_id 7 Scenario.queue]))])
  = (Ok (VStr "new-7"),
     mkState []
       [(queue_request Fake.str Stub.migrator (VStr "q1"),
         Some (Json Scenario.queue));
        (queue_lookup Fake.str Stub.migrator (VStr "review"),
         Some (Json (VList [Fake.with_id 7 Scenario.queue])))]).
Proof.
  apply (existing_queue_reused Stub.scripted Fake.str Stub.migrator 1
           (VStr "q1") "anything"
           (Stub.script [Some (Json Scenario.queue);
                         Some (Json (VList [Fake.with_id 7 Scenario.queue]))])
           Scenario.queue (VStr "review") (Fake.with_id 7 Scenario.queue)
           (VStr "new-7")
           [Some (Json (VList [Fake.with_id 7 Scenario.queue]))] []).
  - reflexivity.
  - reflexivity.
  - reflexivity.
  - reflexivity.
Defined.

(** The destination answers the lookup with two queues. *)
Lemma queue_found_twice :
  let found := [Fake.with_id 7 Scenario.queue; Fake.with_id 8 Scenario.queue] in
  migrate_annotation_queue Stub.scripted Fake.str Stub.migrator 1 (VStr "q1")
    true "QUEUE_ONLY"
    (Stub.script [Some (Json Scenario.queue); Some (Json (VList found))])
  = (Raise (ValueError
              "Found multiple annotation queues with name review in new instance"),
     mkState []
       [(queue_request Fake.str Stub.migrator (VStr "q1"),
         Some (Json Scenario.queue));
        (queue_lookup Fake.str Stub.migrator (VStr "review"),
         Some (Json (VList found)))]).
Proof.
  intros found.
  apply (ambiguous_queue_raises Stub.scripted Fake.str Stub.migrator 1
           (VStr "q1") "QUEUE_ONLY"
           (Stub.script [Some (Json Scenario.queue);
                         Some (Json (VList found))])
           Scenario.queue (VStr "review") found
           [Some (Json (VList found))] []).
  - reflexivity.
  - reflexivity.
  - reflexivity.
  - repeat constructor; eexists; reflexivity.
  - cbn. lia.
Defined.

(** A queue with a null default dataset is created by the third call; a
    queue without the entry is not created. *)
Lemma queues_without_dataset :
  (exists payload,
      Py.getitem payload "default_dataset" = Ok VNone
      /\ migrate_annotation_queue Stub.scripted Fake.str Stub.migrator 1
           (VStr "q1") true "QUEUE_AND_DATASET"
           (Stub.script [Some (Json Cases.plain_queue);
                         Some (Json (VList []));
                         Some (Json (VDict [("id", VStr "new-q")]))])
         = (Ok (VStr "new-q"),
            mkState []
              [(queue_request Fake.str Stub.migrator (VStr "q1"),
                Some (Json Cases.plain_queue));
               (queue_lookup Fake.str Stub.migrator (VStr "review"),
                Some (Json (VList [])));
               (queue_create Stub.migrator payload,
                Some (Json (VDict [("id", VStr "new-q")])))]))
  /\ migrate_annotation_queue Stub.scripted Fake.str Stub.migrator 1
       (VStr "q1") true "QUEUE_AND_DATASET"
       (Stub.script [Some (Json Cases.keyless_queue);
                     Some (Json (VList []));
                     Some (Json (VDict [("id", VStr "new-q")]))])
     = (Raise KeyError,
        mkState [Some (Json (VDict [("id", VStr "new-q")]))]
          [(queue_request Fake.str Stub.migrator (VStr "q1"),
            Some (Json Cases.keyless_queue));
           (queue_lookup Fake.str Stub.migrator (VStr "review"),
            Some (Json (VList [])))]).
Proof.
  split.
  - edestruct (queue_without_default_dataset Stub.scripted Fake.str
                 Stub.migrator 1 (VStr "q1") true
                 (Stub.script [Some (Json Cases.plain_queue);
                               Some (Json (VList []));
                               Some (Json (VDict [("id", VStr "new-q")]))]))
      as (Hnull & _).
    + reflexivity.
    + vm_compute. reflexivity.
    + eexists. split; [|apply Hnull; [reflexivity|vm_compute; reflexivity]].
      reflexivity.
  - edestruct (queue_without_default_dataset Stub.scripted Fake.str
                 Stub.migrator 1 (VStr "q1") true
                 (Stub.script [Some (Json Cases.keyless_queue);
                               Some (Json (VList []));
                               Some (Json (VDict [("id", VStr "new-q")]))]))
      as (_ & Hmissing).
    + reflexivity.
    + vm_compute. reflexivity.
    + apply Hmissing. reflexivity.
Defined.

(** A mode in the wrong case: the queue of the scenario is created alone,
    although it has a default dataset. *)
Lemma queue_mode_misspelt :
  let final :=
    migrate_annotation_queue Scenario.http Fake.str Fake.migrator 1
      (VStr "q1") false "queue_and_dataset" (Fake.start Fake.empty) in
  final.1 = Ok (VStr "new-0")
  /\ Fake.datasets (Fake.destination (world final.2)) = []
  /\ map (Fake.field "default_dataset")
       (Fake.queues (Fake.destination (world final.2))) = [VNone].
Proof.
  intros final.
  eassert (Hrun : final = _).
  { eapply (other_queue_modes_skip_dataset Scenario.http Fake.str
              Fake.migrator 1 (VStr "q1") false "queue_and_dataset"
              (Fake.start Fake.empty)).
    - vm_compute. reflexivity.
    - reflexivity.
    - discriminate.
    - vm_compute. reflexivity. }
  rewrite Hrun. repeat split; vm_compute; reflexivity.
Defined.

(** A queue whose default dataset the source does not have: nothing is
    created on the destination. *)
Lemma orphan_queue_not_created :
  let final :=
    migrate_annotation_queue Cases.faulty_http Fake.str Fake.migrator 1
      (VStr "q3") true "QUEUE_AND_DATASET" (Fake.start Fake.empty) in
  final.1 = Raise KeyError
  /\ Fake.queues (Fake.destination (world final.2)) = []
  /\ Fake.datasets (Fake.destination (world final.2)) = [].
Proof.
  intros final.
  eassert (Hrun : final = _).
  { eapply (dataset_failure_blocks_queue Cases.faulty_http Fake.str
              Fake.migrator 1 (VStr "q3") true (Fake.start Fake.empty)).
    - vm_compute. reflexivity.
    - vm_compute. reflexivity.
    - vm_compute. reflexivity.
    - discriminate.
    - vm_compute. reflexivity. }
  rewrite Hrun. repeat split; vm_compute; reflexivity.
Defined.

(** A project without rules, and a source that answers with an error
    body. *)
Lemma rules_none_or_forbidden :
  migrate_project_rules Scenario.http Fake.str Fake.migrator 1 (VStr "p9")
    (VStr "np") (Fake.start Fake.empty)
  = (Ok tt,
     mkState (world (Fake.start Fake.empty))
       [(rules_request Fake.str Fake.migrator (VStr "p9"),
         Some (Json (VList [])))])
  /\ migrate_project_rules (Stub.http Stub.forbidden) Fake.str Stub.migrator 1
       (VStr "p1") (VStr "np") Stub.start
     = (Raise TypeError,
        mkState tt
          [(rules_request Fake.str Stub.migrator (VStr "p1"),
            Some (Json Cases.error_body))]).
Proof.
  split.
  - edestruct (rules_error_body Scenario.http Fake.str Fake.migrator 1
                 (VStr "p9") (VStr "np") (Fake.start Fake.empty) (VList []))
      as (Hempty & _).
    + vm_compute. reflexivity.
    + apply Hempty. left. reflexivity.
  - edestruct (rules_error_body (Stub.http Stub.forbidden) Fake.str
                 Stub.migrator 1 (VStr "p1") (VStr "np") Stub.start
                 Cases.error_body)
      as (_ & Herror).
    + reflexivity.
    + apply (Herror [("detail", VStr "Forbidden")]);
        [reflexivity|discriminate].
Defined.

(** A rule without targets is created by one call. *)
Lemma plain_rule_created :
  let final :=
    migrate_rule Scenario.http Fake.str Fake.migrator 1 (VStr "np")
      Cases.plain_rule tt (Fake.start Fake.empty) in
  final.1 = Ok tt
  /\ length (calls final.2) = 1
  /\ map (Fake.field "add_to_dataset_id")
       (Fake.rules (Fake.destination (world final.2))) = [VNone]
  /\ map (Fake.field "add_to_annotation_queue_id")
       (Fake.rules (Fake.destination (world final.2))) = [VNone].
Proof.
  intros final.
  edestruct (rule_without_targets Scenario.http Fake.str Fake.migrator 1
               (VStr "np") Cases.plain_rule)
    with (s := Fake.start Fake.empty) as (Hrun & _ & _).
  - reflexivity.
  - reflexivity.
  - reflexivity.
  - vm_compute. reflexivity.
  - unfold final. rewrite Hrun. repeat split; vm_compute; reflexivity.
Defined.

(** A rule that routes to the queue of the scenario: the queue and its
    default dataset are migrated, then the rule is created for the new
    queue. *)
Lemma routing_rule_created :
  let final :=
    migrate_rule Scenario.http Fake.str Fake.migrator 1 (VStr "np")
      Cases.routing_rule tt (Fake.start Fake.empty) in
  final.1 = Ok tt
  /\ map (Fake.field "id") (Fake.queues (Fake.destination (world final.2)))
     = [VStr "new-4"]
  /\ map (Fake.field "add_to_annotation_queue_id")
       (Fake.rules (Fake.destination (world final.2))) = [VStr "new-4"]
  /\ map (Fake.field "add_to_dataset_id")
       (Fake.rules (Fake.destination (world final.2))) = [VNone].
Proof.
  intros final.
  edestruct (rule_queue_cascade Scenario.http Fake.str Fake.migrator 1
               (VStr "np") Cases.routing_rule (VStr "q1") (VStr "new-4"))
    with (s := Fake.start Fake.empty) as (Hrun & _ & _).
  - reflexivity.
  - reflexivity.
  - reflexivity.
  - discriminate.
  - vm_compute. reflexivity.
  - vm_compute. reflexivity.
  - unfold final. rewrite Hrun. repeat split; vm_compute; reflexivity.
Defined.

(** Three rules, the second of which points to a dataset the source does
    not have: the first is created, the third is not. *)
Lemma second_rule_fails :
  let final :=
    migrate_project_rules Cases.faulty_http Fake.str Fake.migrator 1
      (VStr "p1") (VStr "np") (Fake.start Fake.empty) in
  final.1 = Raise KeyError
  /\ map (Fake.field "display_name")
       (Fake.rules (Fake.destination (world final.2))) = [VStr "plain"].
Proof.
  intros final.
  eassert (Hrun : final = _).
  { eapply (rule_failure_stops_loop Cases.faulty_http Fake.str Fake.migrator
              1 (VStr "p1") (VStr "np") (Fake.start Fake.empty) _ _ _ _
              [Cases.plain_rule] Cases.lost_rule [Scenario.collecting_rule]).
    - vm_compute. reflexivity.
    - reflexivity.
    - vm_compute. reflexivity.
    - vm_compute. reflexivity. }
  rewrite Hrun. repeat split; vm_compute; reflexivity.
Defined.

End FurtherRuns.
